(** * Areas router of the smart-social-distancing processor API

    A shallow embedding of [api/routers/areas.py]: the five area handlers
    and the occupancy-rule sidecar helpers, over an explicit model of the
    configuration store, the sidecar files and the area directories.

    Python values are modelled as follows.
    - [str] is [string]; [str.upper], [str.split], [str.join] and
      [str.startswith] are written out below (on ASCII letters, which is
      all the comparison with the reserved token depends on).
    - The configuration is a Python [dict] of sections, each a [dict] of
      settings.  The outer dict is iterated and indexed by position, so it
      is an association list in insertion order; a section is only ever
      read by key, so it is a [gmap].
    - A raised exception ends the handler and keeps the effects performed
      so far: handlers live in a state-and-exception monad over [World].
    - A file or directory is the list of its components from the root.
      An area id is any string, so what [os.path.join] builds from a
      base directory and an id is kept as a path name and followed as
      the kernel follows it, through ["."], [".."] and the slashes the
      id may hold, before [shutil.rmtree] and [Path.mkdir] act on it. *)

From Stdlib Require Import ZArith List Ascii String Lia.
From stdpp Require Import base option list gmap sets strings pretty.

Open Scope Z_scope.
Open Scope string_scope.
Open Scope list_scope.

(** ** Python string operations *)

Module PyStr.

(** [c.upper()] for one ASCII character. *)
Definition upper_ascii (c : ascii) : ascii :=
  let n := nat_of_ascii c in
  if (andb (Nat.leb 97 n) (Nat.leb n 122)) then ascii_of_nat (n - 32) else c.

(** [s.upper()] *)
Fixpoint upper (s : string) : string :=
  match s with
  | EmptyString => EmptyString
  | String c s' => String (upper_ascii c) (upper s')
  end.

(** [s.split(sep)] for a one-character separator: never empty, and
    [''.split(',') == ['']]. *)
Fixpoint split (sep : ascii) (s : string) : list string :=
  match s with
  | EmptyString => [EmptyString]
  | String c s' =>
      if Ascii.eqb c sep then EmptyString :: split sep s'
      else match split sep s' with
           | h :: t => String c h :: t
           | [] => [String c EmptyString]
           end
  end.

(** [sep.join(l)] *)
Definition join (sep : string) (l : list string) : string :=
  String.concat sep l.

(** [s.startswith(p)] *)
Definition startswith (s p : string) : bool := String.prefix p s.
Arguments startswith : simpl never.

(** [x in l] for a list of strings. *)
Definition mem (x : string) (l : list string) : bool :=
  existsb (String.eqb x) l.

(** [l.index(x)]: position of the first occurrence; [None] stands for
    the [ValueError] Python raises. *)
Fixpoint index (x : string) (l : list string) : option nat :=
  match l with
  | [] => None
  | y :: l' => if String.eqb y x then Some 0%nat
               else option_map S (index x l')
  end.

End PyStr.

(** ** Python dicts keyed by strings, in insertion order *)

Module PyDict.

Abbreviation t V := (list (string * V)).

Section dict.
Context {V : Type}.

Definition keys (d : t V) : list string := map fst d.

(** [d.get(k)] *)
Fixpoint get (d : t V) (k : string) : option V :=
  match d with
  | [] => None
  | (k', v) :: d' => if String.eqb k' k then Some v else get d' k
  end.

(** [d[k] = v]: an existing key keeps its position, a new key goes to
    the end. *)
Fixpoint set (d : t V) (k : string) (v : V) : t V :=
  match d with
  | [] => [(k, v)]
  | (k', v') :: d' =>
      if String.eqb k' k then (k, v) :: d' else (k', v') :: set d' k v
  end.

(** [d.pop(k)]: [None] stands for the [KeyError] of a missing key. *)
Fixpoint pop (d : t V) (k : string) : option (t V) :=
  match d with
  | [] => None
  | (k', v') :: d' =>
      if String.eqb k' k then Some d'
      else option_map (cons (k', v')) (pop d' k)
  end.

(** The entries whose key passes [keep], in order. *)
Definition restrict (keep : string -> bool) (d : t V) : t V :=
  List.filter (fun kv => keep (fst kv)) d.

End dict.
End PyDict.

(** ** JSON documents and sidecar files *)

#[local] Unset Elimination Schemes.
Inductive json : Type :=
| JNull
| JBool (b : bool)
| JNum (z : Z)
| JStr (s : string)
| JList (l : list json)
| JObj (fields : list (string * json)).
#[local] Set Elimination Schemes.

(** A file or directory is named by its components from the root
    directory down; [os.path.dirname] drops the last one. *)
Abbreviation path := (list string).

Definition dirname (p : path) : path := removelast p.

(** What a sidecar file holds: a JSON object, or nothing at all right
    after [open(path, "w")] truncated it. *)
Inductive file_content : Type :=
| Truncated
| Document (data : gmap string json).

(** ** Configuration sections *)

Inductive cfgval : Type :=
| VStr (s : string)
| VNum (z : Z)
| VBool (b : bool).

Abbreviation section := (gmap string cfgval).
Abbreviation config := (PyDict.t section).

(** [f"Area_{index}"] *)
Definition area_section_name (index : nat) : string := "Area_" +:+ pretty index.

(** ** The world the handlers act on *)

(** The regular files of the world are the sidecars; a path is taken to
    name at most one of a file and a directory, and no directory is
    looked for through a file. *)

Record World : Type := mkWorld {
  config_file : config;              (* the main configuration store *)
  files : gmap path file_content;    (* regular files (the sidecars) *)
  dirs : gset path                   (* directories *)
}.

Definition with_config (c : config) (w : World) : World :=
  {| config_file := c; files := files w; dirs := dirs w |}.
Definition with_files (f : gmap path file_content) (w : World) : World :=
  {| config_file := config_file w; files := f; dirs := dirs w |}.
Definition with_dirs (d : gset path) (w : World) : World :=
  {| config_file := config_file w; files := files w; dirs := d |}.

(** ** Exceptions and responses *)

Definition HTTP_201_CREATED : Z := 201.
Definition HTTP_204_NO_CONTENT : Z := 204.
Definition HTTP_400_BAD_REQUEST : Z := 400.
Definition HTTP_404_NOT_FOUND : Z := 404.

(** The [detail] of an [HTTPException].  [bad_request_serializer] is an
    imported helper; its call is recorded with its two arguments.  The
    two f-string messages are recorded with the value they interpolate:
    an area id, or a Python [set] of camera ids. *)
Inductive detail : Type :=
| bad_request_serializer (msg : string) (error_type : string)
| AreaDoesNotExist (area_id : string)
| CamerasDoNotExist (non_existent_cameras : gset string).

(** The exceptions that leave the handlers.  [OSError] stands for the
    errors of [os.rmdir] other than a missing file ([EINVAL],
    [ENOTEMPTY], [EBUSY]). *)
Inductive exn : Type :=
| HTTPException (status_code : Z) (d : detail)
| KeyError (key : string)
| JSONDecodeError
| FileNotFoundError (p : path)
| OSError.

Inductive outcome (A : Type) : Type :=
| Return (a : A)
| Raise (e : exn).
Arguments Return {A} a.
Arguments Raise {A} e.

(** ** The handler monad: state passing with exceptions *)

Definition M (A : Type) : Type := World -> outcome A * World.

Definition ret {A} (a : A) : M A := fun w => (Return a, w).
Definition raise {A} (e : exn) : M A := fun w => (Raise e, w).
Definition bind {A B} (m : M A) (k : A -> M B) : M B :=
  fun w => match m w with
           | (Return a, w') => k a w'
           | (Raise e, w') => (Raise e, w')
           end.
Definition gets {A} (f : World -> A) : M A := fun w => (Return (f w), w).
Definition modify (f : World -> World) : M unit := fun w => (Return tt, f w).

Declare Scope py_scope.
Delimit Scope py_scope with py.
Notation "x <- m ;; k" := (bind m (fun x => k))
  (at level 100, m at next level, right associativity) : py_scope.
Notation "m ;;; k" := (bind m (fun _ => k))
  (at level 100, right associativity) : py_scope.
Open Scope py_scope.

(** ** Areas, cameras and occupancy rules *)

(** Modelled from the spec: [OccupancyRuleListDTO] (api/models) is not in
    areas.py.  The spec describes the field as an "optional list of rule
    objects" that is "created/overwritten as a whole unit"; a rule is kept
    as the JSON object it is stored as. *)
Record OccupancyRuleListDTO : Type := mkRules { root : list json }.

(** [OccupancyRuleListDTO.parse_obj([])] *)
Definition parse_obj_empty : OccupancyRuleListDTO := mkRules [].

Definition OCCUPANCY_RULES : string := "occupancy_rules".

(** Modelled from the spec: [to_store_json] is not in areas.py; the rules
    are persisted "under an [occupancy_rules] key". *)
Definition to_store_json (rules : OccupancyRuleListDTO) : gmap string json :=
  {[ OCCUPANCY_RULES := JList (root rules) ]}.

(** Modelled from the spec: [from_store_json] is not in areas.py; a
    document without rules "means empty rule list". *)
Definition from_store_json (data : gmap string json) : OccupancyRuleListDTO :=
  match data !! OCCUPANCY_RULES with
  | Some (JList l) => mkRules l
  | _ => mkRules []
  end.

(** Modelled from the spec: the truth value Python gives to
    [occupancy_rules] in [if occupancy_rules:].  The field is optional,
    and the update is to "overwrite the sidecar store" "if rules are
    present".  [None] is false.  Rules that are present are an
    [OccupancyRuleListDTO], an object built with [parse_obj] and asked
    for [to_store_json()]; neither areas.py nor the spec gives its class
    a truth value of its own ([__bool__], [__len__]), so it is true as
    any Python object is, whatever list it wraps. *)
Definition truthy (rules : option OccupancyRuleListDTO) : bool :=
  match rules with
  | None => false
  | Some _ => true
  end.

(** The area resource, with the fields [all_cameras_area] lists; the
    request body [AreaConfigDTO] and the dict [map_section_from_config]
    returns have this shape. *)
Record AreaConfigDTO : Type := mkArea {
  violation_threshold : Z;
  notify_every_minutes : Z;
  emails : string;
  enable_slack_notifications : bool;
  daily_report : bool;
  daily_report_time : string;
  occupancy_threshold : Z;
  id : string;
  name : string;
  cameras : string;
  occupancy_rules : option OccupancyRuleListDTO
}.

Definition set_id (new_id : string) (a : AreaConfigDTO) : AreaConfigDTO :=
  mkArea (violation_threshold a) (notify_every_minutes a) (emails a)
         (enable_slack_notifications a) (daily_report a) (daily_report_time a)
         (occupancy_threshold a) new_id (name a) (cameras a) (occupancy_rules a).

Definition set_occupancy_rules_field (r : option OccupancyRuleListDTO)
    (a : AreaConfigDTO) : AreaConfigDTO :=
  mkArea (violation_threshold a) (notify_every_minutes a) (emails a)
         (enable_slack_notifications a) (daily_report a) (daily_report_time a)
         (occupancy_threshold a) (id a) (name a) (cameras a) r.

(** Modelled from the spec: the constant [ALL_AREAS] (constants.py) is not
    in areas.py; the spec calls it the reserved "ALL" token, and the
    error message of [create_area] spells it the same way. *)
Definition ALL_AREAS : string := "ALL".

Definition AREA_PREFIX : string := "Area_".
Definition SOURCE_PREFIX : string := "Source_".

Definition get_str (s : section) (k : string) : string :=
  match s !! k with Some (VStr x) => x | _ => "" end.
Definition get_num (s : section) (k : string) : Z :=
  match s !! k with Some (VNum z) => z | _ => -1 end.
Definition get_bool (s : section) (k : string) : bool :=
  match s !! k with Some (VBool b) => b | _ => false end.

(** Modelled from the spec: [map_to_config_file_format] (api/utils) is not
    in areas.py.  "Area -> section: comma-joins camera-id list; strips
    the occupancy-rules field before writing"; the key of the id is
    ["Id"], as [create_area] reads it back from the result. *)
Definition map_to_config_file_format (a : AreaConfigDTO) : section :=
  <[ "ViolationThreshold" := VNum (violation_threshold a) ]>
  (<[ "NotifyEveryMinutes" := VNum (notify_every_minutes a) ]>
  (<[ "Emails" := VStr (emails a) ]>
  (<[ "EnableSlackNotifications" := VBool (enable_slack_notifications a) ]>
  (<[ "DailyReport" := VBool (daily_report a) ]>
  (<[ "DailyReportTime" := VStr (daily_report_time a) ]>
  (<[ "OccupancyThreshold" := VNum (occupancy_threshold a) ]>
  (<[ "Id" := VStr (id a) ]>
  (<[ "Name" := VStr (name a) ]>
  (<[ "Cameras" := VStr (cameras a) ]> ∅))))))))).

(** Modelled from the spec: [map_section_from_config] (api/utils) is not
    in areas.py.  "section -> Area: must default any missing optional
    numeric fields to sentinel values, and must not fail on
    partially-populated sections." *)
Definition area_of_section (s : section) : AreaConfigDTO :=
  {| violation_threshold := get_num s "ViolationThreshold";
     notify_every_minutes := get_num s "NotifyEveryMinutes";
     emails := get_str s "Emails";
     enable_slack_notifications := get_bool s "EnableSlackNotifications";
     daily_report := get_bool s "DailyReport";
     daily_report_time := get_str s "DailyReportTime";
     occupancy_threshold := get_num s "OccupancyThreshold";
     id := get_str s "Id";
     name := get_str s "Name";
     cameras := get_str s "Cameras";
     occupancy_rules := None |}.

Definition map_section_from_config (x : string) (c : config) : AreaConfigDTO :=
  area_of_section (default ∅ (PyDict.get c x)).

(** Modelled from the spec: [map_camera] (api/routers/cameras) is not in
    areas.py; of the camera resource only the id is used here. *)
Record CameraDict : Type := mkCamera { camera_id : string }.

Definition map_camera (x : string) (c : config) : CameraDict :=
  mkCamera (get_str (default ∅ (PyDict.get c x)) "Id").

(** [x.startswith("Area_")] *)
Definition is_area_name (x : string) : bool := PyStr.startswith x AREA_PREFIX.

(** [[x for x in config_dict.keys() if x.startswith(prefix)]] *)
Definition names_with_prefix (prefix : string) (c : config) : list string :=
  List.filter (fun x => PyStr.startswith x prefix) (PyDict.keys c).

(** Modelled from the spec: [extract_config(config_type="areas")]
    (api/utils) is not in areas.py; it yields the area sections of the
    store, "sections prefixed by the area marker", in store order. *)
Definition extract_config_areas (c : config) : config :=
  List.filter (fun kv => PyStr.startswith (fst kv) AREA_PREFIX) c.

(** [get_areas()], as a function of the store. *)
Definition areas_of (c : config) : list AreaConfigDTO :=
  let config := extract_config_areas c in
  map (fun x => map_section_from_config x config) (PyDict.keys config).

(** Modelled from the spec: [get_cameras] (api/routers/cameras) and
    [config.get_video_sources] are not in areas.py; both list the camera
    sections of the store. *)
Definition cameras_of (c : config) : list CameraDict :=
  map (fun x => map_camera x c) (names_with_prefix SOURCE_PREFIX c).

(** [[area.id for area in areas]] and [[camera.id for camera in cameras]],
    as the handlers compute them from the store. *)
Definition area_ids (c : config) : list string :=
  map id (map (fun x => map_section_from_config x c)
              (names_with_prefix AREA_PREFIX c)).

Definition camera_ids_of (c : config) : list string :=
  map camera_id (cameras_of c).

(** [next((area for area in areas if area["id"] == area_id), None)] *)
Definition find_area (area_id : string) (areas : list AreaConfigDTO)
    : option AreaConfigDTO :=
  List.find (fun area => String.eqb (id area) area_id) areas.

(** Responses.  [handle_response] is an imported helper: its call is
    recorded with its arguments ([None] for an omitted status code). *)
Inductive response : Type :=
| AreaResponse (area : option AreaConfigDTO)
| handle_response (content : option section) (success : bool)
                  (status_code : option Z).

(** Modelled from the spec: [config.get_areas()] (the config class) is
    not in areas.py; it lists the area sections of the store as objects
    carrying their [id]. *)
Definition config_get_areas (c : config) : list AreaConfigDTO :=
  map (fun x => map_section_from_config x c) (names_with_prefix AREA_PREFIX c).

(** Modelled from the spec: [reestructure_areas] (api/utils) is not in
    areas.py.  It must "renumber remaining indices contiguously", so that
    listing "yields indices renumbered 0..n-2 with relative order
    preserved": the k-th area section met in store order is named
    [Area_k]; the other sections are left as they are. *)
Fixpoint renumber_areas (k : nat) (c : config) : config :=
  match c with
  | [] => []
  | (x, s) :: c' =>
      if PyStr.startswith x AREA_PREFIX
      then (area_section_name k, s) :: renumber_areas (S k) c'
      else (x, s) :: renumber_areas k c'
  end.

Definition reestructure_areas (c : config) : config := renumber_areas 0 c.

(** ** File system primitives *)

(** The directories [Path(p).mkdir(parents=True)] makes sure exist: [p]
    and every ancestor of it. *)
Definition ancestors (p : path) : list path :=
  map (fun n => take n p) (seq 1 (length p)).

(** [Path(p).mkdir(parents=True, exist_ok=True)] *)
Definition mkdir_parents (p : path) : M unit :=
  modify (fun w => with_dirs (dirs w ∪ list_to_set (ancestors p)) w).

(** [os.path.exists(p)] for the path of a sidecar file. *)
Definition os_path_exists (p : path) : M bool :=
  gets (fun w => bool_decide (is_Some (files w !! p))).

(** [with open(p, "r") as f: json.load(f)] *)
Definition json_load (p : path) : M (gmap string json) :=
  fun w => match files w !! p with
           | Some (Document data) => (Return data, w)
           | Some Truncated => (Raise JSONDecodeError, w)
           | None => (Raise (FileNotFoundError p), w)
           end.

(** The directory [q] is there; the empty path is the root directory. *)
Definition dir_exists (w : World) (q : path) : Prop := q = [] ∨ q ∈ dirs w.

(** [open(p, "w")]: the file is created or truncated at once, before the
    body of the [with] block runs; a new file needs its directory. *)
Definition open_w (p : path) : M unit :=
  fun w => if bool_decide (is_Some (files w !! p) ∨ dir_exists w (dirname p))
           then (Return tt, with_files (<[p := Truncated]> (files w)) w)
           else (Raise (FileNotFoundError p), w).

(** [json.dump(data, f)] on the file opened at [p]. *)
Definition json_dump (data : gmap string json) (p : path) : M unit :=
  modify (fun w => with_files (<[p := Document data]> (files w)) w).

(** ** Path names *)

(** [os.path.join] gives a name for a directory rather than a directory:
    a string that the kernel follows component by component, ["."] and
    [".."] among them.  A name is kept as the directory the walk starts
    from and the components to follow from there. *)
Record pathname : Type := mkName { start : path; steps : list string }.

(** The components between the slashes of [s].  The empty ones, which a
    doubled or a trailing slash gives, are skipped by the kernel and by
    [pathlib] alike. *)
Definition components (s : string) : list string :=
  List.filter (fun c => negb (String.eqb c "")) (PyStr.split "/" s).

(** [os.path.join(a, b)]: a [b] that starts with a slash replaces what
    came before it; any other [b] is appended after a slash. *)
Definition join1 (a : pathname) (b : string) : pathname :=
  if PyStr.startswith b "/" then mkName [] (components b)
  else mkName (start a) (steps a ++ components b).

(** [os.path.join(base, *parts)] for a base directory. *)
Definition os_path_join (base : path) (parts : list string) : pathname :=
  fold_left join1 parts (mkName base []).

(** The components of a name as they are written, for error reports. *)
Definition spelled (n : pathname) : path := start n ++ steps n.

(** One step of the walk, from the directory [cur]. *)
Definition enter (cur : path) (c : string) : path :=
  if String.eqb c "." then cur
  else if String.eqb c ".." then removelast cur
  else cur ++ [c].

(** The walk of the kernel along [steps], from [cur]: every component is
    looked up in a directory that is there.  [None] stands for
    [ENOENT]. *)
Fixpoint walk (w : World) (cur : path) (steps : list string) : option path :=
  match steps with
  | [] => Some cur
  | c :: rest =>
      if bool_decide (dir_exists w cur) then walk w (enter cur c) rest
      else None
  end.

(** The directory a name leads to, when it leads to one. *)
Definition lookup_dir (w : World) (n : pathname) : option path :=
  match walk w (start n) (steps n) with
  | Some p => if bool_decide (dir_exists w p) then Some p else None
  | None => None
  end.

(** The directories that the prefixes of [steps] lead to, from [cur]. *)
Fixpoint passed (cur : path) (steps : list string) : list path :=
  match steps with
  | [] => []
  | c :: rest => enter cur c :: passed (enter cur c) rest
  end.

(** The directories [Path(n).mkdir(parents=True, exist_ok=True)] makes
    sure exist.  [os.mkdir] fails on a name with a missing component,
    and then the parent, which is the name less its last component, is
    made first; so in the end every prefix of the name leads to a
    directory, the prefixes of the base included. *)
Definition made (n : pathname) : list path :=
  ancestors (start n) ++ passed (start n) (steps n).

(** [Path(n).mkdir(parents=True, exist_ok=True)] for a joined name. *)
Definition mkdir_parents_named (n : pathname) : M unit :=
  modify (fun w => with_dirs (dirs w ∪ list_to_set (made n)) w).

(** [q] lies below the directory [p]. *)
Definition below (p q : path) : Prop := p `prefix_of` q /\ q <> p.

(** The world once everything below the directory [p] is removed, and
    once [p] itself is removed as well. *)
Definition emptied (p : path) (w : World) : World :=
  with_dirs (filter (fun q => ¬ below p q) (dirs w))
    (with_files (filter (fun kv => ¬ p `prefix_of` kv.1) (files w)) w).

Definition removed (p : path) (w : World) : World :=
  with_dirs (filter (fun q => ¬ p `prefix_of` q) (dirs w))
    (with_files (filter (fun kv => ¬ p `prefix_of` kv.1) (files w)) w).

(** [os.rmdir(n)] refuses a name that ends in ["."] or [".."], and the
    root directory [p = []]. *)
Definition rmdir_refuses (n : pathname) (p : path) : bool :=
  match last (steps n) with
  | Some c => String.eqb c "." || String.eqb c ".."
  | None => false
  end || bool_decide (p = []).

(** [shutil.rmtree(n)].  The name must lead to a directory, or
    [os.lstat] raises at once.  Everything below that directory is
    removed through its descriptor, and then [os.rmdir(n)] follows the
    name once more: it raises when the name leads nowhere by now (it
    passed through a directory that is gone) and when [rmdir] refuses
    it; otherwise the directory goes as well. *)
Definition rmtree (n : pathname) : M unit :=
  fun w =>
    match lookup_dir w n with
    | None => (Raise (FileNotFoundError (spelled n)), w)
    | Some p =>
        match lookup_dir (emptied p w) n with
        | None => (Raise (FileNotFoundError (spelled n)), emptied p w)
        | Some _ =>
            if rmdir_refuses n p then (Raise OSError, emptied p w)
            else (Return tt, removed p w)
        end
    end.

(** An area id that is one ordinary directory name: it holds no slash
    and is none of [""], ["."] and [".."]. *)
Definition plain_name (s : string) : Prop :=
  PyStr.split "/" s = [s] /\ s <> "" /\ s <> "." /\ s <> "..".

(** ** The handlers *)

Section Handlers.

(** What the module takes from its surroundings: the sidecar path of an
    area ([get_config().get_area_config_path]), the two base directories
    named by the values read with [os.getenv] (values that are set and
    not empty), and the imported [update_config], which is handed the
    new configuration and the reboot flag, leaves some configuration in
    the store and reports success. *)
Variable get_area_config_path : string -> path.
Variable AreaLogDirectory AreaConfigDirectory : path.
Variable save : config -> bool -> config -> config * bool.

(** [extract_config()] *)
Definition extract_config : M config := gets config_file.

(** [update_config(config_dict, reboot_processor)] *)
Definition update_config (config_dict : config) (reboot_processor : bool)
    : M bool :=
  fun w => let (stored, success) :=
             save config_dict reboot_processor (config_file w) in
           (Return success, with_config stored w).

Definition get_areas : M (list AreaConfigDTO) :=
  gets (fun w => areas_of (config_file w)).

Definition list_areas : M (list AreaConfigDTO) := get_areas.

Definition get_cameras : M (list CameraDict) :=
  gets (fun w => cameras_of (config_file w)).

Definition get_all_cameras_ids : M string :=
  cams <- get_cameras ;;
  let ids_list := map camera_id cams in
  ret (PyStr.join "," ids_list).

Definition all_cameras_area : M AreaConfigDTO :=
  ids <- get_all_cameras_ids ;;
  ret {| violation_threshold := -1;
         notify_every_minutes := -1;
         emails := "";
         enable_slack_notifications := false;
         daily_report := false;
         daily_report_time := "N/A";
         occupancy_threshold := -1;
         id := ALL_AREAS;
         name := ALL_AREAS;
         cameras := ids;
         occupancy_rules := None |}.

Definition get_area_occupancy_rules (area_id : string)
    : M OccupancyRuleListDTO :=
  areas <- gets (fun w => config_get_areas (config_file w)) ;;
  match find_area area_id areas with
  | None => raise (HTTPException HTTP_404_NOT_FOUND (AreaDoesNotExist area_id))
  | Some area =>
      let area_config_path := get_area_config_path (id area) in
      present <- os_path_exists area_config_path ;;
      if negb present then ret parse_obj_empty
      else
        rules_data <- json_load area_config_path ;;
        ret (from_store_json rules_data)
  end.

Definition set_occupancy_rules (area_id : string)
    (rules : OccupancyRuleListDTO) : M unit :=
  let area_config_path := get_area_config_path area_id in
  mkdir_parents (dirname area_config_path) ;;;
  present <- os_path_exists area_config_path ;;
  data <- (if present then json_load area_config_path else ret ∅) ;;
  open_w area_config_path ;;;
  match to_store_json rules !! OCCUPANCY_RULES with
  | None => raise (KeyError OCCUPANCY_RULES)
  | Some v => json_dump (<[OCCUPANCY_RULES := v]> data) area_config_path
  end.

Definition delete_area_occupancy_rules (area_id : string)
    : M (option response) :=
  let area_config_path := get_area_config_path area_id in
  present <- os_path_exists area_config_path ;;
  if present then
    data <- json_load area_config_path ;;
    open_w area_config_path ;;;
    match data !! OCCUPANCY_RULES with
    | None => raise (KeyError OCCUPANCY_RULES)
    | Some _ =>
        json_dump (delete OCCUPANCY_RULES data) area_config_path ;;;
        ret None
    end
  else ret (Some (handle_response None false (Some HTTP_204_NO_CONTENT))).

(** The branch on the rules after the save, as [edit_area] and
    [create_area] have it: truthy rules are saved; otherwise
    [edit_area] deletes the stored rules and [create_area] does
    nothing. *)
Definition edit_rules_step (area_id : string)
    (rules : option OccupancyRuleListDTO) : M unit :=
  if truthy rules
  then set_occupancy_rules area_id (default parse_obj_empty rules)
  else (_ <- delete_area_occupancy_rules area_id ;; ret tt).

Definition create_rules_step (area_id : string)
    (rules : option OccupancyRuleListDTO) : M unit :=
  if truthy rules
  then set_occupancy_rules area_id (default parse_obj_empty rules)
  else ret tt.

Definition get_area (area_id : string) : M AreaConfigDTO :=
  if String.eqb (PyStr.upper area_id) ALL_AREAS then all_cameras_area
  else
    areas <- get_areas ;;
    match find_area area_id areas with
    | None =>
        raise (HTTPException HTTP_404_NOT_FOUND (AreaDoesNotExist area_id))
    | Some area =>
        rules <- get_area_occupancy_rules (id area) ;;
        ret (set_occupancy_rules_field (Some rules) area)
    end.

(** [all(x in camera_ids for x in cameras.split(","))] *)
Definition all_cameras_exist (camera_ids : list string) (cameras : string)
    : bool :=
  forallb (fun x => PyStr.mem x camera_ids) (PyStr.split "," cameras).

(** [set(cameras.split(",")) - set(camera_ids)] *)
Definition non_existent_cameras (camera_ids : list string)
    (cameras : string) : gset string :=
  list_to_set (PyStr.split "," cameras) ∖ list_to_set camera_ids.

Definition create_area (new_area : AreaConfigDTO) (reboot_processor : bool)
    : M response :=
  areas <- gets (fun w => config_get_areas (config_file w)) ;;
  if PyStr.mem (id new_area) (map id areas) then
    raise (HTTPException HTTP_400_BAD_REQUEST
             (bad_request_serializer "Area already exists"
                                     "config duplicated area"))
  else if String.eqb (PyStr.upper (id new_area)) ALL_AREAS then
    raise (HTTPException HTTP_400_BAD_REQUEST
             (bad_request_serializer "Area with ID: 'ALL' is not valid."
                                     "Invalid ID"))
  else
    cams <- gets (fun w => cameras_of (config_file w)) ;;
    let camera_ids := map camera_id cams in
    if negb (all_cameras_exist camera_ids (cameras new_area)) then
      raise (HTTPException HTTP_404_NOT_FOUND
               (CamerasDoNotExist
                  (non_existent_cameras camera_ids (cameras new_area))))
    else
      let rules := occupancy_rules new_area in
      let new_area := set_occupancy_rules_field None new_area in
      let area_dict := map_to_config_file_format new_area in
      config_dict <- extract_config ;;
      let config_dict :=
        PyDict.set config_dict (area_section_name (length areas)) area_dict in
      success <- update_config config_dict reboot_processor ;;
      (if truthy rules
       then set_occupancy_rules (id new_area) (default parse_obj_empty rules)
       else ret tt) ;;;
      if negb success then
        ret (handle_response (Some area_dict) success (Some HTTP_201_CREATED))
      else
        let area_directory :=
          os_path_join AreaLogDirectory [id new_area; "occupancy_log"] in
        mkdir_parents_named area_directory ;;;
        let area_config_directory :=
          os_path_join AreaConfigDirectory [id new_area] in
        mkdir_parents_named area_config_directory ;;;
        areas <- get_areas ;;
        ret (AreaResponse (find_area (get_str area_dict "Id") areas)).

Definition edit_area (area_id : string) (edited_area : AreaConfigDTO)
    (reboot_processor : bool) : M response :=
  if String.eqb (PyStr.upper area_id) ALL_AREAS then
    raise (HTTPException HTTP_400_BAD_REQUEST
             (bad_request_serializer "Area with ID: 'ALL' cannot be edited."
                                     "Invalid ID"))
  else
    let edited_area := set_id area_id edited_area in
    config_dict <- extract_config ;;
    let area_names := names_with_prefix AREA_PREFIX config_dict in
    let areas :=
      map (fun x => map_section_from_config x config_dict) area_names in
    let areas_ids := map id areas in
    match PyStr.index area_id areas_ids with
    | None =>
        raise (HTTPException HTTP_404_NOT_FOUND (AreaDoesNotExist area_id))
    | Some index =>
        let cams := names_with_prefix SOURCE_PREFIX config_dict in
        let cams := map (fun x => map_camera x config_dict) cams in
        let camera_ids := map camera_id cams in
        if negb (all_cameras_exist camera_ids (cameras edited_area)) then
          raise (HTTPException HTTP_404_NOT_FOUND
                   (CamerasDoNotExist
                      (non_existent_cameras camera_ids
                                            (cameras edited_area))))
        else
          let rules := occupancy_rules edited_area in
          let edited_area := set_occupancy_rules_field None edited_area in
          let area_dict := map_to_config_file_format edited_area in
          let config_dict :=
            PyDict.set config_dict (area_section_name index) area_dict in
          success <- update_config config_dict reboot_processor ;;
          (if truthy rules
           then set_occupancy_rules (id edited_area)
                                    (default parse_obj_empty rules)
           else (_ <- delete_area_occupancy_rules area_id ;; ret tt)) ;;;
          if negb success then
            ret (handle_response (Some area_dict) success None)
          else
            areas <- get_areas ;;
            ret (AreaResponse (find_area area_id areas))
    end.

Definition delete_area (area_id : string) (reboot_processor : bool)
    : M response :=
  if String.eqb (PyStr.upper area_id) ALL_AREAS then
    raise (HTTPException HTTP_400_BAD_REQUEST
             (bad_request_serializer "Area with ID: 'ALL' cannot be deleted."
                                     "Invalid ID"))
  else
    config_dict <- extract_config ;;
    let areas_name := names_with_prefix AREA_PREFIX config_dict in
    let areas :=
      map (fun x => map_section_from_config x config_dict) areas_name in
    let areas_ids := map id areas in
    match PyStr.index area_id areas_ids with
    | None =>
        raise (HTTPException HTTP_404_NOT_FOUND (AreaDoesNotExist area_id))
    | Some index =>
        match PyDict.pop config_dict (area_section_name index) with
        | None => raise (KeyError (area_section_name index))
        | Some config_dict =>
            let config_dict := reestructure_areas config_dict in
            success <- update_config config_dict reboot_processor ;;
            _ <- delete_area_occupancy_rules area_id ;;
            let area_directory := os_path_join AreaLogDirectory [area_id] in
            rmtree area_directory ;;;
            let area_config_directory :=
              os_path_join AreaConfigDirectory [area_id] in
            rmtree area_config_directory ;;;
            ret (handle_response None success (Some HTTP_204_NO_CONTENT))
        end
    end.

End Handlers.

(** ** Store invariant and readable sidecars *)

(** The area sections of the store are, in store order, [Area_0],
    [Area_1], ..., [Area_(n-1)]. *)
Definition contiguous (c : config) : Prop :=
  names_with_prefix AREA_PREFIX c
  = map area_section_name (seq 0 (length (names_with_prefix AREA_PREFIX c))).

(** The [occupancy_rules] entry of the sidecar at [p], when the file is
    there and holds a document with that key. *)
Definition stored_rules (w : World) (p : path) : option json :=
  match files w !! p with
  | Some (Document data) => data !! OCCUPANCY_RULES
  | _ => None
  end.

(** The sidecar at [p] can be read: it is absent or holds a document. *)
Definition readable_sidecar (w : World) (p : path) : Prop :=
  files w !! p <> Some Truncated.

(** The sidecar at [p] lets the rule step of an update run to its end:
    rules that are saved need a sidecar that can be read, and without
    rules the sidecar must be absent or hold a document with the
    [occupancy_rules] key. *)
Definition rule_step_runs (w : World) (p : path)
    (rules : option OccupancyRuleListDTO) : Prop :=
  if truthy rules then readable_sidecar w p
  else files w !! p = None \/
       exists data, files w !! p = Some (Document data)
                    /\ is_Some (data !! OCCUPANCY_RULES).

(** ** A concrete installation, for running the handlers *)

Module Demo.

Definition config_path (area_id : string) : path :=
  ["data"; "config"; "areas"; area_id; "config.json"].
Definition log_dir : path := ["data"; "logs"].
Definition config_dir : path := ["data"; "config"; "areas"].

(** A save that stores what it is given and succeeds. *)
Definition save_ok (config_dict : config) (reboot : bool) (stored : config)
    : config * bool := (config_dict, true).

(** A save that writes the file and then fails to restart. *)
Definition save_failing (config_dict : config) (reboot : bool)
    (stored : config) : config * bool := (config_dict, false).

Definition camera (i : string) : section := {[ "Id" := VStr i ]}.

Definition lobby : AreaConfigDTO :=
  mkArea 60 15 "ops@example.org" true false "06:00" 300
         "lobby" "Lobby" "cam1" None.

Definition kitchen : AreaConfigDTO :=
  mkArea 40 10 "" false true "07:30" 12
         "kitchen" "Kitchen" "cam1,cam2" (Some (mkRules [JNum 1])).

Definition yard : AreaConfigDTO :=
  mkArea 40 10 "" false true "07:30" 12
         "yard" "Yard" "cam2" None.

(** [kitchen] with a camera that does not exist, [lobby] likewise, and
    [kitchen] with rules that are an empty list. *)
Definition set_cameras (c : string) (a : AreaConfigDTO) : AreaConfigDTO :=
  mkArea (violation_threshold a) (notify_every_minutes a) (emails a)
         (enable_slack_notifications a) (daily_report a)
         (daily_report_time a) (occupancy_threshold a) (id a) (name a) c
         (occupancy_rules a).

Definition kitchen_cam9 : AreaConfigDTO := set_cameras "cam1,cam9" kitchen.
Definition lobby_cam9 : AreaConfigDTO := set_cameras "cam9" lobby.

Definition store : config :=
  [ ("Source_0", camera "cam1");
    ("Source_1", camera "cam2");
    ("Area_0", map_to_config_file_format lobby);
    ("Area_1", map_to_config_file_format yard) ].

Definition world : World :=
  mkWorld store ∅
          (list_to_set (ancestors (log_dir ++ ["lobby"; "occupancy_log"]) ++
                        ancestors (config_dir ++ ["lobby"]) ++
                        ancestors (log_dir ++ ["yard"; "occupancy_log"]) ++
                        ancestors (config_dir ++ ["yard"]))).

(** The same installation once [lobby] has a sidecar with rules and a
    second key, and [yard] a sidecar that holds no rules. *)
Definition lobby_doc : gmap string json :=
  <[ "occupancy_rules" := JList [JNum 7] ]> {[ "note" := JStr "keep" ]}.

Definition world_with_sidecars : World :=
  with_files (<[ config_path "lobby" := Document lobby_doc ]>
              {[ config_path "yard" := Document ∅ ]}) world.

End Demo.

(** Further installations: a store whose only area section is out of
    position, the demo installation without its directories or with an
    area of the empty id, and a few more payloads. *)
Module Cases.

Definition gapped_store : config :=
  [ ("Source_0", Demo.camera "cam1");
    ("Area_5", map_to_config_file_format Demo.lobby) ].

Definition gapped_world : World := mkWorld gapped_store ∅ ∅.

Definition bare_world : World := with_dirs ∅ Demo.world.

Definition reserved_area : AreaConfigDTO := set_id "All" Demo.kitchen_cam9.

Definition kitchen_no_cameras : AreaConfigDTO :=
  Demo.set_cameras "" Demo.kitchen.

Definition attic : AreaConfigDTO := set_id "attic" Demo.lobby.

(** The demo installation with [yard] stored under the empty id. *)
Definition nameless_world : World :=
  with_config
    [ ("Source_0", Demo.camera "cam1");
      ("Source_1", Demo.camera "cam2");
      ("Area_0", map_to_config_file_format Demo.lobby);
      ("Area_1", map_to_config_file_format (set_id "" Demo.yard)) ]
    Demo.world.

End Cases.

(** ** Properties *)

Ltac run :=
  unfold create_area, edit_area, delete_area, get_area, all_cameras_area,
    get_all_cameras_ids, get_cameras, get_areas, extract_config,
    update_config, set_occupancy_rules, delete_area_occupancy_rules,
    get_area_occupancy_rules, mkdir_parents, os_path_exists, json_load,
    open_w, json_dump, bind, ret, raise, gets, modify in *;
  cbn beta iota in *.

Lemma mem_In (x : string) (l : list string) :
  PyStr.mem x l = true <-> In x l.
Proof.
  unfold PyStr.mem. rewrite existsb_exists. split.
  - intros (y & Hy & Heq). apply String.eqb_eq in Heq. now subst.
  - intros H. exists x. split; [assumption | apply String.eqb_refl].
Qed.

Section Properties.

Variable get_area_config_path : string -> path.
Variable AreaLogDirectory AreaConfigDirectory : path.
Variable save : config -> bool -> config -> config * bool.

Local Abbreviation create_area :=
  (create_area get_area_config_path AreaLogDirectory AreaConfigDirectory save).
Local Abbreviation edit_area := (edit_area get_area_config_path save).
Local Abbreviation delete_area :=
  (delete_area get_area_config_path AreaLogDirectory AreaConfigDirectory save).
Local Abbreviation get_area := (get_area get_area_config_path).
Local Abbreviation set_occupancy_rules :=
  (set_occupancy_rules get_area_config_path).
Local Abbreviation delete_area_occupancy_rules :=
  (delete_area_occupancy_rules get_area_config_path).
Local Abbreviation edit_rules_step :=
  (edit_rules_step get_area_config_path).
Local Abbreviation create_rules_step :=
  (create_rules_step get_area_config_path).

Lemma create_area_rejects_duplicate (w : World) (new_area : AreaConfigDTO)
    (reboot_processor : bool) :
  PyStr.mem (id new_area) (area_ids (config_file w)) = true ->
  create_area new_area reboot_processor w
  = (Raise (HTTPException HTTP_400_BAD_REQUEST
              (bad_request_serializer "Area already exists"
                                      "config duplicated area")), w).
Proof.
  intros Hdup.
  change (area_ids (config_file w))
    with (map id (config_get_areas (config_file w))) in Hdup.
  unfold create_area, bind, gets, raise. now rewrite Hdup.
Qed.

(** C1: a create request whose id is, character for character, the id
    of a stored area fails with the duplicate-area error, the Conflict
    of the error taxonomy, which the handler sends as an HTTP 400 with
    error type "config duplicated area"; the world, the configuration
    store included, is left as it was. *)
Theorem create_area_duplicate_id (w : World) (new_area : AreaConfigDTO)
    (reboot_processor : bool) :
  In (id new_area) (area_ids (config_file w)) ->
  create_area new_area reboot_processor w
  = (Raise (HTTPException HTTP_400_BAD_REQUEST
              (bad_request_serializer "Area already exists"
                                      "config duplicated area")), w).
Proof.
  intros Hdup. apply create_area_rejects_duplicate.
  apply existsb_exists. exists (id new_area).
  split; [exact Hdup | apply String.eqb_refl].
Qed.

(** C3: for an id that is the reserved token up to letter case,
    [get_area] returns the virtual area: its cameras are the ids of all
    camera sections joined by commas, its three numeric fields are -1
    and its two flags are false.  The world is returned as it was, and
    the answer is the same in every world with the same cameras, so no
    area section and no sidecar is consulted. *)
Theorem get_area_all_is_virtual (w : World) (area_id : string) :
  PyStr.upper area_id = ALL_AREAS ->
  exists area,
    get_area area_id w = (Return area, w) /\
    cameras area
      = PyStr.join "," (map camera_id (cameras_of (config_file w))) /\
    violation_threshold area = -1 /\
    notify_every_minutes area = -1 /\
    occupancy_threshold area = -1 /\
    enable_slack_notifications area = false /\
    daily_report area = false /\
    id area = ALL_AREAS /\
    forall w', cameras_of (config_file w') = cameras_of (config_file w) ->
               fst (get_area area_id w') = Return area.
Proof.
  intros Hall. apply String.eqb_eq in Hall.
  eexists. split.
  - run. rewrite Hall. reflexivity.
  - cbn. repeat split.
    intros w' Hcams. run. rewrite Hall. cbn. now rewrite Hcams.
Qed.

(** ** The sidecar helpers *)

Lemma os_path_exists_file (w : World) (p : path) (f : file_content) :
  files w !! p = Some f -> os_path_exists p w = (Return true, w).
Proof.
  intros H. unfold os_path_exists, gets.
  now rewrite bool_decide_eq_true_2 by (rewrite H; eauto).
Qed.

Lemma os_path_exists_none (w : World) (p : path) :
  files w !! p = None -> os_path_exists p w = (Return false, w).
Proof.
  intros H. unfold os_path_exists, gets.
  now rewrite bool_decide_eq_false_2 by (rewrite H; intros [? ?]; discriminate).
Qed.

Lemma json_load_document (w : World) (p : path) (data : gmap string json) :
  files w !! p = Some (Document data) -> json_load p w = (Return data, w).
Proof. intros H. unfold json_load. now rewrite H. Qed.

Lemma open_w_existing (w : World) (p : path) (f : file_content) :
  files w !! p = Some f ->
  open_w p w = (Return tt, with_files (<[p := Truncated]> (files w)) w).
Proof.
  intros H. unfold open_w.
  now rewrite bool_decide_eq_true_2 by (left; rewrite H; eauto).
Qed.

Lemma open_w_in_directory (w : World) (p : path) :
  dir_exists w (dirname p) ->
  open_w p w = (Return tt, with_files (<[p := Truncated]> (files w)) w).
Proof.
  intros H. unfold open_w. now rewrite bool_decide_eq_true_2 by (now right).
Qed.

Lemma delete_rules_file_absent (w : World) (area_id : string) :
  files w !! get_area_config_path area_id = None ->
  delete_area_occupancy_rules area_id w
  = (Return (Some (handle_response None false (Some HTTP_204_NO_CONTENT))), w).
Proof.
  intros Hnone. unfold delete_area_occupancy_rules, bind.
  now rewrite (os_path_exists_none _ _ Hnone).
Qed.

Lemma delete_rules_key_present (w : World) (area_id : string)
    (data : gmap string json) :
  files w !! get_area_config_path area_id = Some (Document data) ->
  is_Some (data !! OCCUPANCY_RULES) ->
  delete_area_occupancy_rules area_id w
  = (Return None,
     with_files (<[get_area_config_path area_id :=
                     Document (delete OCCUPANCY_RULES data)]> (files w)) w).
Proof.
  intros Hfile [v Hv]. unfold delete_area_occupancy_rules, bind.
  rewrite (os_path_exists_file _ _ _ Hfile), (json_load_document _ _ _ Hfile),
    (open_w_existing _ _ _ Hfile), Hv.
  unfold json_dump, modify, ret, with_files; cbn.
  now rewrite insert_insert_eq.
Qed.

Lemma delete_rules_without_key (w : World) (area_id : string)
    (data : gmap string json) :
  files w !! get_area_config_path area_id = Some (Document data) ->
  data !! OCCUPANCY_RULES = None ->
  delete_area_occupancy_rules area_id w
  = (Raise (KeyError OCCUPANCY_RULES),
     with_files (<[get_area_config_path area_id := Truncated]> (files w)) w).
Proof.
  intros Hfile Hkey. unfold delete_area_occupancy_rules, bind.
  now rewrite (os_path_exists_file _ _ _ Hfile),
    (json_load_document _ _ _ Hfile), (open_w_existing _ _ _ Hfile), Hkey.
Qed.

(** C2, where the code departs from it: when the sidecar is there but
    holds no [occupancy_rules] key, the file has already been truncated
    by [open(path, "w")] when [del data["occupancy_rules"]] raises
    [KeyError].  The exception escapes, nothing is written back, and the
    file is left empty: it is still there, but it is not the document
    without the key, and loading it again fails. *)
Theorem delete_rules_key_missing (w : World) (area_id : string)
    (data : gmap string json) :
  files w !! get_area_config_path area_id = Some (Document data) ->
  data !! OCCUPANCY_RULES = None ->
  exists w',
    delete_area_occupancy_rules area_id w = (Raise (KeyError OCCUPANCY_RULES), w')
    /\ files w' !! get_area_config_path area_id = Some Truncated
    /\ json_load (get_area_config_path area_id) w' = (Raise JSONDecodeError, w')
    /\ forall q, q <> get_area_config_path area_id ->
                 files w' !! q = files w !! q.
Proof.
  intros Hfile Hkey. eexists.
  split; [apply (delete_rules_without_key w area_id data Hfile Hkey) |].
  assert (Hempty : files (with_files
                            (<[get_area_config_path area_id := Truncated]>
                               (files w)) w)
                   !! get_area_config_path area_id = Some Truncated)
    by apply lookup_insert_eq.
  split; [exact Hempty |]. split.
  - unfold json_load. now rewrite Hempty.
  - intros q Hq. cbn. now apply lookup_insert_ne.
Qed.

Lemma dirname_in_ancestors (q : path) : q <> [] -> q ∈ ancestors q.
Proof.
  intros Hq. unfold ancestors. apply list_elem_of_In, in_map_iff.
  exists (length q). split.
  - apply firstn_all.
  - apply in_seq. destruct q; [congruence | cbn; lia].
Qed.

Lemma dir_exists_after_mkdir (w : World) (q : path) :
  dir_exists (with_dirs (dirs w ∪ list_to_set (ancestors q)) w) q.
Proof.
  unfold dir_exists. destruct q as [| x q]; [now left | right].
  cbn [dirs with_dirs]. apply elem_of_union_r, elem_of_list_to_set.
  now apply dirname_in_ancestors.
Qed.

Lemma set_rules_file_absent (w : World) (area_id : string)
    (rules : OccupancyRuleListDTO) :
  files w !! get_area_config_path area_id = None ->
  set_occupancy_rules area_id rules w
  = (Return tt,
     with_files (<[get_area_config_path area_id :=
                     Document {[ OCCUPANCY_RULES := JList (root rules) ]}]>
                   (files w))
       (with_dirs (dirs w ∪ list_to_set
                     (ancestors (dirname (get_area_config_path area_id)))) w)).
Proof.
  intros Hnone. unfold set_occupancy_rules, bind, mkdir_parents, modify.
  rewrite os_path_exists_none by exact Hnone.
  unfold ret. rewrite open_w_in_directory by apply dir_exists_after_mkdir.
  unfold to_store_json. rewrite lookup_singleton_eq.
  unfold json_dump, modify, with_files; cbn.
  now rewrite insert_insert_eq, insert_empty.
Qed.

Lemma set_rules_file_present (w : World) (area_id : string)
    (rules : OccupancyRuleListDTO) (data : gmap string json) :
  files w !! get_area_config_path area_id = Some (Document data) ->
  set_occupancy_rules area_id rules w
  = (Return tt,
     with_files (<[get_area_config_path area_id :=
                     Document (<[OCCUPANCY_RULES := JList (root rules)]> data)]>
                   (files w))
       (with_dirs (dirs w ∪ list_to_set
                     (ancestors (dirname (get_area_config_path area_id)))) w)).
Proof.
  intros Hfile. unfold set_occupancy_rules, bind, mkdir_parents, modify.
  rewrite (os_path_exists_file _ _ (Document data)) by exact Hfile.
  rewrite (json_load_document _ _ data) by exact Hfile.
  rewrite (open_w_existing _ _ (Document data)) by exact Hfile.
  unfold to_store_json. rewrite lookup_singleton_eq.
  unfold json_dump, modify, with_files; cbn.
  now rewrite insert_insert_eq.
Qed.

(** C7: saving rules is a read-modify-write of the sidecar.  With no
    file, the directory of the sidecar and the file come into being, the
    file holding just the rules.  With a file holding a JSON object, the
    [occupancy_rules] key is set to the new rules and every other key
    keeps its value.  Neither case touches another file or the
    configuration store. *)
Theorem set_occupancy_rules_read_modify_write (w : World)
    (area_id : string) (rules : OccupancyRuleListDTO) :
  let p := get_area_config_path area_id in
  (files w !! p = None ->
   exists w',
     set_occupancy_rules area_id rules w = (Return tt, w') /\
     files w' !! p
       = Some (Document {[ OCCUPANCY_RULES := JList (root rules) ]}) /\
     dir_exists w' (dirname p) /\
     (forall q, q <> p -> files w' !! q = files w !! q) /\
     config_file w' = config_file w)
  /\
  (forall data,
     files w !! p = Some (Document data) ->
     exists w' data',
       set_occupancy_rules area_id rules w = (Return tt, w') /\
       files w' !! p = Some (Document data') /\
       data' !! OCCUPANCY_RULES = Some (JList (root rules)) /\
       (forall k, k <> OCCUPANCY_RULES -> data' !! k = data !! k) /\
       (forall q, q <> p -> files w' !! q = files w !! q) /\
       config_file w' = config_file w).
Proof.
  intros p. split.
  - intros Hnone. eexists. split; [apply set_rules_file_absent, Hnone |].
    cbn [files with_files config_file with_dirs].
    split; [apply lookup_insert_eq |].
    split; [apply dir_exists_after_mkdir |].
    split; [| reflexivity].
    intros q Hq. now apply lookup_insert_ne.
  - intros data Hfile. do 2 eexists.
    split; [eapply set_rules_file_present, Hfile |].
    cbn [files with_files config_file with_dirs].
    split; [apply lookup_insert_eq |].
    split; [apply lookup_insert_eq |].
    split; [intros k Hk; now apply lookup_insert_ne |].
    split; [| reflexivity].
    intros q Hq. now apply lookup_insert_ne.
Qed.

(** ** Validation of camera ids *)

Lemma all_cameras_exist_false (camera_ids : list string) (cams : string) :
  all_cameras_exist camera_ids cams = false <->
  exists x, In x (PyStr.split "," cams) /\ ~ In x camera_ids.
Proof.
  unfold all_cameras_exist. split.
  - intros H. induction (PyStr.split "," cams) as [| y l IH]; [discriminate |].
    cbn in H. apply andb_false_iff in H as [H | H].
    + exists y. split; [now left |]. intros Hin.
      apply mem_In in Hin. congruence.
    + destruct (IH H) as (x & Hx & Hnot). exists x. split; [now right | easy].
  - intros (x & Hx & Hnot).
    destruct (forallb _ _) eqn:E; [| reflexivity].
    rewrite forallb_forall in E. apply E, mem_In in Hx. contradiction.
Qed.

Lemma non_existent_cameras_spec (camera_ids : list string) (cams x : string) :
  x ∈ non_existent_cameras camera_ids cams <->
  In x (PyStr.split "," cams) /\ ~ In x camera_ids.
Proof.
  unfold non_existent_cameras.
  rewrite elem_of_difference, !elem_of_list_to_set, !list_elem_of_In.
  reflexivity.
Qed.

(** ** Position of an id *)

Lemma index_None (x : string) (l : list string) :
  PyStr.index x l = None <-> ~ In x l.
Proof.
  induction l as [| y l IH]; cbn; [easy |].
  destruct (String.eqb_spec y x) as [-> | Hne].
  - split; [discriminate | intros H; exfalso; apply H; now left].
  - destruct (PyStr.index x l); cbn.
    + split; [discriminate |]. intros H.
      assert (Hnin : ~ In x l) by tauto.
      apply IH in Hnin. discriminate.
    + split; [| reflexivity]. intros _ [Heq | Hin]; [easy |].
      now apply IH in Hin.
Qed.

Lemma index_Some (x : string) (l : list string) (i : nat) :
  PyStr.index x l = Some i -> l !! i = Some x.
Proof.
  revert i. induction l as [| y l IH]; cbn; intros i H; [discriminate |].
  destruct (String.eqb_spec y x) as [-> | Hne].
  - now inversion H.
  - destruct (PyStr.index x l) as [j |]; cbn in H; [| discriminate].
    inversion H; subst. cbn. now apply IH.
Qed.

Lemma index_In (x : string) (l : list string) :
  In x l -> exists i, PyStr.index x l = Some i.
Proof.
  intros Hin. destruct (PyStr.index x l) as [i |] eqn:E; [eauto |].
  now apply index_None in E.
Qed.

(** ** The guards of the handlers *)

Lemma create_area_reserved (w : World) (new_area : AreaConfigDTO)
    (reboot_processor : bool) :
  ~ In (id new_area) (area_ids (config_file w)) ->
  PyStr.upper (id new_area) = ALL_AREAS ->
  create_area new_area reboot_processor w
  = (Raise (HTTPException HTTP_400_BAD_REQUEST
              (bad_request_serializer "Area with ID: 'ALL' is not valid."
                                      "Invalid ID")), w).
Proof.
  intros Hfresh Hall.
  unfold create_area, bind, gets, raise.
  destruct (PyStr.mem _ _) eqn:E; [now apply mem_In in E |].
  apply String.eqb_eq in Hall. now rewrite Hall.
Qed.

Lemma create_area_missing_cameras (w : World) (new_area : AreaConfigDTO)
    (reboot_processor : bool) :
  ~ In (id new_area) (area_ids (config_file w)) ->
  PyStr.upper (id new_area) <> ALL_AREAS ->
  all_cameras_exist (camera_ids_of (config_file w)) (cameras new_area) = false ->
  create_area new_area reboot_processor w
  = (Raise (HTTPException HTTP_404_NOT_FOUND
              (CamerasDoNotExist
                 (non_existent_cameras (camera_ids_of (config_file w))
                                       (cameras new_area)))), w).
Proof.
  intros Hfresh Hall Hcams.
  unfold create_area, bind, gets, raise.
  destruct (PyStr.mem _ _) eqn:E; [now apply mem_In in E |].
  apply String.eqb_neq in Hall. rewrite Hall.
  unfold camera_ids_of in Hcams. now rewrite Hcams.
Qed.

(** What [create_area] goes on to do once the three guards are passed. *)
Lemma create_area_validated (w : World) (new_area : AreaConfigDTO)
    (reboot_processor : bool) :
  ~ In (id new_area) (area_ids (config_file w)) ->
  PyStr.upper (id new_area) <> ALL_AREAS ->
  all_cameras_exist (camera_ids_of (config_file w)) (cameras new_area) = true ->
  let rules := occupancy_rules new_area in
  let stripped := set_occupancy_rules_field None new_area in
  let area_dict := map_to_config_file_format stripped in
  let config_dict :=
    PyDict.set (config_file w)
               (area_section_name (length (area_ids (config_file w))))
               area_dict in
  create_area new_area reboot_processor w
  = (success <- update_config save config_dict reboot_processor ;;
     (if truthy rules
      then set_occupancy_rules (id stripped) (default parse_obj_empty rules)
      else ret tt) ;;;
     if negb success then
       ret (handle_response (Some area_dict) success (Some HTTP_201_CREATED))
     else
       mkdir_parents_named
         (os_path_join AreaLogDirectory [id stripped; "occupancy_log"]) ;;;
       mkdir_parents_named (os_path_join AreaConfigDirectory [id stripped]) ;;;
       areas <- get_areas ;;
       ret (AreaResponse (find_area (get_str area_dict "Id") areas))) w.
Proof.
  intros Hfresh Hall Hcams. cbv zeta.
  unfold create_area at 1, bind at 1 2 3, gets at 1 2, extract_config at 1,
    bind at 1, gets at 1.
  destruct (PyStr.mem _ _) eqn:E; [now apply mem_In in E |].
  apply String.eqb_neq in Hall. rewrite Hall.
  unfold camera_ids_of in Hcams. rewrite Hcams. cbn [negb].
  unfold area_ids, config_get_areas. rewrite !length_map. reflexivity.
Qed.

Lemma edit_area_reserved (w : World) (area_id : string)
    (edited_area : AreaConfigDTO) (reboot_processor : bool) :
  PyStr.upper area_id = ALL_AREAS ->
  edit_area area_id edited_area reboot_processor w
  = (Raise (HTTPException HTTP_400_BAD_REQUEST
              (bad_request_serializer "Area with ID: 'ALL' cannot be edited."
                                      "Invalid ID")), w).
Proof.
  intros Hall. apply String.eqb_eq in Hall.
  unfold edit_area. now rewrite Hall.
Qed.

Lemma edit_area_unknown (w : World) (area_id : string)
    (edited_area : AreaConfigDTO) (reboot_processor : bool) :
  PyStr.upper area_id <> ALL_AREAS ->
  ~ In area_id (area_ids (config_file w)) ->
  edit_area area_id edited_area reboot_processor w
  = (Raise (HTTPException HTTP_404_NOT_FOUND (AreaDoesNotExist area_id)), w).
Proof.
  intros Hall Hunknown. apply String.eqb_neq in Hall.
  apply index_None in Hunknown.
  unfold edit_area, bind, extract_config, gets. rewrite Hall.
  unfold area_ids in Hunknown. now rewrite Hunknown.
Qed.

Lemma edit_area_missing_cameras (w : World) (area_id : string)
    (edited_area : AreaConfigDTO) (reboot_processor : bool) (index : nat) :
  PyStr.upper area_id <> ALL_AREAS ->
  PyStr.index area_id (area_ids (config_file w)) = Some index ->
  all_cameras_exist (camera_ids_of (config_file w)) (cameras edited_area)
  = false ->
  edit_area area_id edited_area reboot_processor w
  = (Raise (HTTPException HTTP_404_NOT_FOUND
              (CamerasDoNotExist
                 (non_existent_cameras (camera_ids_of (config_file w))
                                       (cameras edited_area)))), w).
Proof.
  intros Hall Hindex Hcams. apply String.eqb_neq in Hall.
  unfold edit_area, bind, extract_config, gets. rewrite Hall.
  unfold area_ids in Hindex. rewrite Hindex.
  unfold camera_ids_of, cameras_of in Hcams. cbn [cameras set_id].
  now rewrite Hcams.
Qed.

(** What [edit_area] goes on to do once the three guards are passed. *)
Lemma edit_area_validated (w : World) (area_id : string)
    (edited_area : AreaConfigDTO) (reboot_processor : bool) (index : nat) :
  PyStr.upper area_id <> ALL_AREAS ->
  PyStr.index area_id (area_ids (config_file w)) = Some index ->
  all_cameras_exist (camera_ids_of (config_file w)) (cameras edited_area)
  = true ->
  let rules := occupancy_rules edited_area in
  let stripped := set_occupancy_rules_field None (set_id area_id edited_area) in
  let area_dict := map_to_config_file_format stripped in
  let config_dict :=
    PyDict.set (config_file w) (area_section_name index) area_dict in
  edit_area area_id edited_area reboot_processor w
  = (success <- update_config save config_dict reboot_processor ;;
     (if truthy rules
      then set_occupancy_rules area_id (default parse_obj_empty rules)
      else (_ <- delete_area_occupancy_rules area_id ;; ret tt)) ;;;
     if negb success then
       ret (handle_response (Some area_dict) success None)
     else
       areas <- get_areas ;;
       ret (AreaResponse (find_area area_id areas))) w.
Proof.
  intros Hall Hindex Hcams. cbv zeta. apply String.eqb_neq in Hall.
  unfold edit_area at 1, bind at 1, extract_config at 1, gets at 1.
  rewrite Hall. unfold area_ids in Hindex. rewrite Hindex.
  unfold camera_ids_of, cameras_of in Hcams. cbn [cameras set_id].
  now rewrite Hcams.
Qed.

(** ** Facts about dicts in insertion order *)

Section DictFacts.
Context {V : Type}.
Implicit Types (d : PyDict.t V) (k : string) (v : V).

Lemma get_set_eq d k v : PyDict.get (PyDict.set d k v) k = Some v.
Proof.
  induction d as [| [k' v'] d IH]; cbn.
  - now rewrite String.eqb_refl.
  - destruct (String.eqb_spec k' k) as [-> | Hne]; cbn.
    + now rewrite String.eqb_refl.
    + apply String.eqb_neq in Hne. now rewrite Hne.
Qed.

Lemma get_set_ne d k k' v :
  k' <> k -> PyDict.get (PyDict.set d k v) k' = PyDict.get d k'.
Proof.
  intros Hne. induction d as [| [k0 v0] d IH]; cbn.
  - apply not_eq_sym, String.eqb_neq in Hne. now rewrite Hne.
  - destruct (String.eqb_spec k0 k) as [-> | Hk0]; cbn.
    + apply not_eq_sym, String.eqb_neq in Hne. now rewrite Hne.
    + now rewrite IH.
Qed.

Lemma set_fresh d k v :
  ~ In k (PyDict.keys d) -> PyDict.set d k v = d ++ [(k, v)].
Proof.
  induction d as [| [k' v'] d IH]; cbn; intros Hfresh; [reflexivity |].
  destruct (String.eqb_spec k' k) as [-> | Hne]; [tauto |].
  rewrite IH; [reflexivity | tauto].
Qed.

(** In a dict, the key at position [i] is found at position [i]. *)
Lemma set_at_position d k v (i : nat) :
  NoDup (PyDict.keys d) -> PyDict.keys d !! i = Some k ->
  PyDict.set d k v = <[i := (k, v)]> d.
Proof.
  revert i. induction d as [| [k' v'] d IH]; intros i Hnd Hi; [easy |].
  cbn in *. apply NoDup_cons in Hnd as [Hnotin Hnd].
  destruct i as [| i]; cbn in Hi.
  - inversion Hi; subst. now rewrite String.eqb_refl.
  - destruct (String.eqb_spec k' k) as [-> | Hne].
    + exfalso. apply Hnotin. eapply list_elem_of_lookup_2, Hi.
    + cbn. now rewrite (IH i).
Qed.

Lemma pop_at_position d k (i : nat) :
  NoDup (PyDict.keys d) -> PyDict.keys d !! i = Some k ->
  PyDict.pop d k = Some (delete i d).
Proof.
  revert i. induction d as [| [k' v'] d IH]; intros i Hnd Hi; [easy |].
  cbn in *. apply NoDup_cons in Hnd as [Hnotin Hnd].
  destruct i as [| i]; cbn in Hi.
  - inversion Hi; subst. now rewrite String.eqb_refl.
  - destruct (String.eqb_spec k' k) as [-> | Hne].
    + exfalso. apply Hnotin. eapply list_elem_of_lookup_2, Hi.
    + now rewrite (IH i).
Qed.

(** Reading every key of a dict in turn reads its values in order. *)
Lemma map_get_keys {B} (g : option V -> B) d :
  NoDup (PyDict.keys d) ->
  map (fun x => g (PyDict.get d x)) (PyDict.keys d)
  = map (fun kv => g (Some (snd kv))) d.
Proof.
  induction d as [| [k v] d IH]; intros Hnd; [reflexivity |].
  cbn in *. apply NoDup_cons in Hnd as [Hnotin Hnd].
  rewrite String.eqb_refl. f_equal. rewrite <- IH by assumption.
  apply map_ext_in. intros x Hx.
  destruct (String.eqb_spec k x) as [-> | Hne]; [| reflexivity].
  exfalso. now apply Hnotin, list_elem_of_In.
Qed.

Variable keep : string -> bool.

Local Abbreviation restrict := (PyDict.restrict keep).

Lemma keys_restrict d :
  PyDict.keys (restrict d) = List.filter keep (PyDict.keys d).
Proof.
  unfold PyDict.keys, PyDict.restrict.
  induction d as [| [k v] d IH]; cbn; [reflexivity |].
  destruct (keep k); cbn; now rewrite IH.
Qed.

Lemma get_restrict d k :
  keep k = true -> PyDict.get (restrict d) k = PyDict.get d k.
Proof.
  intros Hk. induction d as [| [k' v'] d IH]; cbn; [reflexivity |].
  destruct (String.eqb_spec k' k) as [-> | Hne].
  - rewrite Hk. cbn. now rewrite String.eqb_refl.
  - destruct (keep k'); cbn; [| exact IH].
    apply String.eqb_neq in Hne. now rewrite Hne.
Qed.

Lemma restrict_set d k v :
  keep k = true -> restrict (PyDict.set d k v) = PyDict.set (restrict d) k v.
Proof.
  intros Hk. unfold PyDict.restrict. induction d as [| [k' v'] d IH]; cbn.
  - now rewrite Hk.
  - destruct (String.eqb_spec k' k) as [-> | Hne]; cbn.
    + rewrite Hk. cbn. now rewrite String.eqb_refl.
    + destruct (keep k') eqn:Hk'; cbn; rewrite IH; [| reflexivity].
      apply String.eqb_neq in Hne. now rewrite Hne.
Qed.

Lemma restrict_pop d d' k :
  keep k = true -> PyDict.pop d k = Some d' ->
  PyDict.pop (restrict d) k = Some (restrict d').
Proof.
  intros Hk. revert d'. unfold PyDict.restrict.
  induction d as [| [k' v'] d IH]; cbn; intros d' Hpop; [discriminate |].
  destruct (String.eqb_spec k' k) as [-> | Hne].
  - inversion Hpop; subst. rewrite Hk. cbn. now rewrite String.eqb_refl.
  - destruct (PyDict.pop d k) as [d0 |]; cbn in Hpop; [| discriminate].
    inversion Hpop; subst. cbn.
    destruct (keep k') eqn:Hk'; cbn; [| now apply IH].
    apply String.eqb_neq in Hne. rewrite Hne.
    now rewrite (IH d0).
Qed.

Lemma pop_present d k :
  In k (PyDict.keys d) -> exists d', PyDict.pop d k = Some d'.
Proof.
  induction d as [| [k' v'] d IH]; cbn; [easy |]. intros [-> | Hin].
  - rewrite String.eqb_refl. eauto.
  - destruct (String.eqb k' k); [eauto |].
    destruct (IH Hin) as [d' ->]. cbn. eauto.
Qed.

End DictFacts.

(** ** Area sections of the store *)

Lemma map_fmap {A B} (f : A -> B) (l : list A) : map f l = f <$> l.
Proof. reflexivity. Qed.

Lemma area_section_name_inj (i j : nat) :
  area_section_name i = area_section_name j -> i = j.
Proof.
  unfold area_section_name. intros H.
  apply (inj (String.app "Area_")) in H. now apply (inj pretty) in H.
Qed.

Lemma area_section_name_is_area (i : nat) :
  is_area_name (area_section_name i) = true.
Proof.
  unfold is_area_name, PyStr.startswith, area_section_name. cbn.
  now destruct (pretty i).
Qed.

Lemma extract_is_restrict (c : config) :
  extract_config_areas c = PyDict.restrict is_area_name c.
Proof. reflexivity. Qed.

Lemma names_are_keys (c : config) :
  names_with_prefix AREA_PREFIX c = PyDict.keys (extract_config_areas c).
Proof. symmetry. apply (keys_restrict is_area_name). Qed.

Lemma names_are_area_names (c : config) (x : string) :
  In x (names_with_prefix AREA_PREFIX c) -> is_area_name x = true.
Proof. unfold names_with_prefix. intros H. now apply filter_In in H. Qed.

Lemma contiguous_NoDup (c : config) :
  contiguous c -> NoDup (names_with_prefix AREA_PREFIX c).
Proof.
  unfold contiguous. intros ->. rewrite map_fmap.
  apply NoDup_fmap_2_strong; [| apply NoDup_seq].
  intros i j _ _. apply area_section_name_inj.
Qed.

Lemma contiguous_lookup (c : config) (i : nat) :
  contiguous c -> (i < length (names_with_prefix AREA_PREFIX c))%nat ->
  names_with_prefix AREA_PREFIX c !! i = Some (area_section_name i).
Proof.
  unfold contiguous. intros Hc Hi. rewrite Hc, map_fmap, list_lookup_fmap.
  now rewrite lookup_seq_lt.
Qed.

(** The three ways the handlers list the areas agree. *)
Lemma areas_of_config_get_areas (c : config) :
  areas_of c = config_get_areas c.
Proof.
  unfold areas_of, config_get_areas. rewrite names_are_keys.
  apply map_ext_in. intros x Hx. unfold map_section_from_config.
  rewrite <- names_are_keys in Hx. rewrite extract_is_restrict.
  now rewrite (get_restrict is_area_name)
    by now apply (names_are_area_names c).
Qed.

Lemma config_get_areas_sections (c : config) :
  NoDup (names_with_prefix AREA_PREFIX c) ->
  config_get_areas c
  = map (fun kv => area_of_section (snd kv)) (extract_config_areas c).
Proof.
  intros Hnd. rewrite <- areas_of_config_get_areas. unfold areas_of.
  rewrite names_are_keys in Hnd.
  apply (map_get_keys (fun o => area_of_section (default ∅ o)) _ Hnd).
Qed.

Lemma area_ids_length (c : config) :
  length (area_ids c) = length (names_with_prefix AREA_PREFIX c).
Proof. unfold area_ids. now rewrite !length_map. Qed.

Lemma area_ids_config_get_areas (c : config) :
  area_ids c = map id (config_get_areas c).
Proof. reflexivity. Qed.

Lemma keys_set_present {V} (d : PyDict.t V) (k : string) (v : V) :
  In k (PyDict.keys d) -> PyDict.keys (PyDict.set d k v) = PyDict.keys d.
Proof.
  unfold PyDict.keys.
  induction d as [| [k' v'] d IH]; cbn; [easy |]. intros Hin.
  destruct (String.eqb_spec k' k) as [-> | Hne]; cbn; [reflexivity |].
  rewrite IH; [reflexivity | tauto].
Qed.

Lemma area_name_fresh (c : config) :
  contiguous c ->
  ~ In (area_section_name (length (area_ids c))) (PyDict.keys c).
Proof.
  intros Hc Hin.
  assert (Hname : In (area_section_name (length (area_ids c)))
                     (names_with_prefix AREA_PREFIX c)).
  { apply filter_In. split; [exact Hin | apply area_section_name_is_area]. }
  rewrite Hc in Hname. apply in_map_iff in Hname as (i & Heq & Hi).
  apply area_section_name_inj in Heq. apply in_seq in Hi.
  rewrite area_ids_length in Heq. lia.
Qed.

(** Writing section [Area_n] into a store with [n] areas appends it. *)
Lemma set_next_area (c : config) (v : section) :
  contiguous c ->
  let n := length (area_ids c) in
  let c' := PyDict.set c (area_section_name n) v in
  c' = c ++ [(area_section_name n, v)] /\
  names_with_prefix AREA_PREFIX c' = map area_section_name (seq 0 (S n)) /\
  contiguous c' /\
  config_get_areas c' = config_get_areas c ++ [area_of_section v].
Proof.
  intros Hc n c'.
  assert (Hc' : c' = c ++ [(area_section_name n, v)])
    by apply set_fresh, area_name_fresh, Hc.
  assert (Hnames : names_with_prefix AREA_PREFIX c'
                   = names_with_prefix AREA_PREFIX c ++ [area_section_name n]).
  { rewrite Hc'. unfold names_with_prefix, PyDict.keys.
    rewrite map_app, List.filter_app. cbn [map List.filter fst].
    change (PyStr.startswith (area_section_name n) AREA_PREFIX)
      with (is_area_name (area_section_name n)).
    now rewrite area_section_name_is_area. }
  assert (Hseq : names_with_prefix AREA_PREFIX c'
                 = map area_section_name (seq 0 (S n))).
  { pose proof Hc as Heq. unfold contiguous in Heq.
    rewrite Hnames, seq_S, map_app. cbn [map Nat.add]. rewrite Heq at 1.
    subst n. now rewrite area_ids_length. }
  assert (Hcont : contiguous c').
  { unfold contiguous. rewrite Hseq at 1.
    now rewrite Hseq, length_map, length_seq. }
  repeat split; try assumption.
  rewrite (config_get_areas_sections c') by now apply contiguous_NoDup.
  rewrite (config_get_areas_sections c) by now apply contiguous_NoDup.
  rewrite Hc'. unfold extract_config_areas.
  rewrite List.filter_app, map_app. cbn [List.filter fst].
  change (PyStr.startswith (area_section_name n) AREA_PREFIX)
    with (is_area_name (area_section_name n)).
  now rewrite area_section_name_is_area.
Qed.

(** Writing section [Area_i] for [i] below the number of areas replaces
    the [i]-th area and moves nothing. *)
Lemma set_existing_area (c : config) (v : section) (i : nat) :
  contiguous c -> (i < length (area_ids c))%nat ->
  let c' := PyDict.set c (area_section_name i) v in
  PyDict.keys c' = PyDict.keys c /\
  contiguous c' /\
  config_get_areas c' = <[i := area_of_section v]> (config_get_areas c).
Proof.
  intros Hc Hi c'. rewrite area_ids_length in Hi.
  pose proof (contiguous_lookup c i Hc Hi) as Hlook.
  assert (Hin : In (area_section_name i) (PyDict.keys c)).
  { apply list_elem_of_lookup_2, list_elem_of_In in Hlook.
    unfold names_with_prefix in Hlook. now apply filter_In in Hlook. }
  assert (Hkeys : PyDict.keys c' = PyDict.keys c)
    by now apply keys_set_present.
  assert (Hnames : names_with_prefix AREA_PREFIX c'
                   = names_with_prefix AREA_PREFIX c)
    by (unfold names_with_prefix; now rewrite Hkeys).
  assert (Hcont : contiguous c')
    by (unfold contiguous; now rewrite Hnames).
  repeat split; try assumption.
  rewrite (config_get_areas_sections c') by now apply contiguous_NoDup.
  rewrite (config_get_areas_sections c) by now apply contiguous_NoDup.
  rewrite !extract_is_restrict. unfold c'.
  rewrite restrict_set by apply area_section_name_is_area.
  rewrite (set_at_position _ _ _ i).
  - exact (list_fmap_insert (fun kv => area_of_section (snd kv)) _ _ _).
  - rewrite <- extract_is_restrict, <- names_are_keys.
    now apply contiguous_NoDup.
  - now rewrite <- extract_is_restrict, <- names_are_keys.
Qed.

Lemma renumber_areas_sections (k : nat) (c : config) :
  PyDict.keys (extract_config_areas (renumber_areas k c))
  = map area_section_name (seq k (length (extract_config_areas c))) /\
  map snd (extract_config_areas (renumber_areas k c))
  = map snd (extract_config_areas c).
Proof.
  unfold PyDict.keys, extract_config_areas. revert k.
  induction c as [| [x s] c IH]; intros k; cbn; [easy |].
  destruct (PyStr.startswith x AREA_PREFIX) eqn:Hx; cbn.
  - change (PyStr.startswith (area_section_name k) AREA_PREFIX)
      with (is_area_name (area_section_name k)).
    rewrite area_section_name_is_area. cbn.
    destruct (IH (S k)) as [-> ->]. easy.
  - rewrite Hx. apply IH.
Qed.

(** Removing section [Area_i] and renumbering leaves the other areas in
    order under the names [Area_0], [Area_1], ... *)
Lemma pop_and_renumber (c : config) (i : nat) :
  contiguous c -> (i < length (area_ids c))%nat ->
  exists c1,
    PyDict.pop c (area_section_name i) = Some c1 /\
    let c' := reestructure_areas c1 in
    names_with_prefix AREA_PREFIX c'
    = map area_section_name (seq 0 (length (area_ids c) - 1)) /\
    contiguous c' /\
    config_get_areas c' = delete i (config_get_areas c).
Proof.
  intros Hc Hi. pose proof Hi as Hlen. rewrite area_ids_length in Hi.
  pose proof (contiguous_lookup c i Hc Hi) as Hlook.
  pose proof (contiguous_NoDup c Hc) as Hnd.
  assert (Hin : In (area_section_name i) (PyDict.keys c)).
  { apply list_elem_of_lookup_2, list_elem_of_In in Hlook.
    unfold names_with_prefix in Hlook. now apply filter_In in Hlook. }
  destruct (pop_present c _ Hin) as [c1 Hpop]. exists c1.
  split; [exact Hpop |]. intros c'.
  assert (Hsections : extract_config_areas c1
                      = delete i (extract_config_areas c)).
  { apply (restrict_pop is_area_name) in Hpop;
      [| apply area_section_name_is_area].
    rewrite names_are_keys, extract_is_restrict in Hnd, Hlook.
    rewrite (pop_at_position _ _ i Hnd Hlook) in Hpop.
    rewrite !extract_is_restrict. now inversion Hpop. }
  destruct (renumber_areas_sections 0 c1) as [Hkeys Hvalues].
  fold (reestructure_areas c1) in Hkeys, Hvalues. fold c' in Hkeys, Hvalues.
  assert (Hcount : length (extract_config_areas c1)
                   = (length (area_ids c) - 1)%nat).
  { rewrite Hsections, length_delete.
    - rewrite area_ids_length, names_are_keys. unfold PyDict.keys.
      now rewrite length_map.
    - apply lookup_lt_is_Some. rewrite names_are_keys in Hi.
      unfold PyDict.keys in Hi. now rewrite length_map in Hi. }
  assert (Hnames : names_with_prefix AREA_PREFIX c'
                   = map area_section_name (seq 0 (length (area_ids c) - 1)))
    by now rewrite names_are_keys, Hkeys, Hcount.
  assert (Hcont : contiguous c').
  { unfold contiguous. rewrite Hnames at 1.
    now rewrite Hnames, length_map, length_seq. }
  repeat split; try assumption.
  rewrite (config_get_areas_sections c') by now apply contiguous_NoDup.
  rewrite (config_get_areas_sections c) by assumption.
  rewrite <- (map_map snd area_of_section), Hvalues, Hsections.
  rewrite (map_map snd area_of_section).
  exact (list_fmap_delete (fun kv => area_of_section (snd kv)) _ _).
Qed.

(** ** What the sidecar helpers leave alone *)

Lemma json_load_truncated (w : World) (p : path) :
  files w !! p = Some Truncated -> json_load p w = (Raise JSONDecodeError, w).
Proof. intros H. unfold json_load. now rewrite H. Qed.

Lemma delete_rules_truncated (w : World) (area_id : string) :
  files w !! get_area_config_path area_id = Some Truncated ->
  delete_area_occupancy_rules area_id w = (Raise JSONDecodeError, w).
Proof.
  intros Hfile. unfold delete_area_occupancy_rules, bind.
  now rewrite (os_path_exists_file _ _ _ Hfile), (json_load_truncated _ _ Hfile).
Qed.

Lemma set_rules_truncated (w : World) (area_id : string)
    (rules : OccupancyRuleListDTO) :
  files w !! get_area_config_path area_id = Some Truncated ->
  set_occupancy_rules area_id rules w
  = (Raise JSONDecodeError,
     with_dirs (dirs w ∪ list_to_set
                  (ancestors (dirname (get_area_config_path area_id)))) w).
Proof.
  intros Hfile. unfold set_occupancy_rules, bind, mkdir_parents, modify.
  rewrite (os_path_exists_file _ _ Truncated) by exact Hfile.
  now rewrite json_load_truncated by exact Hfile.
Qed.

(** The sidecar helpers read and write nothing but files and
    directories: they behave the same whatever the configuration. *)
Lemma delete_rules_with_config (w : World) (area_id : string) (c : config) :
  delete_area_occupancy_rules area_id (with_config c w)
  = (fst (delete_area_occupancy_rules area_id w),
     with_config c (snd (delete_area_occupancy_rules area_id w))).
Proof.
  destruct (files w !! get_area_config_path area_id) as [[| data] |] eqn:Hfile.
  - now rewrite !delete_rules_truncated by exact Hfile.
  - destruct (data !! OCCUPANCY_RULES) as [v |] eqn:Hkey.
    + now rewrite !(delete_rules_key_present _ _ data) by eauto.
    + now rewrite !(delete_rules_without_key _ _ data) by eauto.
  - now rewrite !delete_rules_file_absent by exact Hfile.
Qed.

Lemma delete_rules_config_file (w : World) (area_id : string) :
  config_file (snd (delete_area_occupancy_rules area_id w)) = config_file w.
Proof.
  pose proof (delete_rules_with_config w area_id (config_file w)) as H.
  replace (with_config (config_file w) w) with w in H by now destruct w.
  rewrite H at 1. reflexivity.
Qed.

Lemma set_rules_with_config (w : World) (area_id : string)
    (rules : OccupancyRuleListDTO) (c : config) :
  set_occupancy_rules area_id rules (with_config c w)
  = (fst (set_occupancy_rules area_id rules w),
     with_config c (snd (set_occupancy_rules area_id rules w))).
Proof.
  destruct (files w !! get_area_config_path area_id) as [[| data] |] eqn:Hfile.
  - now rewrite !set_rules_truncated by exact Hfile.
  - now rewrite !(set_rules_file_present _ _ _ data) by exact Hfile.
  - now rewrite !set_rules_file_absent by exact Hfile.
Qed.

Lemma rmtree_config_file (w : World) (n : pathname) :
  config_file (snd (rmtree n w)) = config_file w.
Proof. unfold rmtree. repeat case_match; reflexivity. Qed.

(** Whatever the sidecar held, once [delete_area_occupancy_rules] has
    run it holds no rules. *)
Lemma delete_rules_leaves_none (w : World) (area_id : string) :
  stored_rules (snd (delete_area_occupancy_rules area_id w))
               (get_area_config_path area_id) = None.
Proof.
  unfold stored_rules.
  destruct (files w !! get_area_config_path area_id) as [[| data] |] eqn:Hfile.
  - rewrite delete_rules_truncated by exact Hfile. cbn. now rewrite Hfile.
  - destruct (data !! OCCUPANCY_RULES) as [v |] eqn:Hkey.
    + rewrite (delete_rules_key_present _ _ _ Hfile) by eauto. cbn.
      rewrite lookup_insert_eq. apply lookup_delete_eq.
    + rewrite (delete_rules_without_key _ _ _ Hfile Hkey). cbn.
      now rewrite lookup_insert_eq.
  - rewrite (delete_rules_file_absent _ _ Hfile). cbn. now rewrite Hfile.
Qed.

(** ** The mapper round trip *)

Lemma area_of_section_round_trip (a : AreaConfigDTO) :
  area_of_section (map_to_config_file_format a)
  = set_occupancy_rules_field None a.
Proof. destruct a. reflexivity. Qed.

Lemma area_dict_id (a : AreaConfigDTO) :
  map_to_config_file_format a !! "Id" = Some (VStr (id a)).
Proof. destruct a. reflexivity. Qed.

Lemma get_str_area_dict_id (a : AreaConfigDTO) :
  get_str (map_to_config_file_format a) "Id" = id a.
Proof. unfold get_str. now rewrite area_dict_id. Qed.

(** ** The handlers after their guards *)

Lemma edit_rules_step_with_config (w : World) (area_id : string)
    (rules : option OccupancyRuleListDTO) (c : config) :
  edit_rules_step area_id rules (with_config c w)
  = (fst (edit_rules_step area_id rules w),
     with_config c (snd (edit_rules_step area_id rules w))).
Proof.
  unfold edit_rules_step. destruct (truthy rules).
  - apply set_rules_with_config.
  - unfold bind. rewrite delete_rules_with_config.
    now destruct (delete_area_occupancy_rules area_id w) as [[r | e] w'].
Qed.

Lemma create_rules_step_with_config (w : World) (area_id : string)
    (rules : option OccupancyRuleListDTO) (c : config) :
  create_rules_step area_id rules (with_config c w)
  = (fst (create_rules_step area_id rules w),
     with_config c (snd (create_rules_step area_id rules w))).
Proof.
  unfold create_rules_step. destruct (truthy rules);
    [apply set_rules_with_config | reflexivity].
Qed.

Lemma edit_rules_step_config_file (w : World) (area_id : string)
    (rules : option OccupancyRuleListDTO) :
  config_file (snd (edit_rules_step area_id rules w)) = config_file w.
Proof.
  pose proof (edit_rules_step_with_config w area_id rules (config_file w))
    as H.
  replace (with_config (config_file w) w) with w in H by now destruct w.
  rewrite H at 1. reflexivity.
Qed.

(** [edit_area], once its guards are passed, in terms of what [save]
    answers and of the rule step run on the files as they were. *)
Lemma edit_area_run (w : World) (area_id : string)
    (edited_area : AreaConfigDTO) (reboot_processor : bool) (index : nat) :
  PyStr.upper area_id <> ALL_AREAS ->
  PyStr.index area_id (area_ids (config_file w)) = Some index ->
  all_cameras_exist (camera_ids_of (config_file w)) (cameras edited_area)
  = true ->
  let area_dict :=
    map_to_config_file_format
      (set_occupancy_rules_field None (set_id area_id edited_area)) in
  let config_dict :=
    PyDict.set (config_file w) (area_section_name index) area_dict in
  let saved := save config_dict reboot_processor (config_file w) in
  let step := edit_rules_step area_id (occupancy_rules edited_area) w in
  edit_area area_id edited_area reboot_processor w
  = (match fst step with
     | Raise e => Raise e
     | Return _ =>
         if snd saved
         then Return (AreaResponse (find_area area_id (areas_of (fst saved))))
         else Return (handle_response (Some area_dict) false None)
     end,
     with_config (fst saved) (snd step)).
Proof.
  intros Hall Hindex Hcams area_dict config_dict saved step.
  rewrite (edit_area_validated w area_id edited_area reboot_processor index)
    by assumption.
  fold (edit_rules_step area_id (occupancy_rules edited_area)).
  fold area_dict. fold config_dict.
  unfold bind at 1, update_config. fold saved.
  destruct saved as [stored success]. unfold bind at 1.
  rewrite edit_rules_step_with_config. fold step.
  destruct step as [[[] | e] w']; cbn [fst snd]; [| reflexivity].
  destruct success; reflexivity.
Qed.

(** The same for [create_area]. *)
Lemma create_area_run (w : World) (new_area : AreaConfigDTO)
    (reboot_processor : bool) :
  ~ In (id new_area) (area_ids (config_file w)) ->
  PyStr.upper (id new_area) <> ALL_AREAS ->
  all_cameras_exist (camera_ids_of (config_file w)) (cameras new_area)
  = true ->
  let area_dict :=
    map_to_config_file_format (set_occupancy_rules_field None new_area) in
  let config_dict :=
    PyDict.set (config_file w)
               (area_section_name (length (area_ids (config_file w))))
               area_dict in
  let saved := save config_dict reboot_processor (config_file w) in
  let step := create_rules_step (id new_area) (occupancy_rules new_area) w in
  create_area new_area reboot_processor w
  = match fst step with
    | Raise e => (Raise e, with_config (fst saved) (snd step))
    | Return _ =>
        if snd saved
        then (Return (AreaResponse
                        (find_area (id new_area) (areas_of (fst saved)))),
              with_dirs
                (dirs (snd step)
                 ∪ list_to_set
                     (made (os_path_join AreaLogDirectory
                              [id new_area; "occupancy_log"]))
                 ∪ list_to_set
                     (made (os_path_join AreaConfigDirectory [id new_area])))
                (with_config (fst saved) (snd step)))
        else (Return (handle_response (Some area_dict) false
                                      (Some HTTP_201_CREATED)),
              with_config (fst saved) (snd step))
    end.
Proof.
  intros Hfresh Hall Hcams area_dict config_dict saved step.
  rewrite (create_area_validated w new_area reboot_processor) by assumption.
  change (id (set_occupancy_rules_field None new_area)) with (id new_area).
  fold (create_rules_step (id new_area) (occupancy_rules new_area)).
  fold area_dict. fold config_dict.
  unfold bind at 1, update_config. fold saved.
  destruct saved as [stored success]. unfold bind at 1.
  rewrite create_rules_step_with_config. fold step.
  destruct step as [[[] | e] w']; cbn [fst snd]; [| reflexivity].
  destruct success; cbn [negb]; [| reflexivity].
  unfold bind, mkdir_parents_named, modify, get_areas, gets, ret.
  cbn [fst snd config_file dirs files with_dirs with_config].
  unfold area_dict. now rewrite get_str_area_dict_id.
Qed.

(** ** Reading a handler's answer backwards *)

Lemma create_area_returns_area (w w' : World) (new_area : AreaConfigDTO)
    (reboot_processor : bool) (r : option AreaConfigDTO) :
  create_area new_area reboot_processor w = (Return (AreaResponse r), w') ->
  let area_dict :=
    map_to_config_file_format (set_occupancy_rules_field None new_area) in
  let config_dict :=
    PyDict.set (config_file w)
               (area_section_name (length (area_ids (config_file w))))
               area_dict in
  let saved := save config_dict reboot_processor (config_file w) in
  ~ In (id new_area) (area_ids (config_file w)) /\
  PyStr.upper (id new_area) <> ALL_AREAS /\
  all_cameras_exist (camera_ids_of (config_file w)) (cameras new_area) = true /\
  snd saved = true /\
  config_file w' = fst saved /\
  r = find_area (id new_area) (areas_of (fst saved)).
Proof.
  intros Hrun area_dict config_dict saved.
  destruct (in_dec string_dec (id new_area) (area_ids (config_file w)))
    as [Hdup | Hfresh].
  { rewrite create_area_rejects_duplicate in Hrun by now apply mem_In.
    discriminate. }
  destruct (string_dec (PyStr.upper (id new_area)) ALL_AREAS) as [Hall | Hall].
  { rewrite create_area_reserved in Hrun by assumption. discriminate. }
  destruct (all_cameras_exist (camera_ids_of (config_file w))
                              (cameras new_area)) eqn:Hcams.
  2:{ rewrite create_area_missing_cameras in Hrun by assumption.
      discriminate. }
  rewrite create_area_run in Hrun by assumption.
  fold area_dict config_dict saved in Hrun.
  destruct (fst (create_rules_step _ _ w)); [| discriminate].
  destruct (snd saved); [| discriminate].
  inversion Hrun; subst. repeat split; assumption || reflexivity.
Qed.

Lemma edit_area_returns_area (w w' : World) (area_id : string)
    (edited_area : AreaConfigDTO) (reboot_processor : bool)
    (r : option AreaConfigDTO) :
  edit_area area_id edited_area reboot_processor w
  = (Return (AreaResponse r), w') ->
  PyStr.upper area_id <> ALL_AREAS /\
  all_cameras_exist (camera_ids_of (config_file w)) (cameras edited_area)
  = true /\
  exists index,
    PyStr.index area_id (area_ids (config_file w)) = Some index /\
    let area_dict :=
      map_to_config_file_format
        (set_occupancy_rules_field None (set_id area_id edited_area)) in
    let config_dict :=
      PyDict.set (config_file w) (area_section_name index) area_dict in
    let saved := save config_dict reboot_processor (config_file w) in
    snd saved = true /\
    config_file w' = fst saved /\
    r = find_area area_id (areas_of (fst saved)).
Proof.
  intros Hrun.
  destruct (string_dec (PyStr.upper area_id) ALL_AREAS) as [Hall | Hall].
  { rewrite edit_area_reserved in Hrun by assumption. discriminate. }
  destruct (PyStr.index area_id (area_ids (config_file w)))
    as [index |] eqn:Hindex.
  2:{ apply index_None in Hindex.
      rewrite edit_area_unknown in Hrun by assumption. discriminate. }
  destruct (all_cameras_exist (camera_ids_of (config_file w))
                              (cameras edited_area)) eqn:Hcams.
  2:{ rewrite (edit_area_missing_cameras _ _ _ _ index) in Hrun
        by assumption.
      discriminate. }
  rewrite (edit_area_run _ _ _ _ index) in Hrun by assumption.
  split; [assumption |]. split; [reflexivity |].
  exists index. split; [reflexivity |]. cbv zeta.
  destruct (fst (edit_rules_step _ _ w)); [| discriminate].
  destruct (snd (save _ _ _)); [| discriminate].
  inversion Hrun; subst. repeat split.
Qed.

Lemma delete_area_returns (w w' : World) (area_id : string)
    (reboot_processor : bool) (r : response) :
  delete_area area_id reboot_processor w = (Return r, w') ->
  PyStr.upper area_id <> ALL_AREAS /\
  exists index c1,
    PyStr.index area_id (area_ids (config_file w)) = Some index /\
    PyDict.pop (config_file w) (area_section_name index) = Some c1 /\
    let saved :=
      save (reestructure_areas c1) reboot_processor (config_file w) in
    r = handle_response None (snd saved) (Some HTTP_204_NO_CONTENT) /\
    config_file w' = fst saved.
Proof.
  intros Hrun. unfold delete_area in Hrun.
  destruct (String.eqb_spec (PyStr.upper area_id) ALL_AREAS) as [Hall | Hall];
    [discriminate |].
  split; [assumption |].
  unfold bind at 1, extract_config, gets in Hrun.
  change (map id (map (fun x => map_section_from_config x (config_file w))
                      (names_with_prefix AREA_PREFIX (config_file w))))
    with (area_ids (config_file w)) in Hrun.
  destruct (PyStr.index area_id (area_ids (config_file w)))
    as [index |] eqn:Hindex; [| discriminate].
  destruct (PyDict.pop (config_file w) (area_section_name index))
    as [c1 |] eqn:Hpop; [| discriminate].
  exists index, c1. split; [reflexivity |]. split; [exact Hpop |].
  cbv zeta. unfold bind at 1, update_config in Hrun.
  destruct (save (reestructure_areas c1) reboot_processor (config_file w))
    as [stored success].
  unfold bind at 1 in Hrun. rewrite delete_rules_with_config in Hrun.
  pose proof (delete_rules_config_file w area_id) as Hframe.
  destruct (delete_area_occupancy_rules area_id w) as [[o | e] w1];
    [| discriminate].
  cbn [fst snd] in Hrun, Hframe. unfold bind at 1 in Hrun.
  pose proof (rmtree_config_file (with_config stored w1)
                (os_path_join AreaLogDirectory [area_id])) as Hlog.
  destruct (rmtree (os_path_join AreaLogDirectory [area_id])
              (with_config stored w1))
    as [[[] | e] w2]; [| discriminate].
  unfold bind at 1 in Hrun.
  pose proof (rmtree_config_file w2 (os_path_join AreaConfigDirectory [area_id]))
    as Hcfg.
  destruct (rmtree (os_path_join AreaConfigDirectory [area_id]) w2)
    as [[[] | e] w3]; [| discriminate].
  unfold ret in Hrun. inversion Hrun; subst.
  cbn [fst snd config_file with_config] in *. split; [reflexivity |].
  congruence.
Qed.

Lemma strip_rules_idempotent (a : AreaConfigDTO) :
  set_occupancy_rules_field None (set_occupancy_rules_field None a)
  = set_occupancy_rules_field None a.
Proof. reflexivity. Qed.

Lemma index_lt (x : string) (l : list string) (i : nat) :
  PyStr.index x l = Some i -> (i < length l)%nat.
Proof. intros H. apply index_Some in H. now apply lookup_lt_Some in H. Qed.

Lemma saved_is_given :
  (forall config_dict reboot stored stored',
      save config_dict reboot stored = (stored', true) ->
      stored' = config_dict) ->
  forall config_dict reboot stored,
    snd (save config_dict reboot stored) = true ->
    fst (save config_dict reboot stored) = config_dict.
Proof.
  intros Hsave config_dict reboot stored Hok.
  destruct (save config_dict reboot stored) as [stored' success] eqn:E.
  cbn in *. subst. now apply Hsave in E.
Qed.

(** The area at position [index] of a contiguous store sits in section
    [Area_index]. *)
Lemma area_at_index (c : config) (area_id : string) (index : nat) :
  contiguous c ->
  PyStr.index area_id (area_ids c) = Some index ->
  id (map_section_from_config (area_section_name index) c) = area_id.
Proof.
  intros Hc Hindex. pose proof (index_lt _ _ _ Hindex) as Hlt.
  apply index_Some in Hindex. rewrite area_ids_length in Hlt.
  pose proof (contiguous_lookup c index Hc Hlt) as Hname.
  unfold area_ids in Hindex. rewrite !map_fmap, !list_lookup_fmap in Hindex.
  rewrite Hname in Hindex. cbn in Hindex. now inversion Hindex.
Qed.

(** C4: the area sections stay [Area_0 .. Area_(n-1)] across every
    handler that changes the store and succeeds.  For a store with [n]
    areas in contiguous sections and a save that stores what it is
    given when it reports success: a successful create puts the new
    area in section [Area_n], after the others; a successful delete of
    the area at position [i] leaves sections [Area_0 .. Area_(n-2)]
    holding the other areas in their former order; a successful update
    renames no section. *)
Theorem area_indices_stay_contiguous (w : World) :
  (forall config_dict reboot stored stored',
      save config_dict reboot stored = (stored', true) ->
      stored' = config_dict) ->
  contiguous (config_file w) ->
  let n := length (area_ids (config_file w)) in
  (forall new_area reboot r w',
      create_area new_area reboot w = (Return (AreaResponse r), w') ->
      PyDict.get (config_file w') (area_section_name n)
      = Some (map_to_config_file_format
                (set_occupancy_rules_field None new_area)) /\
      names_with_prefix AREA_PREFIX (config_file w')
      = map area_section_name (seq 0 (S n)) /\
      config_get_areas (config_file w')
      = config_get_areas (config_file w)
          ++ [set_occupancy_rules_field None new_area] /\
      contiguous (config_file w'))
  /\
  (forall area_id reboot status w',
      delete_area area_id reboot w
      = (Return (handle_response None true status), w') ->
      exists i,
        PyStr.index area_id (area_ids (config_file w)) = Some i /\
        names_with_prefix AREA_PREFIX (config_file w')
        = map area_section_name (seq 0 (n - 1)) /\
        config_get_areas (config_file w')
        = delete i (config_get_areas (config_file w)) /\
        contiguous (config_file w'))
  /\
  (forall area_id edited_area reboot r w',
      edit_area area_id edited_area reboot w
      = (Return (AreaResponse r), w') ->
      names_with_prefix AREA_PREFIX (config_file w')
      = names_with_prefix AREA_PREFIX (config_file w) /\
      contiguous (config_file w')).
Proof.
  intros Hsave Hc n. split; [| split].
  - intros new_area reboot r w' Hrun.
    apply create_area_returns_area in Hrun
      as (_ & _ & _ & Hok & Hstore & _).
    rewrite (saved_is_given Hsave) in Hstore by exact Hok.
    rewrite Hstore.
    destruct (set_next_area (config_file w)
                (map_to_config_file_format
                   (set_occupancy_rules_field None new_area)) Hc)
      as (_ & Hnames & Hcont & Hareas).
    split; [apply get_set_eq |]. split; [exact Hnames |].
    split; [| exact Hcont].
    now rewrite Hareas, area_of_section_round_trip, strip_rules_idempotent.
  - intros area_id reboot status w' Hrun.
    apply delete_area_returns in Hrun
      as (_ & i & c1 & Hindex & Hpop & Hresp & Hstore).
    exists i. split; [exact Hindex |].
    assert (Hok : snd (save (reestructure_areas c1) reboot (config_file w))
                  = true) by now inversion Hresp.
    rewrite (saved_is_given Hsave) in Hstore by exact Hok.
    rewrite Hstore.
    destruct (pop_and_renumber (config_file w) i Hc (index_lt _ _ _ Hindex))
      as (c1' & Hpop' & Hnames & Hcont & Hareas).
    rewrite Hpop in Hpop'. inversion Hpop'; subst c1'. easy.
  - intros area_id edited_area reboot r w' Hrun.
    apply edit_area_returns_area in Hrun
      as (_ & _ & i & Hindex & Hok & Hstore & _).
    rewrite (saved_is_given Hsave) in Hstore by exact Hok.
    rewrite Hstore.
    destruct (set_existing_area (config_file w)
                (map_to_config_file_format
                   (set_occupancy_rules_field None
                      (set_id area_id edited_area)))
                i Hc (index_lt _ _ _ Hindex))
      as (Hkeys & Hcont & _).
    split; [| exact Hcont]. unfold names_with_prefix. now rewrite Hkeys.
Qed.

(** C5 (as amended): a create or update that passes the guards on the
    area id and whose camera list names at least one id that no camera
    section has is rejected with status 404 Not Found; the detail
    carries exactly the ids of the payload, split at commas, that no
    camera section has; the world is left as it was, so no section is
    written. *)
Theorem missing_cameras_not_found (w : World) (area : AreaConfigDTO)
    (reboot_processor : bool) :
  let camera_ids := camera_ids_of (config_file w) in
  let missing := non_existent_cameras camera_ids (cameras area) in
  (exists x, In x (PyStr.split "," (cameras area)) /\ ~ In x camera_ids) ->
  (forall x, x ∈ missing <->
             In x (PyStr.split "," (cameras area)) /\ ~ In x camera_ids) /\
  (~ In (id area) (area_ids (config_file w)) ->
   PyStr.upper (id area) <> ALL_AREAS ->
   create_area area reboot_processor w
   = (Raise (HTTPException HTTP_404_NOT_FOUND (CamerasDoNotExist missing)),
      w)) /\
  (forall area_id,
      PyStr.upper area_id <> ALL_AREAS ->
      In area_id (area_ids (config_file w)) ->
      edit_area area_id area reboot_processor w
      = (Raise (HTTPException HTTP_404_NOT_FOUND (CamerasDoNotExist missing)),
         w)).
Proof.
  intros camera_ids missing Hmissing.
  apply all_cameras_exist_false in Hmissing.
  split; [apply non_existent_cameras_spec |]. split.
  - intros Hfresh Hall. now apply create_area_missing_cameras.
  - intros area_id Hall Hknown.
    destruct (index_In _ _ Hknown) as [index Hindex].
    now apply (edit_area_missing_cameras _ _ _ _ index).
Qed.

Lemma find_area_at_index (areas : list AreaConfigDTO) (area_id : string)
    (i : nat) (x : AreaConfigDTO) :
  PyStr.index area_id (map id areas) = Some i -> id x = area_id ->
  find_area area_id (<[i := x]> areas) = Some x.
Proof.
  intros Hindex Hx. revert i Hindex.
  induction areas as [| a areas IH]; cbn; intros i Hindex; [discriminate |].
  destruct (String.eqb_spec (id a) area_id) as [Ha | Ha].
  - inversion Hindex; subst i. cbn.
    now rewrite (proj2 (String.eqb_eq (id x) area_id)) by exact Hx.
  - destruct (PyStr.index area_id (map id areas)) as [j |] eqn:Hj;
      cbn in Hindex; [| discriminate].
    inversion Hindex; subst i. cbn.
    apply String.eqb_neq in Ha. rewrite Ha. now apply IH.
Qed.

Lemma find_area_id (areas : list AreaConfigDTO) (area_id : string)
    (a : AreaConfigDTO) :
  find_area area_id areas = Some a -> id a = area_id.
Proof.
  unfold find_area. intros H. apply find_some in H as [_ H].
  now apply String.eqb_eq in H.
Qed.

Lemma set_rules_readable (w : World) (area_id : string)
    (rules : OccupancyRuleListDTO) :
  readable_sidecar w (get_area_config_path area_id) ->
  fst (set_occupancy_rules area_id rules w) = Return tt /\
  stored_rules (snd (set_occupancy_rules area_id rules w))
               (get_area_config_path area_id)
  = Some (JList (root rules)).
Proof.
  unfold readable_sidecar, stored_rules. intros Hread.
  destruct (files w !! get_area_config_path area_id) as [[| data] |] eqn:Hfile;
    [congruence | |].
  - rewrite (set_rules_file_present _ _ _ data) by exact Hfile. cbn.
    split; [reflexivity |]. rewrite lookup_insert_eq. apply lookup_insert_eq.
  - rewrite set_rules_file_absent by exact Hfile. cbn.
    split; [reflexivity |]. rewrite lookup_insert_eq.
    apply lookup_insert_eq.
Qed.

(** The rule step of an update runs to its end on a sidecar that lets
    it. *)
Lemma edit_rules_step_runs (w : World) (area_id : string)
    (rules : option OccupancyRuleListDTO) :
  rule_step_runs w (get_area_config_path area_id) rules ->
  fst (edit_rules_step area_id rules w) = Return tt.
Proof.
  unfold rule_step_runs, edit_rules_step. destruct (truthy rules).
  - intros Hread. now apply set_rules_readable.
  - intros [Hfile | (data & Hfile & Hkey)]; unfold bind.
    + now rewrite (delete_rules_file_absent _ _ Hfile).
    + now rewrite (delete_rules_key_present _ _ _ Hfile Hkey).
Qed.

(** C6: the order of the guards of an update.  A path id that is the
    reserved token up to letter case is rejected with 400 whatever the
    world holds; otherwise an id that no stored area has is rejected
    with 404 "does not exist" whatever cameras the payload names;
    cameras are checked only for an id that is stored.  When the update
    succeeds, on a contiguous store and with a save that stores what it
    is given, the section written is the one the area was read from:
    no section is added or renamed and every other section is
    untouched.  And the update does succeed: past the three guards, on
    a contiguous store, with a save that stores the dict and reports
    success and a sidecar that lets the rule step run, [edit_area]
    returns the area as edited, and the store it leaves is the old one
    with the new settings in the section [Area_index] that held the
    area, under the same keys. *)
Theorem edit_area_validation_order (w : World) (area_id : string)
    (edited_area : AreaConfigDTO) (reboot_processor : bool) :
  (PyStr.upper area_id = ALL_AREAS ->
   forall w0,
     edit_area area_id edited_area reboot_processor w0
     = (Raise (HTTPException HTTP_400_BAD_REQUEST
                 (bad_request_serializer
                    "Area with ID: 'ALL' cannot be edited." "Invalid ID")),
        w0))
  /\
  (PyStr.upper area_id <> ALL_AREAS ->
   ~ In area_id (area_ids (config_file w)) ->
   edit_area area_id edited_area reboot_processor w
   = (Raise (HTTPException HTTP_404_NOT_FOUND (AreaDoesNotExist area_id)), w))
  /\
  (PyStr.upper area_id <> ALL_AREAS ->
   In area_id (area_ids (config_file w)) ->
   all_cameras_exist (camera_ids_of (config_file w)) (cameras edited_area)
   = false ->
   edit_area area_id edited_area reboot_processor w
   = (Raise (HTTPException HTTP_404_NOT_FOUND
               (CamerasDoNotExist
                  (non_existent_cameras (camera_ids_of (config_file w))
                                        (cameras edited_area)))), w))
  /\
  ((forall config_dict reboot stored stored',
       save config_dict reboot stored = (stored', true) ->
       stored' = config_dict) ->
   contiguous (config_file w) ->
   forall r w',
     edit_area area_id edited_area reboot_processor w
     = (Return (AreaResponse r), w') ->
     exists index,
       PyStr.index area_id (area_ids (config_file w)) = Some index /\
       id (map_section_from_config (area_section_name index) (config_file w))
       = area_id /\
       PyDict.get (config_file w') (area_section_name index)
       = Some (map_to_config_file_format
                 (set_occupancy_rules_field None
                    (set_id area_id edited_area))) /\
       PyDict.keys (config_file w') = PyDict.keys (config_file w) /\
       forall x, x <> area_section_name index ->
                 PyDict.get (config_file w') x = PyDict.get (config_file w) x)
  /\
  (forall index,
      let edited := set_occupancy_rules_field None (set_id area_id edited_area) in
      let area_dict := map_to_config_file_format edited in
      let config_dict :=
        PyDict.set (config_file w) (area_section_name index) area_dict in
      PyStr.upper area_id <> ALL_AREAS ->
      PyStr.index area_id (area_ids (config_file w)) = Some index ->
      all_cameras_exist (camera_ids_of (config_file w)) (cameras edited_area)
      = true ->
      contiguous (config_file w) ->
      save config_dict reboot_processor (config_file w) = (config_dict, true) ->
      rule_step_runs w (get_area_config_path area_id)
                     (occupancy_rules edited_area) ->
      exists w',
        edit_area area_id edited_area reboot_processor w
        = (Return (AreaResponse (Some edited)), w') /\
        id (map_section_from_config (area_section_name index) (config_file w))
        = area_id /\
        config_file w' = config_dict /\
        PyDict.get (config_file w') (area_section_name index)
        = Some area_dict /\
        PyDict.keys (config_file w') = PyDict.keys (config_file w) /\
        (forall x, x <> area_section_name index ->
                   PyDict.get (config_file w') x
                   = PyDict.get (config_file w) x)).
Proof.
  split; [| split; [| split; [| split]]].
  - intros Hall w0. now apply edit_area_reserved.
  - intros Hall Hunknown. now apply edit_area_unknown.
  - intros Hall Hknown Hcams.
    destruct (index_In _ _ Hknown) as [index Hindex].
    now apply (edit_area_missing_cameras _ _ _ _ index).
  - intros Hsave Hc r w' Hrun.
    apply edit_area_returns_area in Hrun
      as (_ & _ & index & Hindex & Hok & Hstore & _).
    rewrite (saved_is_given Hsave) in Hstore by exact Hok.
    exists index. rewrite Hstore.
    split; [exact Hindex |].
    split; [now apply area_at_index |].
    split; [apply get_set_eq |].
    split.
    + now apply set_existing_area; [| apply (index_lt _ _ _ Hindex)].
    + intros x Hx. now apply get_set_ne.
  - intros index edited area_dict config_dict Hall Hindex Hcams Hc Hsaved
      Hsidecar.
    eexists. rewrite (edit_area_run _ _ _ _ index) by assumption.
    fold edited area_dict config_dict. rewrite Hsaved.
    rewrite (edit_rules_step_runs _ _ _ Hsidecar).
    cbn [fst snd config_file with_config].
    destruct (set_existing_area (config_file w) area_dict index Hc
                (index_lt _ _ _ Hindex)) as (Hkeys & _ & Hareas).
    unfold area_dict in Hareas at 2.
    rewrite area_of_section_round_trip in Hareas.
    fold config_dict in Hkeys, Hareas.
    split.
    { do 3 f_equal. rewrite areas_of_config_get_areas, Hareas.
      apply find_area_at_index; [| reflexivity].
      now rewrite <- area_ids_config_get_areas. }
    split; [now apply area_at_index |].
    split; [reflexivity |].
    split; [apply get_set_eq |].
    split; [exact Hkeys |].
    intros x Hx. now apply get_set_ne.
Qed.

(** C8: an update keeps the id of the path.  The id in the body plays
    no part: replacing it by any other string changes neither the
    answer nor the resulting world.  An area that is returned carries
    the id of the path.  When the update succeeds, with a save that
    stores what it is given, the section written holds the id of the
    path under ["Id"]; on a contiguous store the list of stored ids is
    what it was, and the area returned is the body with the id of the
    path and without its rules. *)
Theorem edit_area_keeps_path_id (w : World) (area_id : string)
    (edited_area : AreaConfigDTO) (reboot_processor : bool) :
  (forall body_id,
      edit_area area_id (set_id body_id edited_area) reboot_processor w
      = edit_area area_id edited_area reboot_processor w)
  /\
  (forall a w',
      edit_area area_id edited_area reboot_processor w
      = (Return (AreaResponse (Some a)), w') ->
      id a = area_id)
  /\
  ((forall config_dict reboot stored stored',
       save config_dict reboot stored = (stored', true) ->
       stored' = config_dict) ->
   forall r w',
     edit_area area_id edited_area reboot_processor w
     = (Return (AreaResponse r), w') ->
     (exists index s,
         PyStr.index area_id (area_ids (config_file w)) = Some index /\
         PyDict.get (config_file w') (area_section_name index) = Some s /\
         s !! "Id" = Some (VStr area_id)) /\
     (contiguous (config_file w) ->
      area_ids (config_file w') = area_ids (config_file w) /\
      r = Some (set_occupancy_rules_field None
                  (set_id area_id edited_area)))).
Proof.
  split; [| split].
  - intros body_id. now destruct edited_area.
  - intros a w' Hrun.
    apply edit_area_returns_area in Hrun
      as (_ & _ & index & _ & _ & _ & Hfound).
    symmetry in Hfound. now apply find_area_id in Hfound.
  - intros Hsave r w' Hrun.
    apply edit_area_returns_area in Hrun
      as (_ & _ & index & Hindex & Hok & Hstore & Hfound).
    rewrite (saved_is_given Hsave) in Hstore, Hfound by exact Hok.
    split.
    + exists index. eexists. split; [exact Hindex |].
      rewrite Hstore. split; [apply get_set_eq |].
      now rewrite area_dict_id.
    + intros Hc.
      destruct (set_existing_area (config_file w)
                  (map_to_config_file_format
                     (set_occupancy_rules_field None
                        (set_id area_id edited_area)))
                  index Hc (index_lt _ _ _ Hindex))
        as (_ & _ & Hareas).
      rewrite area_of_section_round_trip, strip_rules_idempotent in Hareas.
      split.
      * rewrite Hstore, !area_ids_config_get_areas, Hareas.
        rewrite !map_fmap, list_fmap_insert. apply list_insert_id.
        apply index_Some in Hindex.
        now rewrite area_ids_config_get_areas, map_fmap in Hindex.
      * rewrite Hfound, areas_of_config_get_areas, Hareas.
        now apply find_area_at_index.
Qed.

Lemma truthy_nonempty (rules : OccupancyRuleListDTO) :
  root rules <> [] -> truthy (Some rules) = true.
Proof. reflexivity. Qed.



End Properties.

(** ** The theorems at work on the demo installation *)

Import Demo.

(** Creating [lobby] again is refused and changes nothing. *)
Lemma create_area_duplicate_id_witness :
  In (id lobby) (area_ids (config_file world)) /\
  create_area config_path log_dir config_dir save_ok lobby true world
  = (Raise (HTTPException HTTP_400_BAD_REQUEST
              (bad_request_serializer "Area already exists"
                                      "config duplicated area")), world).
Proof.
  assert (H : In (id lobby) (area_ids (config_file world)))
    by (vm_compute; left; reflexivity).
  split; [exact H |].
  exact (create_area_duplicate_id config_path log_dir config_dir save_ok
           world lobby true H).
Defined.

(** The sidecar of [yard] holds [{}]: deleting its rules raises
    [KeyError] and leaves the file empty. *)
Lemma delete_rules_key_missing_witness :
  files world_with_sidecars !! config_path "yard" = Some (Document ∅) /\
  fst (delete_area_occupancy_rules config_path "yard" world_with_sidecars)
  = Raise (KeyError OCCUPANCY_RULES) /\
  files (snd (delete_area_occupancy_rules config_path "yard"
                world_with_sidecars)) !! config_path "yard"
  = Some Truncated.
Proof.
  assert (Hfile : files world_with_sidecars !! config_path "yard"
                  = Some (Document ∅)) by (vm_compute; reflexivity).
  assert (Hkey : (∅ : gmap string json) !! OCCUPANCY_RULES = None)
    by reflexivity.
  destruct (delete_rules_key_missing config_path world_with_sidecars
              "yard" ∅ Hfile Hkey) as (w' & Hrun & Hempty & _).
  split; [exact Hfile |]. rewrite Hrun. split; [reflexivity | exact Hempty].
Defined.

(** [GET /areas/aLl] lists both cameras. *)
Lemma get_area_all_is_virtual_witness :
  PyStr.upper "aLl" = ALL_AREAS /\
  exists area,
    get_area config_path "aLl" world_with_sidecars
    = (Return area, world_with_sidecars) /\
    cameras area = "cam1,cam2" /\
    violation_threshold area = -1.
Proof.
  split; [reflexivity |].
  destruct (get_area_all_is_virtual config_path world_with_sidecars "aLl"
              eq_refl)
    as (area & Hrun & Hcameras & Hviolation & _).
  exists area. split; [exact Hrun |]. split; [| exact Hviolation].
  rewrite Hcameras. vm_compute. reflexivity.
Defined.

(** On the demo store, creating [kitchen] adds [Area_2], and deleting
    [lobby] leaves [yard] alone in [Area_0]. *)
Lemma area_indices_stay_contiguous_witness :
  contiguous (config_file world) /\
  names_with_prefix AREA_PREFIX
    (config_file (snd (create_area config_path log_dir config_dir save_ok
                         kitchen true world)))
  = ["Area_0"; "Area_1"; "Area_2"] /\
  names_with_prefix AREA_PREFIX
    (config_file (snd (delete_area config_path log_dir config_dir save_ok
                         "lobby" true world)))
  = ["Area_0"] /\
  config_get_areas
    (config_file (snd (delete_area config_path log_dir config_dir save_ok
                         "lobby" true world)))
  = [yard].
Proof.
  assert (Hsave : forall config_dict reboot stored stored',
             save_ok config_dict reboot stored = (stored', true) ->
             stored' = config_dict)
    by (intros ? ? ? ? H; now inversion H).
  assert (Hc : contiguous (config_file world)) by (vm_compute; reflexivity).
  destruct (area_indices_stay_contiguous config_path log_dir config_dir
              save_ok world Hsave Hc) as (Hcreate & Hdelete & _).
  split; [exact Hc |]. split.
  - destruct (Hcreate kitchen true
                (Some (set_occupancy_rules_field None kitchen))
                (snd (create_area config_path log_dir config_dir save_ok
                        kitchen true world))
                ltac:(vm_compute; reflexivity))
      as (_ & Hnames & _).
    rewrite Hnames. vm_compute. reflexivity.
  - destruct (Hdelete "lobby" true (Some HTTP_204_NO_CONTENT)
                (snd (delete_area config_path log_dir config_dir save_ok
                        "lobby" true world))
                ltac:(vm_compute; reflexivity))
      as (i & Hi & Hnames & Hareas & _).
    split; [rewrite Hnames; vm_compute; reflexivity |].
    rewrite Hareas. vm_compute in Hi. inversion Hi; subst i.
    vm_compute. reflexivity.
Defined.

(** [kitchen] with the unknown camera [cam9] is refused with exactly
    [{cam9}] in the detail. *)
Lemma missing_cameras_not_found_witness :
  create_area config_path log_dir config_dir save_ok kitchen_cam9 true world
  = (Raise (HTTPException HTTP_404_NOT_FOUND (CamerasDoNotExist {["cam9"]})),
     world)
  /\
  edit_area config_path save_ok "yard" kitchen_cam9 true world
  = (Raise (HTTPException HTTP_404_NOT_FOUND (CamerasDoNotExist {["cam9"]})),
     world).
Proof.
  assert (Hmissing : exists x,
             In x (PyStr.split "," (cameras kitchen_cam9)) /\
             ~ In x (camera_ids_of (config_file world))).
  { exists "cam9". vm_compute. split; [right; left; reflexivity |].
    intros [H | [H | []]]; discriminate. }
  destruct (missing_cameras_not_found config_path log_dir config_dir save_ok
              world kitchen_cam9 true Hmissing) as (_ & Hcreate & Hedit).
  assert (Hset : non_existent_cameras (camera_ids_of (config_file world))
                                      (cameras kitchen_cam9) = {["cam9"]})
    by (vm_compute; reflexivity).
  rewrite Hset in Hcreate, Hedit. split.
  - apply Hcreate.
    + vm_compute. intros [H | [H | []]]; discriminate.
    + vm_compute. discriminate.
  - apply Hedit.
    + vm_compute. discriminate.
    + vm_compute. right; left; reflexivity.
Defined.

(** C5 as stated fails: [lobby] is stored already, so creating it again
    with the unknown camera [cam9] is refused for the duplicate id, with
    status 400, and not with 404 for the camera. *)
Lemma missing_cameras_duplicate_id_counterexample :
  (exists x, In x (PyStr.split "," (cameras lobby_cam9)) /\
             ~ In x (camera_ids_of (config_file world))) /\
  fst (create_area config_path log_dir config_dir save_ok lobby_cam9 true world)
  = Raise (HTTPException HTTP_400_BAD_REQUEST
             (bad_request_serializer "Area already exists"
                                     "config duplicated area")) /\
  forall d,
    fst (create_area config_path log_dir config_dir save_ok lobby_cam9 true
           world)
    <> Raise (HTTPException HTTP_404_NOT_FOUND d).
Proof.
  split; [| split].
  - exists "cam9". vm_compute. split; [left; reflexivity |].
    intros [H | [H | []]]; discriminate.
  - vm_compute. reflexivity.
  - intros d H. vm_compute in H. discriminate.
Qed.

(** The guards of an update in their order, and an update of [yard]
    that lands in [Area_1], where [yard] was: it returns the area as
    edited and leaves the store with the new settings in [Area_1] and
    the other three sections as they were. *)
Lemma edit_area_validation_order_witness :
  edit_area config_path save_ok "All" kitchen_cam9 true world
  = (Raise (HTTPException HTTP_400_BAD_REQUEST
              (bad_request_serializer "Area with ID: 'ALL' cannot be edited."
                                      "Invalid ID")), world)
  /\
  edit_area config_path save_ok "garage" kitchen_cam9 true world
  = (Raise (HTTPException HTTP_404_NOT_FOUND (AreaDoesNotExist "garage")),
     world)
  /\
  exists index,
    PyStr.index "yard" (area_ids (config_file world)) = Some index /\
    index = 1%nat /\
    PyDict.keys (config_file (snd (edit_area config_path save_ok "yard"
                                     kitchen true world)))
    = PyDict.keys (config_file world) /\
    exists w',
      edit_area config_path save_ok "yard" kitchen true world
      = (Return (AreaResponse
                   (Some (set_occupancy_rules_field None
                            (set_id "yard" kitchen)))), w') /\
      PyDict.keys (config_file w')
      = ["Source_0"; "Source_1"; "Area_0"; "Area_1"] /\
      PyDict.get (config_file w') "Area_1"
      = Some (map_to_config_file_format
                (set_occupancy_rules_field None (set_id "yard" kitchen))) /\
      PyDict.get (config_file w') "Area_0"
      = Some (map_to_config_file_format lobby).
Proof.
  assert (Hsave : forall config_dict reboot stored stored',
             save_ok config_dict reboot stored = (stored', true) ->
             stored' = config_dict)
    by (intros ? ? ? ? H; now inversion H).
  assert (Hc : contiguous (config_file world)) by (vm_compute; reflexivity).
  split; [| split].
  - destruct (edit_area_validation_order config_path save_ok world "All"
                kitchen_cam9 true) as (Hreserved & _).
    apply Hreserved. reflexivity.
  - destruct (edit_area_validation_order config_path save_ok world "garage"
                kitchen_cam9 true) as (_ & Hunknown & _).
    apply Hunknown.
    + vm_compute. discriminate.
    + vm_compute. intros [H | [H | []]]; discriminate.
  - destruct (edit_area_validation_order config_path save_ok world "yard"
                kitchen true) as (_ & _ & _ & Hsuccess & Hsucceeds).
    destruct (Hsuccess Hsave Hc
                (Some (set_occupancy_rules_field None (set_id "yard" kitchen)))
                (snd (edit_area config_path save_ok "yard" kitchen true world))
                ltac:(vm_compute; reflexivity))
      as (index & Hindex & _ & _ & Hkeys & _).
    exists index. split; [exact Hindex |].
    split; [vm_compute in Hindex; now inversion Hindex |].
    split; [exact Hkeys |].
    destruct (Hsucceeds 1%nat
                ltac:(vm_compute; discriminate)
                ltac:(vm_compute; reflexivity)
                ltac:(vm_compute; reflexivity)
                Hc eq_refl
                ltac:(vm_compute; discriminate))
      as (w' & Hrun & _ & _ & Hget & Hsame & Hothers).
    exists w'. split; [exact Hrun |].
    split; [rewrite Hsame; reflexivity |]. split; [exact Hget |].
    rewrite (Hothers "Area_0") by discriminate. reflexivity.
Defined.

(** Saving rules for [kitchen], which has no sidecar, creates it; saving
    rules for [lobby] keeps the ["note"] of its sidecar. *)
Lemma set_occupancy_rules_read_modify_write_witness :
  (exists w',
      set_occupancy_rules config_path "kitchen" (mkRules [JNum 1])
                          world_with_sidecars = (Return tt, w') /\
      files w' !! config_path "kitchen"
      = Some (Document {[ OCCUPANCY_RULES := JList [JNum 1] ]}) /\
      dir_exists w' (dirname (config_path "kitchen")))
  /\
  (exists w' data',
      set_occupancy_rules config_path "lobby" (mkRules [JNum 1])
                          world_with_sidecars = (Return tt, w') /\
      files w' !! config_path "lobby" = Some (Document data') /\
      data' !! OCCUPANCY_RULES = Some (JList [JNum 1]) /\
      data' !! "note" = Some (JStr "keep")).
Proof.
  split.
  - destruct (set_occupancy_rules_read_modify_write config_path
                world_with_sidecars "kitchen" (mkRules [JNum 1]))
      as (Habsent & _).
    destruct (Habsent ltac:(vm_compute; reflexivity))
      as (w' & Hrun & Hfile & Hdir & _).
    exists w'. split; [exact Hrun |]. split; [exact Hfile | exact Hdir].
  - destruct (set_occupancy_rules_read_modify_write config_path
                world_with_sidecars "lobby" (mkRules [JNum 1]))
      as (_ & Hpresent).
    destruct (Hpresent lobby_doc ltac:(vm_compute; reflexivity))
      as (w' & data' & Hrun & Hfile & Hrules & Hothers & _).
    exists w', data'. split; [exact Hrun |]. split; [exact Hfile |].
    split; [exact Hrules |].
    rewrite (Hothers "note") by discriminate. vm_compute. reflexivity.
Defined.

(** Updating [yard] with a body that calls itself [kitchen] stores and
    returns [yard]. *)
Lemma edit_area_keeps_path_id_witness :
  area_ids (config_file (snd (edit_area config_path save_ok "yard" kitchen
                                true world)))
  = ["lobby"; "yard"] /\
  fst (edit_area config_path save_ok "yard" kitchen true world)
  = Return (AreaResponse
              (Some (set_occupancy_rules_field None (set_id "yard" kitchen)))).
Proof.
  assert (Hsave : forall config_dict reboot stored stored',
             save_ok config_dict reboot stored = (stored', true) ->
             stored' = config_dict)
    by (intros ? ? ? ? H; now inversion H).
  assert (Hc : contiguous (config_file world)) by (vm_compute; reflexivity).
  destruct (edit_area_keeps_path_id config_path save_ok world "yard" kitchen
              true) as (_ & _ & Hstored).
  destruct (Hstored Hsave
              (Some (set_occupancy_rules_field None (set_id "yard" kitchen)))
              (snd (edit_area config_path save_ok "yard" kitchen true world))
              ltac:(vm_compute; reflexivity))
    as (_ & Hids).
  destruct (Hids Hc) as (Hsame & Hreturned).
  split.
  - rewrite Hsame. vm_compute. reflexivity.
  - vm_compute. reflexivity.
Defined.




(** * Further properties of the handlers *)

Section MoreProperties.

Variable get_area_config_path : string -> path.
Variable AreaLogDirectory AreaConfigDirectory : path.
Variable save : config -> bool -> config -> config * bool.

Local Abbreviation create_area :=
  (create_area get_area_config_path AreaLogDirectory AreaConfigDirectory save).
Local Abbreviation edit_area := (edit_area get_area_config_path save).
Local Abbreviation delete_area :=
  (delete_area get_area_config_path AreaLogDirectory AreaConfigDirectory save).
Local Abbreviation get_area := (get_area get_area_config_path).
Local Abbreviation get_area_occupancy_rules :=
  (get_area_occupancy_rules get_area_config_path).
Local Abbreviation set_occupancy_rules :=
  (set_occupancy_rules get_area_config_path).
Local Abbreviation delete_area_occupancy_rules :=
  (delete_area_occupancy_rules get_area_config_path).
Local Abbreviation edit_rules_step := (edit_rules_step get_area_config_path).
Local Abbreviation create_rules_step :=
  (create_rules_step get_area_config_path).

(** ** The sidecar helpers by the state of the file *)

(** The four states a sidecar can be in, for case analysis. *)
Lemma sidecar_cases (w : World) (p : path) :
  files w !! p = None \/
  files w !! p = Some Truncated \/
  (exists data, files w !! p = Some (Document data)
                /\ data !! OCCUPANCY_RULES = None) \/
  (exists data, files w !! p = Some (Document data)
                /\ is_Some (data !! OCCUPANCY_RULES)).
Proof.
  destruct (files w !! p) as [[| data] |]; [now right; left | | now left].
  destruct (data !! OCCUPANCY_RULES) eqn:Hkey.
  - right; right; right. exists data. split; [reflexivity | eauto].
  - right; right; left. now exists data.
Qed.

(** What [set_occupancy_rules] does in each state of the file. *)
Lemma set_rules_effect (w : World) (area_id : string)
    (rules : OccupancyRuleListDTO) :
  let p := get_area_config_path area_id in
  let w' := snd (set_occupancy_rules area_id rules w) in
  dirs w' = dirs w ∪ list_to_set (ancestors (dirname p)) /\
  config_file w' = config_file w /\
  (forall q, q <> p -> files w' !! q = files w !! q) /\
  (forall s d, fst (set_occupancy_rules area_id rules w)
               <> Raise (HTTPException s d)).
Proof.
  intros p w'. subst w'.
  destruct (files w !! p) as [[| data] |] eqn:Hfile.
  - rewrite (set_rules_truncated get_area_config_path w area_id rules Hfile).
    cbn. repeat split; try easy.
  - rewrite (set_rules_file_present get_area_config_path w area_id rules data
               Hfile).
    cbn. split; [reflexivity |]. split; [reflexivity |].
    split; [| easy]. intros q Hq. now apply lookup_insert_ne.
  - rewrite (set_rules_file_absent get_area_config_path w area_id rules Hfile).
    cbn. split; [reflexivity |]. split; [reflexivity |].
    split; [| easy]. intros q Hq. now apply lookup_insert_ne.
Qed.

(** What [delete_area_occupancy_rules] does in each state of the file. *)
Lemma delete_rules_effect (w : World) (area_id : string) :
  let p := get_area_config_path area_id in
  let w' := snd (delete_area_occupancy_rules area_id w) in
  dirs w' = dirs w /\
  config_file w' = config_file w /\
  (forall q, q <> p -> files w' !! q = files w !! q) /\
  (forall s d, fst (delete_area_occupancy_rules area_id w)
               <> Raise (HTTPException s d)).
Proof.
  intros p w'. subst w'.
  destruct (sidecar_cases w p)
    as [Hfile | [Hfile | [(data & Hfile & Hkey) | (data & Hfile & Hkey)]]].
  - rewrite (delete_rules_file_absent get_area_config_path w area_id Hfile).
    cbn. repeat split; easy.
  - rewrite (delete_rules_truncated get_area_config_path w area_id Hfile).
    cbn. repeat split; easy.
  - rewrite (delete_rules_without_key get_area_config_path w area_id data
               Hfile Hkey).
    cbn. split; [reflexivity |]. split; [reflexivity |].
    split; [| easy]. intros q Hq. now apply lookup_insert_ne.
  - rewrite (delete_rules_key_present get_area_config_path w area_id data
               Hfile Hkey).
    cbn. split; [reflexivity |]. split; [reflexivity |].
    split; [| easy]. intros q Hq. now apply lookup_insert_ne.
Qed.

Lemma bind_delete_rules (w : World) (area_id : string) :
  (_ <- delete_area_occupancy_rules area_id ;; ret tt) w
  = (match fst (delete_area_occupancy_rules area_id w) with
     | Return _ => Return tt
     | Raise e => Raise e
     end, snd (delete_area_occupancy_rules area_id w)).
Proof.
  unfold bind.
  now destruct (delete_area_occupancy_rules area_id w) as [[r | e] w'].
Qed.

Lemma edit_rules_step_effect (w : World) (area_id : string)
    (rules : option OccupancyRuleListDTO) :
  let p := get_area_config_path area_id in
  let w' := snd (edit_rules_step area_id rules w) in
  dirs w ⊆ dirs w' /\
  (forall q, q <> p -> files w' !! q = files w !! q) /\
  (forall s d, fst (edit_rules_step area_id rules w)
               <> Raise (HTTPException s d)).
Proof.
  intros p w'. subst w'. unfold edit_rules_step.
  destruct (truthy rules).
  - destruct (set_rules_effect w area_id (default parse_obj_empty rules))
      as (Hdirs & _ & Hfiles & Hhttp).
    rewrite Hdirs. split; [apply union_subseteq_l |]. split; assumption.
  - rewrite bind_delete_rules. cbn [fst snd].
    destruct (delete_rules_effect w area_id) as (Hdirs & _ & Hfiles & Hhttp).
    split; [now rewrite Hdirs |]. split; [assumption |].
    intros s d. specialize (Hhttp s d).
    destruct (fst (delete_area_occupancy_rules area_id w)); congruence.
Qed.

Lemma create_rules_step_effect (w : World) (area_id : string)
    (rules : option OccupancyRuleListDTO) :
  let p := get_area_config_path area_id in
  let w' := snd (create_rules_step area_id rules w) in
  dirs w ⊆ dirs w' /\
  (forall q, q <> p -> files w' !! q = files w !! q) /\
  (forall s d, fst (create_rules_step area_id rules w)
               <> Raise (HTTPException s d)).
Proof.
  intros p w'. subst w'. unfold create_rules_step.
  destruct (truthy rules).
  - destruct (set_rules_effect w area_id (default parse_obj_empty rules))
      as (Hdirs & _ & Hfiles & Hhttp).
    rewrite Hdirs. split; [apply union_subseteq_l |]. split; assumption.
  - cbn. repeat split; easy.
Qed.

(** ** Path names and the directories they lead to *)

Lemma walk_same_dirs (w1 w2 : World) (cur : path) (l : list string) :
  dirs w1 = dirs w2 -> walk w1 cur l = walk w2 cur l.
Proof.
  intros Hdirs. revert cur.
  induction l as [| c l IH]; intros cur; cbn; [reflexivity |].
  rewrite IH. apply (f_equal (fun b : bool => if b then _ else _)).
  apply bool_decide_ext. unfold dir_exists. now rewrite Hdirs.
Qed.

(** Where a name leads depends on the directories alone. *)
Lemma lookup_dir_same_dirs (w1 w2 : World) (n : pathname) :
  dirs w1 = dirs w2 -> lookup_dir w1 n = lookup_dir w2 n.
Proof.
  intros Hdirs. unfold lookup_dir.
  rewrite (walk_same_dirs w1 w2) by exact Hdirs.
  destruct (walk w2 (start n) (steps n)) as [p |]; [| reflexivity].
  apply (f_equal (fun b : bool => if b then _ else _)).
  apply bool_decide_ext. unfold dir_exists. now rewrite Hdirs.
Qed.

Lemma dir_exists_mono (w1 w2 : World) (q : path) :
  dirs w1 ⊆ dirs w2 -> dir_exists w1 q -> dir_exists w2 q.
Proof. unfold dir_exists. intros Hsub [Hq | Hq]; [now left | right; auto]. Qed.

Lemma walk_mono (w1 w2 : World) (cur p : path) (l : list string) :
  dirs w1 ⊆ dirs w2 -> walk w1 cur l = Some p -> walk w2 cur l = Some p.
Proof.
  intros Hsub. revert cur.
  induction l as [| c l IH]; intros cur; cbn; [easy |].
  destruct (bool_decide (dir_exists w1 cur)) eqn:Hcur; [| discriminate].
  apply bool_decide_eq_true in Hcur.
  rewrite bool_decide_eq_true_2 by now apply (dir_exists_mono w1).
  apply IH.
Qed.

(** A name that leads to a directory still does when directories are
    added. *)
Lemma lookup_dir_mono (w1 w2 : World) (n : pathname) (p : path) :
  dirs w1 ⊆ dirs w2 -> lookup_dir w1 n = Some p -> lookup_dir w2 n = Some p.
Proof.
  intros Hsub. unfold lookup_dir.
  destruct (walk w1 (start n) (steps n)) as [q |] eqn:Hwalk; [| discriminate].
  rewrite (walk_mono w1 w2 _ q) by assumption.
  destruct (bool_decide (dir_exists w1 q)) eqn:Hq; [| discriminate].
  apply bool_decide_eq_true in Hq.
  now rewrite bool_decide_eq_true_2 by now apply (dir_exists_mono w1).
Qed.

Lemma lookup_dir_exists (w : World) (n : pathname) (p : path) :
  lookup_dir w n = Some p -> dir_exists w p.
Proof.
  unfold lookup_dir.
  destruct (walk w (start n) (steps n)) as [q |]; [| discriminate].
  destruct (bool_decide (dir_exists w q)) eqn:Hq; [| discriminate].
  intros H. inversion H; subst. now apply bool_decide_eq_true in Hq.
Qed.

(** Where the walk ends does not depend on the world; only whether it
    gets there does. *)
Lemma walk_end (w : World) (cur p : path) (l : list string) :
  walk w cur l = Some p -> p = fold_left enter l cur.
Proof.
  revert cur. induction l as [| c l IH]; intros cur; cbn.
  - now intros [= ->].
  - destruct (bool_decide (dir_exists w cur)); [apply IH | discriminate].
Qed.

Lemma walk_passed (w : World) (cur : path) (l : list string) :
  dir_exists w cur ->
  (forall q, q ∈ passed cur l -> dir_exists w q) ->
  walk w cur l = Some (fold_left enter l cur) /\
  dir_exists w (fold_left enter l cur).
Proof.
  revert cur. induction l as [| c l IH]; intros cur Hcur Hall; cbn.
  - now split.
  - rewrite bool_decide_eq_true_2 by exact Hcur. apply IH.
    + apply Hall. cbn. apply list_elem_of_here.
    + intros q Hq. apply Hall. cbn. now apply list_elem_of_further.
Qed.

(** Once [mkdir] has made the directories of a name, the name leads to
    a directory. *)
Lemma lookup_dir_made (w : World) (n : pathname) :
  (forall q, q ∈ made n -> q ∈ dirs w) ->
  lookup_dir w n = Some (fold_left enter (steps n) (start n)).
Proof.
  intros Hmade. unfold lookup_dir.
  destruct (walk_passed w (start n) (steps n)) as [Hwalk Hend].
  - unfold dir_exists. destruct (start n) as [| x l] eqn:Hstart; [now left |].
    right. apply Hmade. unfold made. rewrite Hstart.
    apply elem_of_app. left. now apply dirname_in_ancestors.
  - intros q Hq. right. apply Hmade. unfold made.
    apply elem_of_app. now right.
  - rewrite Hwalk. now rewrite bool_decide_eq_true_2.
Qed.

(** Joining a plain name, or the empty string, to a base directory. *)
Lemma startswith_slash_plain (s : string) :
  PyStr.split "/" s = [s] -> s <> "" -> PyStr.startswith s "/" = false.
Proof.
  unfold PyStr.startswith. destruct s as [| c s]; [easy |]. intros Hsplit _.
  change (String.prefix "/" (String c s))
    with (if ascii_dec "/" c then String.prefix "" s else false).
  destruct (ascii_dec "/" c) as [<- | Hne]; [| reflexivity].
  cbn in Hsplit. discriminate.
Qed.

Lemma components_plain (s : string) :
  PyStr.split "/" s = [s] -> s <> "" -> components s = [s].
Proof.
  intros Hsplit Hs. unfold components. rewrite Hsplit. cbn.
  apply String.eqb_neq in Hs. now rewrite Hs.
Qed.

Lemma join_plain (base : path) (s : string) :
  plain_name s -> os_path_join base [s] = mkName base [s].
Proof.
  intros (Hsplit & Hs & _). unfold os_path_join. cbn. unfold join1.
  rewrite startswith_slash_plain, components_plain by assumption.
  reflexivity.
Qed.

Lemma join_plain_log (base : path) (s : string) :
  plain_name s ->
  os_path_join base [s; "occupancy_log"] = mkName base [s; "occupancy_log"].
Proof.
  intros (Hsplit & Hs & _). unfold os_path_join. cbn. unfold join1 at 2.
  rewrite startswith_slash_plain, components_plain by assumption.
  reflexivity.
Qed.

Lemma join_empty (base : path) : os_path_join base [""] = mkName base [].
Proof. reflexivity. Qed.

Lemma enter_plain (cur : path) (s : string) :
  plain_name s -> enter cur s = cur ++ [s].
Proof.
  intros (_ & _ & Hdot & Hdots). unfold enter.
  apply String.eqb_neq in Hdot, Hdots. now rewrite Hdot, Hdots.
Qed.

Lemma lookup_dir_plain (w : World) (base p : path) (s : string) :
  plain_name s ->
  lookup_dir w (os_path_join base [s]) = Some p -> p = base ++ [s].
Proof.
  intros Hplain. rewrite join_plain by exact Hplain. unfold lookup_dir.
  cbn [start steps].
  destruct (walk w base [s]) as [q |] eqn:Hwalk; [| discriminate].
  apply walk_end in Hwalk. cbn in Hwalk.
  rewrite enter_plain in Hwalk by exact Hplain. subst q.
  now destruct (bool_decide _); [intros [= <-] | discriminate].
Qed.

(** A plain name under a base leads nowhere when the directory of that
    name is not there. *)
Lemma lookup_dir_plain_missing (w : World) (base : path) (s : string) :
  plain_name s -> base ++ [s] ∉ dirs w ->
  lookup_dir w (os_path_join base [s]) = None.
Proof.
  intros Hplain Hmissing. rewrite join_plain by exact Hplain.
  unfold lookup_dir. cbn [start steps walk].
  destruct (bool_decide (dir_exists w base)); [| reflexivity].
  rewrite enter_plain by exact Hplain.
  rewrite bool_decide_eq_false_2; [reflexivity |].
  intros [Hnil | Hin]; [now destruct base | contradiction].
Qed.

Lemma lookup_dir_empty (w : World) (base p : path) :
  lookup_dir w (os_path_join base [""]) = Some p -> p = base.
Proof.
  rewrite join_empty. unfold lookup_dir. cbn.
  now destruct (bool_decide _); [intros [= <-] | discriminate].
Qed.

Lemma ancestors_snoc (l : path) (x : string) :
  ancestors (l ++ [x]) = ancestors l ++ [l ++ [x]].
Proof.
  unfold ancestors. rewrite length_app. cbn [length].
  rewrite seq_app, map_app. cbn [seq map]. f_equal.
  - apply map_ext_in. intros k Hk. apply in_seq in Hk.
    apply take_app_le. lia.
  - f_equal. rewrite Nat.add_comm. cbn. apply firstn_all2.
    rewrite length_app. cbn. lia.
Qed.

(** For a plain name the directories made are the directory named and
    its parents. *)
Lemma made_plain (base : path) (s : string) :
  plain_name s ->
  made (os_path_join base [s]) = ancestors (base ++ [s]) /\
  made (os_path_join base [s; "occupancy_log"])
  = ancestors (base ++ [s; "occupancy_log"]).
Proof.
  intros Hplain. rewrite join_plain, join_plain_log by exact Hplain.
  unfold made. cbn [start steps passed].
  rewrite !(enter_plain _ s) by exact Hplain.
  change (enter (base ++ [s]) "occupancy_log")
    with ((base ++ [s]) ++ ["occupancy_log"]).
  split.
  - now rewrite ancestors_snoc.
  - change (base ++ [s; "occupancy_log"])
      with (base ++ [s] ++ ["occupancy_log"]).
    rewrite (app_assoc base), !ancestors_snoc.
    now rewrite <- (app_assoc (ancestors base)).
Qed.

(** ** Removing a directory tree *)

Lemma rmtree_returns (w w' : World) (n : pathname) (u : unit) :
  rmtree n w = (Return u, w') ->
  exists p, lookup_dir w n = Some p /\ p <> [] /\ w' = removed p w.
Proof.
  unfold rmtree. intros Hrun.
  destruct (lookup_dir w n) as [p |]; [| discriminate].
  destruct (lookup_dir (emptied p w) n); [| discriminate].
  destruct (rmdir_refuses n p) eqn:Hrefuses; [discriminate |].
  inversion Hrun; subst. exists p. split; [reflexivity |].
  split; [| reflexivity].
  unfold rmdir_refuses in Hrefuses.
  apply orb_false_elim in Hrefuses as [_ Hroot].
  now apply bool_decide_eq_false in Hroot.
Qed.

Lemma rmtree_missing (w : World) (n : pathname) :
  lookup_dir w n = None ->
  rmtree n w = (Raise (FileNotFoundError (spelled n)), w).
Proof. intros Hnone. unfold rmtree. now rewrite Hnone. Qed.

Lemma rmtree_never_http (w w' : World) (n : pathname) (s : Z) (d : detail) :
  rmtree n w <> (Raise (HTTPException s d), w').
Proof. unfold rmtree. repeat case_match; discriminate. Qed.

(** ** The guards of [delete_area] and what follows them *)

Lemma delete_area_reserved (w : World) (area_id : string)
    (reboot_processor : bool) :
  PyStr.upper area_id = ALL_AREAS ->
  delete_area area_id reboot_processor w
  = (Raise (HTTPException HTTP_400_BAD_REQUEST
              (bad_request_serializer "Area with ID: 'ALL' cannot be deleted."
                                      "Invalid ID")), w).
Proof.
  intros Hall. apply String.eqb_eq in Hall.
  unfold delete_area. now rewrite Hall.
Qed.

Lemma delete_area_unknown (w : World) (area_id : string)
    (reboot_processor : bool) :
  PyStr.upper area_id <> ALL_AREAS ->
  ~ In area_id (area_ids (config_file w)) ->
  delete_area area_id reboot_processor w
  = (Raise (HTTPException HTTP_404_NOT_FOUND (AreaDoesNotExist area_id)), w).
Proof.
  intros Hall Hunknown. apply String.eqb_neq in Hall.
  apply (index_None get_area_config_path) in Hunknown.
  unfold delete_area, bind, extract_config, gets. rewrite Hall.
  unfold area_ids in Hunknown. now rewrite Hunknown.
Qed.

Lemma delete_area_no_section (w : World) (area_id : string)
    (reboot_processor : bool) (index : nat) :
  PyStr.upper area_id <> ALL_AREAS ->
  PyStr.index area_id (area_ids (config_file w)) = Some index ->
  PyDict.pop (config_file w) (area_section_name index) = None ->
  delete_area area_id reboot_processor w
  = (Raise (KeyError (area_section_name index)), w).
Proof.
  intros Hall Hindex Hpop. apply String.eqb_neq in Hall.
  unfold delete_area, bind, extract_config, gets. rewrite Hall.
  unfold area_ids in Hindex. rewrite Hindex. now rewrite Hpop.
Qed.

(** [delete_area], once its guards are passed and the section is popped,
    in terms of what [save] answers and of the deletion of the rules run
    on the files as they were. *)
Lemma delete_area_run (w : World) (area_id : string)
    (reboot_processor : bool) (index : nat) (c1 : config) :
  PyStr.upper area_id <> ALL_AREAS ->
  PyStr.index area_id (area_ids (config_file w)) = Some index ->
  PyDict.pop (config_file w) (area_section_name index) = Some c1 ->
  let saved := save (reestructure_areas c1) reboot_processor (config_file w) in
  let step := delete_area_occupancy_rules area_id w in
  delete_area area_id reboot_processor w
  = match fst step with
    | Raise e => (Raise e, with_config (fst saved) (snd step))
    | Return _ =>
        (rmtree (os_path_join AreaLogDirectory [area_id]) ;;;
         rmtree (os_path_join AreaConfigDirectory [area_id]) ;;;
         ret (handle_response None (snd saved) (Some HTTP_204_NO_CONTENT)))
          (with_config (fst saved) (snd step))
    end.
Proof.
  intros Hall Hindex Hpop saved step. apply String.eqb_neq in Hall.
  unfold delete_area at 1, bind at 1, extract_config, gets.
  rewrite Hall. unfold area_ids in Hindex. rewrite Hindex, Hpop.
  unfold bind at 1, update_config. fold saved.
  destruct saved as [stored success]. unfold bind at 1.
  rewrite (delete_rules_with_config get_area_config_path). fold step.
  now destruct step as [[o | e] w1].
Qed.

(** X1: when a handler that changes the store answers with an HTTP
    error, nothing has been changed: the world is returned as it was,
    and the status is 400 or 404.  The exceptions that can escape after
    a write ([KeyError], [JSONDecodeError], [FileNotFoundError] and
    the other [OSError]s) are never HTTP errors. *)
Theorem http_error_changes_nothing (w w' : World) (s : Z) (d : detail) :
  (forall new_area reboot,
      create_area new_area reboot w = (Raise (HTTPException s d), w') ->
      w' = w /\ (s = HTTP_400_BAD_REQUEST \/ s = HTTP_404_NOT_FOUND))
  /\
  (forall area_id edited_area reboot,
      edit_area area_id edited_area reboot w = (Raise (HTTPException s d), w') ->
      w' = w /\ (s = HTTP_400_BAD_REQUEST \/ s = HTTP_404_NOT_FOUND))
  /\
  (forall area_id reboot,
      delete_area area_id reboot w = (Raise (HTTPException s d), w') ->
      w' = w /\ (s = HTTP_400_BAD_REQUEST \/ s = HTTP_404_NOT_FOUND)).
Proof.
  split; [| split].
  - intros new_area reboot Hrun.
    destruct (in_dec string_dec (id new_area) (area_ids (config_file w)))
      as [Hdup | Hfresh].
    { rewrite create_area_rejects_duplicate in Hrun by now apply mem_In.
      inversion Hrun. split; [reflexivity | now left]. }
    destruct (string_dec (PyStr.upper (id new_area)) ALL_AREAS) as [Hall | Hall].
    { rewrite create_area_reserved in Hrun by assumption.
      inversion Hrun. split; [reflexivity | now left]. }
    destruct (all_cameras_exist (camera_ids_of (config_file w))
                                (cameras new_area)) eqn:Hcams.
    2:{ rewrite create_area_missing_cameras in Hrun by assumption.
        inversion Hrun. split; [reflexivity | now right]. }
    rewrite create_area_run in Hrun by assumption.
    destruct (create_rules_step_effect w (id new_area)
                (occupancy_rules new_area)) as (_ & _ & Hhttp).
    destruct (fst (create_rules_step _ _ w)) as [[] | e] eqn:Hstep.
    + destruct (snd (save _ _ _)); discriminate.
    + inversion Hrun; subst e. now destruct (Hhttp s d).
  - intros area_id edited_area reboot Hrun.
    destruct (string_dec (PyStr.upper area_id) ALL_AREAS) as [Hall | Hall].
    { rewrite edit_area_reserved in Hrun by assumption.
      inversion Hrun. split; [reflexivity | now left]. }
    destruct (PyStr.index area_id (area_ids (config_file w)))
      as [index |] eqn:Hindex.
    2:{ apply (index_None get_area_config_path) in Hindex.
        rewrite edit_area_unknown in Hrun by assumption.
        inversion Hrun. split; [reflexivity | now right]. }
    destruct (all_cameras_exist (camera_ids_of (config_file w))
                                (cameras edited_area)) eqn:Hcams.
    2:{ rewrite (edit_area_missing_cameras _ _ _ _ _ _ index) in Hrun
          by assumption.
        inversion Hrun. split; [reflexivity | now right]. }
    rewrite (edit_area_run _ _ _ _ _ _ index) in Hrun by assumption.
    destruct (edit_rules_step_effect w area_id (occupancy_rules edited_area))
      as (_ & _ & Hhttp).
    destruct (fst (edit_rules_step _ _ w)) as [[] | e] eqn:Hstep.
    + destruct (snd (save _ _ _)); discriminate.
    + inversion Hrun; subst e. now destruct (Hhttp s d).
  - intros area_id reboot Hrun.
    destruct (string_dec (PyStr.upper area_id) ALL_AREAS) as [Hall | Hall].
    { rewrite delete_area_reserved in Hrun by assumption.
      inversion Hrun. split; [reflexivity | now left]. }
    destruct (PyStr.index area_id (area_ids (config_file w)))
      as [index |] eqn:Hindex.
    2:{ apply (index_None get_area_config_path) in Hindex.
        rewrite delete_area_unknown in Hrun by assumption.
        inversion Hrun. split; [reflexivity | now right]. }
    destruct (PyDict.pop (config_file w) (area_section_name index))
      as [c1 |] eqn:Hpop.
    2:{ rewrite (delete_area_no_section _ _ _ index) in Hrun by assumption.
        discriminate. }
    rewrite (delete_area_run _ _ _ index c1) in Hrun by assumption.
    destruct (delete_rules_effect w area_id) as (_ & _ & _ & Hhttp).
    destruct (fst (delete_area_occupancy_rules area_id w)) as [o | e] eqn:Hstep.
    + unfold bind at 1 in Hrun.
      destruct (rmtree (os_path_join AreaLogDirectory [area_id]) _)
        as [[[] | e1] w1] eqn:Hlog.
      2:{ inversion Hrun; subst. now apply rmtree_never_http in Hlog. }
      unfold bind at 1 in Hrun.
      destruct (rmtree (os_path_join AreaConfigDirectory [area_id]) w1)
        as [[[] | e2] w2] eqn:Hcfg.
      2:{ inversion Hrun; subst. now apply rmtree_never_http in Hcfg. }
      discriminate.
    + inversion Hrun; subst e. now destruct (Hhttp s d).
Qed.

(** X2: what [delete_area] answers before it writes anything.  The
    reserved token, in any letter case, is refused with 400; an id that
    no stored area has is refused with 404; and when the area found at
    position [index] has no section called [Area_index], which happens
    when the sections are not numbered from 0 without gaps, the [pop]
    raises [KeyError].  In all three cases the world is left as it
    was. *)
Theorem delete_area_guards (w : World) (area_id : string)
    (reboot_processor : bool) :
  (PyStr.upper area_id = ALL_AREAS ->
   delete_area area_id reboot_processor w
   = (Raise (HTTPException HTTP_400_BAD_REQUEST
               (bad_request_serializer
                  "Area with ID: 'ALL' cannot be deleted." "Invalid ID")), w))
  /\
  (PyStr.upper area_id <> ALL_AREAS ->
   ~ In area_id (area_ids (config_file w)) ->
   delete_area area_id reboot_processor w
   = (Raise (HTTPException HTTP_404_NOT_FOUND (AreaDoesNotExist area_id)), w))
  /\
  (forall index,
      PyStr.upper area_id <> ALL_AREAS ->
      PyStr.index area_id (area_ids (config_file w)) = Some index ->
      ~ In (area_section_name index) (PyDict.keys (config_file w)) ->
      delete_area area_id reboot_processor w
      = (Raise (KeyError (area_section_name index)), w)).
Proof.
  split; [| split].
  - apply delete_area_reserved.
  - apply delete_area_unknown.
  - intros index Hall Hindex Hkey.
    apply (delete_area_no_section _ _ _ index); try assumption.
    destruct (PyDict.pop (config_file w) (area_section_name index))
      as [c1 |] eqn:Hpop; [| reflexivity].
    exfalso. apply Hkey. clear - Hpop.
    revert c1 Hpop. generalize (area_section_name index) as k.
    induction (config_file w) as [| [k' v'] c IH]; cbn; intros k c1 Hpop;
      [discriminate |].
    destruct (String.eqb_spec k' k) as [-> | Hne]; [now left |].
    destruct (PyDict.pop c k) as [c0 |] eqn:Hc; [| discriminate].
    right. now apply (IH k c0).
Qed.

(** A [delete_area] that returns has passed its guards, deleted the
    rules and removed the two directory trees its names led to. *)
Lemma delete_area_returns_world (w w' : World) (area_id : string)
    (reboot_processor : bool) (r : response) :
  delete_area area_id reboot_processor w = (Return r, w') ->
  let w1 := snd (delete_area_occupancy_rules area_id w) in
  (exists o, fst (delete_area_occupancy_rules area_id w) = Return o) /\
  exists log cfg,
    lookup_dir w1 (os_path_join AreaLogDirectory [area_id]) = Some log /\
    lookup_dir (removed log w1) (os_path_join AreaConfigDirectory [area_id])
    = Some cfg /\
    dirs w' = filter (fun q => ¬ cfg `prefix_of` q)
                (filter (fun q => ¬ log `prefix_of` q) (dirs w1)) /\
    files w' = filter (fun kv => ¬ cfg `prefix_of` kv.1)
                 (filter (fun kv => ¬ log `prefix_of` kv.1) (files w1)).
Proof.
  intros Hrun w1.
  destruct (string_dec (PyStr.upper area_id) ALL_AREAS) as [Hall | Hall].
  { rewrite delete_area_reserved in Hrun by assumption. discriminate. }
  destruct (PyStr.index area_id (area_ids (config_file w)))
    as [index |] eqn:Hindex.
  2:{ apply (index_None get_area_config_path) in Hindex.
      rewrite delete_area_unknown in Hrun by assumption. discriminate. }
  destruct (PyDict.pop (config_file w) (area_section_name index))
    as [c1 |] eqn:Hpop.
  2:{ rewrite (delete_area_no_section _ _ _ index) in Hrun by assumption.
      discriminate. }
  rewrite (delete_area_run _ _ _ index c1) in Hrun by assumption.
  fold w1 in Hrun.
  destruct (fst (delete_area_occupancy_rules area_id w)) as [o | e];
    [| discriminate].
  split; [eauto |].
  unfold bind at 1 in Hrun.
  destruct (rmtree (os_path_join AreaLogDirectory [area_id]) _)
    as [[[] | e1] w2] eqn:Hlog; [| discriminate].
  apply rmtree_returns in Hlog as (log & Hlog & _ & ->).
  unfold bind at 1 in Hrun.
  destruct (rmtree (os_path_join AreaConfigDirectory [area_id]) _)
    as [[[] | e2] w3] eqn:Hcfg; [| discriminate].
  apply rmtree_returns in Hcfg as (cfg & Hcfg & _ & ->).
  exists log, cfg.
  rewrite (lookup_dir_same_dirs _ w1) in Hlog by reflexivity.
  rewrite (lookup_dir_same_dirs _ (removed log w1)) in Hcfg by reflexivity.
  split; [exact Hlog |]. split; [exact Hcfg |].
  unfold ret in Hrun. inversion Hrun; subst. cbn. easy.
Qed.

(** X4: what a [delete_area] that returns has done to the files.  The
    two names it joined, the area id under the log base and under the
    configuration base, led to directories; afterwards neither they nor
    anything below them is left, directory or file; and every other
    directory, and every other file but the sidecar of the area, is as
    it was.  For an id that is one ordinary directory name the two
    directories are those called after the area under the two bases;
    for the empty id they are the two base directories themselves, with
    the directories of every area. *)
Theorem delete_area_removes_directories (w w' : World) (area_id : string)
    (reboot_processor : bool) (r : response) :
  delete_area area_id reboot_processor w = (Return r, w') ->
  exists log cfg,
    lookup_dir w (os_path_join AreaLogDirectory [area_id]) = Some log /\
    lookup_dir w (os_path_join AreaConfigDirectory [area_id]) = Some cfg /\
    (forall q, log `prefix_of` q \/ cfg `prefix_of` q ->
               (q ∉ dirs w') /\ files w' !! q = None) /\
    (forall q, ¬ (log `prefix_of` q) -> ¬ (cfg `prefix_of` q) ->
               (q ∈ dirs w' <-> q ∈ dirs w) /\
               (q <> get_area_config_path area_id ->
                files w' !! q = files w !! q)) /\
    (plain_name area_id ->
     log = AreaLogDirectory ++ [area_id] /\
     cfg = AreaConfigDirectory ++ [area_id]) /\
    (area_id = "" -> log = AreaLogDirectory /\ cfg = AreaConfigDirectory).
Proof.
  intros Hrun.
  destruct (delete_area_returns_world w w' area_id reboot_processor r Hrun)
    as (_ & log & cfg & Hlog & Hcfg & Hdirs & Hfiles).
  destruct (delete_rules_effect w area_id) as (Hsame & _ & Hothers & _).
  rewrite (lookup_dir_same_dirs _ w) in Hlog by exact Hsame.
  apply (lookup_dir_mono _ w) in Hcfg.
  2:{ cbn [removed dirs with_dirs]. rewrite Hsame.
      intros q Hq. now apply elem_of_filter in Hq as [_ Hq]. }
  rewrite Hsame in Hdirs.
  exists log, cfg. split; [exact Hlog |]. split; [exact Hcfg |].
  split; [| split; [| split]].
  - intros q Hq. rewrite Hdirs, Hfiles. split.
    + rewrite !elem_of_filter. tauto.
    + apply map_lookup_filter_None. right. intros x Hx.
      apply map_lookup_filter_Some in Hx as [_ Hx]. cbn in *. tauto.
  - intros q Hnlog Hncfg. rewrite Hdirs, Hfiles. split.
    + rewrite !elem_of_filter. tauto.
    + intros Hq. rewrite <- (Hothers q Hq).
      destruct (files (snd (delete_area_occupancy_rules area_id w)) !! q)
        as [x |] eqn:Hx.
      * apply map_lookup_filter_Some. split; [| exact Hncfg].
        apply map_lookup_filter_Some. split; [exact Hx | exact Hnlog].
      * apply map_lookup_filter_None. left.
        apply map_lookup_filter_None. now left.
  - intros Hplain. split; now apply (lookup_dir_plain w).
  - intros ->. split; now apply (lookup_dir_empty w).
Qed.

(** X3: [delete_area] does not look whether the directories are there.
    When the name joined for the log directory of the area leads to no
    directory, as when the id is an ordinary directory name and the
    directory of that name is missing under the log base,
    [shutil.rmtree] raises [FileNotFoundError], and by then the
    configuration has been saved without the area and the rules are
    gone from the sidecar; the directories are as they were, the
    configuration directory of the area included. *)
Theorem delete_area_missing_log_directory (w : World) (area_id : string)
    (reboot_processor : bool) (index : nat) (c1 : config) :
  let p := get_area_config_path area_id in
  let log := os_path_join AreaLogDirectory [area_id] in
  PyStr.upper area_id <> ALL_AREAS ->
  PyStr.index area_id (area_ids (config_file w)) = Some index ->
  PyDict.pop (config_file w) (area_section_name index) = Some c1 ->
  (files w !! p = None \/
   exists data, files w !! p = Some (Document data)
                /\ is_Some (data !! OCCUPANCY_RULES)) ->
  (lookup_dir w log = None \/
   (plain_name area_id /\ AreaLogDirectory ++ [area_id] ∉ dirs w)) ->
  exists w',
    delete_area area_id reboot_processor w
    = (Raise (FileNotFoundError (spelled log)), w') /\
    config_file w'
    = fst (save (reestructure_areas c1) reboot_processor (config_file w)) /\
    stored_rules w' p = None /\
    dirs w' = dirs w /\
    (plain_name area_id -> spelled log = AreaLogDirectory ++ [area_id]).
Proof.
  intros p log Hall Hindex Hpop Hsidecar Hmissing.
  assert (Hlog : lookup_dir w log = None).
  { destruct Hmissing as [Hlog | [Hplain Hlog]]; [exact Hlog |].
    now apply lookup_dir_plain_missing. }
  eexists.
  rewrite (delete_area_run _ _ _ index c1) by assumption.
  pose proof (delete_rules_leaves_none get_area_config_path w area_id)
    as Hnone.
  destruct (delete_rules_effect w area_id) as (Hdirs & _ & _ & _).
  assert (Hstep : exists o,
             fst (delete_area_occupancy_rules area_id w) = Return o).
  { destruct Hsidecar as [Hfile | (data & Hfile & Hkey)].
    - rewrite (delete_rules_file_absent get_area_config_path w area_id Hfile).
      eauto.
    - rewrite (delete_rules_key_present get_area_config_path w area_id data
                 Hfile Hkey).
      eauto. }
  destruct Hstep as [o ->].
  unfold bind at 1. rewrite rmtree_missing.
  2:{ rewrite (lookup_dir_same_dirs _ w) by exact Hdirs. exact Hlog. }
  split; [reflexivity |]. split; [reflexivity |].
  split; [exact Hnone |]. split; [exact Hdirs |].
  intros Hplain. unfold log. now rewrite join_plain.
Qed.

(** ** What create and update leave alone *)

(** X5: [create_area] and [edit_area] write to no file but the sidecar
    of the area they are given, and they remove no directory, whatever
    they answer. *)
Theorem create_and_edit_touch_only_the_sidecar (w : World) :
  (forall new_area reboot,
      let w' := snd (create_area new_area reboot w) in
      (forall q, q <> get_area_config_path (id new_area) ->
                 files w' !! q = files w !! q) /\
      dirs w ⊆ dirs w')
  /\
  (forall area_id edited_area reboot,
      let w' := snd (edit_area area_id edited_area reboot w) in
      (forall q, q <> get_area_config_path area_id ->
                 files w' !! q = files w !! q) /\
      dirs w ⊆ dirs w').
Proof.
  split.
  - intros new_area reboot w'. subst w'.
    destruct (in_dec string_dec (id new_area) (area_ids (config_file w)))
      as [Hdup | Hfresh].
    { now rewrite create_area_rejects_duplicate by now apply mem_In. }
    destruct (string_dec (PyStr.upper (id new_area)) ALL_AREAS) as [Hall | Hall].
    { now rewrite create_area_reserved. }
    destruct (all_cameras_exist (camera_ids_of (config_file w))
                                (cameras new_area)) eqn:Hcams.
    2:{ now rewrite create_area_missing_cameras. }
    rewrite create_area_run by assumption.
    destruct (create_rules_step_effect w (id new_area)
                (occupancy_rules new_area)) as (Hdirs & Hfiles & _).
    destruct (fst (create_rules_step _ _ w)) as [[] | e].
    + destruct (snd (save _ _ _)); cbn; split; try assumption.
      etransitivity; [exact Hdirs |].
      etransitivity; [| apply union_subseteq_l]. apply union_subseteq_l.
    + cbn. now split.
  - intros area_id edited_area reboot w'. subst w'.
    destruct (string_dec (PyStr.upper area_id) ALL_AREAS) as [Hall | Hall].
    { now rewrite edit_area_reserved. }
    destruct (PyStr.index area_id (area_ids (config_file w)))
      as [index |] eqn:Hindex.
    2:{ apply (index_None get_area_config_path) in Hindex.
        now rewrite edit_area_unknown. }
    destruct (all_cameras_exist (camera_ids_of (config_file w))
                                (cameras edited_area)) eqn:Hcams.
    2:{ now rewrite (edit_area_missing_cameras _ _ _ _ _ _ index). }
    rewrite (edit_area_run _ _ _ _ _ _ index) by assumption.
    destruct (edit_rules_step_effect w area_id (occupancy_rules edited_area))
      as (Hdirs & Hfiles & _).
    cbn. now split.
Qed.

(** ** Reading an area *)

Lemma find_area_known (areas : list AreaConfigDTO) (area_id : string) :
  In area_id (map id areas) ->
  exists a, find_area area_id areas = Some a /\ id a = area_id.
Proof.
  intros Hin. unfold find_area.
  destruct (List.find _ areas) as [a |] eqn:Hfind.
  - exists a. split; [reflexivity |].
    apply find_some in Hfind as [_ Heq]. now apply String.eqb_eq in Heq.
  - exfalso. apply in_map_iff in Hin as (a & Ha & Hin).
    apply (find_none _ _ Hfind) in Hin. cbn in Hin.
    rewrite Ha, String.eqb_refl in Hin. discriminate.
Qed.

Lemma find_area_unknown (areas : list AreaConfigDTO) (area_id : string) :
  ~ In area_id (map id areas) -> find_area area_id areas = None.
Proof.
  intros Hnot. unfold find_area.
  destruct (List.find _ areas) as [a |] eqn:Hfind; [| reflexivity].
  exfalso. apply find_some in Hfind as [Hin Heq].
  apply String.eqb_eq in Heq. apply Hnot. rewrite <- Heq. now apply in_map.
Qed.

Lemma get_area_unknown (w : World) (area_id : string) :
  PyStr.upper area_id <> ALL_AREAS ->
  ~ In area_id (area_ids (config_file w)) ->
  get_area area_id w
  = (Raise (HTTPException HTTP_404_NOT_FOUND (AreaDoesNotExist area_id)), w).
Proof.
  intros Hall Hnot. apply String.eqb_neq in Hall.
  unfold get_area, get_areas, bind, gets, raise. rewrite Hall.
  rewrite areas_of_config_get_areas.
  rewrite area_ids_config_get_areas in Hnot.
  now rewrite (find_area_unknown _ _ Hnot).
Qed.

(** [get_area] for a stored id, by the state of the sidecar. *)
Lemma get_area_known (w : World) (area_id : string) :
  PyStr.upper area_id <> ALL_AREAS ->
  In area_id (area_ids (config_file w)) ->
  exists a,
    find_area area_id (areas_of (config_file w)) = Some a /\
    id a = area_id /\
    get_area area_id w
    = match files w !! get_area_config_path area_id with
      | None => (Return (set_occupancy_rules_field (Some parse_obj_empty) a), w)
      | Some (Document data) =>
          (Return (set_occupancy_rules_field (Some (from_store_json data)) a),
           w)
      | Some Truncated => (Raise JSONDecodeError, w)
      end.
Proof.
  intros Hall Hin. apply String.eqb_neq in Hall.
  rewrite area_ids_config_get_areas in Hin.
  destruct (find_area_known _ _ Hin) as (a & Hfind & Hid).
  exists a. rewrite areas_of_config_get_areas.
  split; [exact Hfind |]. split; [exact Hid |].
  unfold get_area, get_areas, get_area_occupancy_rules, bind, gets.
  rewrite Hall, areas_of_config_get_areas, Hfind, Hid, Hfind, Hid.
  destruct (files w !! get_area_config_path area_id) as [[| data] |] eqn:Hfile.
  - erewrite os_path_exists_file by exact Hfile. cbn [negb].
    now rewrite json_load_truncated by exact Hfile.
  - erewrite os_path_exists_file by exact Hfile. cbn [negb].
    now erewrite json_load_document by exact Hfile.
  - now rewrite os_path_exists_none by exact Hfile.
Qed.

(** X6: what [get_area] answers for an id other than the reserved
    token.  An id that no stored area has gives 404.  For a stored id
    the answer depends on the sidecar alone: without a file the area
    comes with the empty list of rules; with a document it comes with
    the rules read from it; an empty file makes [json.load] raise.  In
    every case, and for every id, the world is left as it was. *)
Theorem get_area_outcomes (w : World) (area_id : string) :
  let p := get_area_config_path area_id in
  (PyStr.upper area_id <> ALL_AREAS ->
   (~ In area_id (area_ids (config_file w)) ->
    get_area area_id w
    = (Raise (HTTPException HTTP_404_NOT_FOUND (AreaDoesNotExist area_id)), w))
   /\
   (In area_id (area_ids (config_file w)) ->
    exists a,
      find_area area_id (areas_of (config_file w)) = Some a /\
      id a = area_id /\
      (files w !! p = None ->
       get_area area_id w
       = (Return (set_occupancy_rules_field (Some parse_obj_empty) a), w)) /\
      (forall data,
          files w !! p = Some (Document data) ->
          get_area area_id w
          = (Return (set_occupancy_rules_field
                       (Some (from_store_json data)) a), w)) /\
      (files w !! p = Some Truncated ->
       get_area area_id w = (Raise JSONDecodeError, w))))
  /\ snd (get_area area_id w) = w.
Proof.
  intros p. split.
  - intros Hall. split; [now apply get_area_unknown |]. intros Hin.
    destruct (get_area_known w area_id Hall Hin) as (a & Hfind & Hid & Hrun).
    fold p in Hrun.
    exists a. split; [exact Hfind |]. split; [exact Hid |].
    split; [| split].
    + intros Hfile. now rewrite Hrun, Hfile.
    + intros data Hfile. now rewrite Hrun, Hfile.
    + intros Hfile. now rewrite Hrun, Hfile.
  - destruct (string_dec (PyStr.upper area_id) ALL_AREAS) as [Hall | Hall].
    + apply String.eqb_eq in Hall. unfold get_area. now rewrite Hall.
    + destruct (in_dec string_dec area_id (area_ids (config_file w)))
        as [Hin | Hnot].
      * destruct (get_area_known w area_id Hall Hin) as (a & _ & _ & ->).
        now destruct (files w !! get_area_config_path area_id)
          as [[| data] |].
      * now rewrite get_area_unknown.
Qed.

(** X9: every area that [list_areas] lists can be read back: with an id
    other than the reserved token, [get_area] finds an area with that
    id and never answers 404 for it. *)
Theorem listed_areas_can_be_read (w w' : World)
    (areas : list AreaConfigDTO) (a : AreaConfigDTO) :
  list_areas w = (Return areas, w') ->
  In a areas ->
  PyStr.upper (id a) <> ALL_AREAS ->
  (exists a', find_area (id a) (areas_of (config_file w)) = Some a'
              /\ id a' = id a) /\
  forall d, fst (get_area (id a) w)
            <> Raise (HTTPException HTTP_404_NOT_FOUND d).
Proof.
  unfold list_areas, get_areas, gets. intros Hlist Hin Hall.
  inversion Hlist; subst areas w'.
  assert (Hknown : In (id a) (area_ids (config_file w))).
  { rewrite area_ids_config_get_areas, <- areas_of_config_get_areas.
    now apply in_map. }
  destruct (get_area_known w (id a) Hall Hknown) as (a' & Hfind & Hid & Hrun).
  split; [now exists a' |]. intros d. rewrite Hrun.
  now destruct (files w !! get_area_config_path (id a)) as [[| data] |].
Qed.

(** ** What create and update return, and the directories of a new area *)

Lemma areas_of_no_rules (c : config) (a : AreaConfigDTO) :
  In a (areas_of c) -> occupancy_rules a = None.
Proof.
  unfold areas_of. intros Hin.
  apply in_map_iff in Hin as (x & <- & _). reflexivity.
Qed.

Lemma find_area_no_rules (c : config) (area_id : string) (a : AreaConfigDTO) :
  find_area area_id (areas_of c) = Some a ->
  id a = area_id /\ occupancy_rules a = None.
Proof.
  intros Hfind. split; [now apply find_area_id in Hfind |].
  apply find_some in Hfind as [Hin _]. now apply areas_of_no_rules in Hin.
Qed.

Lemma set_rules_returned (w : World) (area_id : string)
    (rules : OccupancyRuleListDTO) (u : unit) :
  fst (set_occupancy_rules area_id rules w) = Return u ->
  stored_rules (snd (set_occupancy_rules area_id rules w))
               (get_area_config_path area_id)
  = Some (JList (root rules)).
Proof.
  intros Hret.
  destruct (files w !! get_area_config_path area_id) as [[| data] |] eqn:Hfile.
  - rewrite set_rules_truncated in Hret by exact Hfile. discriminate.
  - apply set_rules_readable. unfold readable_sidecar. congruence.
  - apply set_rules_readable. unfold readable_sidecar. congruence.
Qed.

(** A [create_area] that returns has passed its guards and run its rule
    step; the world it leaves depends on the answer of the save. *)
Lemma create_area_returns_world (w w' : World) (new_area : AreaConfigDTO)
    (reboot_processor : bool) (r : response) :
  create_area new_area reboot_processor w = (Return r, w') ->
  let area_dict :=
    map_to_config_file_format (set_occupancy_rules_field None new_area) in
  let config_dict :=
    PyDict.set (config_file w)
               (area_section_name (length (area_ids (config_file w))))
               area_dict in
  let saved := save config_dict reboot_processor (config_file w) in
  let step := create_rules_step (id new_area) (occupancy_rules new_area) w in
  fst step = Return tt /\
  if snd saved
  then r = AreaResponse (find_area (id new_area) (areas_of (fst saved))) /\
       w' = with_dirs
              (dirs (snd step)
               ∪ list_to_set
                   (made (os_path_join AreaLogDirectory
                            [id new_area; "occupancy_log"]))
               ∪ list_to_set
                   (made (os_path_join AreaConfigDirectory [id new_area])))
              (with_config (fst saved) (snd step))
  else r = handle_response (Some area_dict) false (Some HTTP_201_CREATED) /\
       w' = with_config (fst saved) (snd step).
Proof.
  intros Hrun area_dict config_dict saved step.
  destruct (in_dec string_dec (id new_area) (area_ids (config_file w)))
    as [Hdup | Hfresh].
  { rewrite create_area_rejects_duplicate in Hrun by now apply mem_In.
    discriminate. }
  destruct (string_dec (PyStr.upper (id new_area)) ALL_AREAS) as [Hall | Hall].
  { rewrite create_area_reserved in Hrun by assumption. discriminate. }
  destruct (all_cameras_exist (camera_ids_of (config_file w))
                              (cameras new_area)) eqn:Hcams.
  2:{ rewrite create_area_missing_cameras in Hrun by assumption.
      discriminate. }
  rewrite create_area_run in Hrun by assumption.
  fold area_dict config_dict saved step in Hrun.
  destruct (fst step) as [[] | e]; [| discriminate].
  split; [reflexivity |].
  destruct (snd saved); inversion Hrun; subst; now split.
Qed.

(** The same for [edit_area]. *)
Lemma edit_area_returns_world (w w' : World) (area_id : string)
    (edited_area : AreaConfigDTO) (reboot_processor : bool) (r : response) :
  edit_area area_id edited_area reboot_processor w = (Return r, w') ->
  exists index,
    PyStr.index area_id (area_ids (config_file w)) = Some index /\
    let area_dict :=
      map_to_config_file_format
        (set_occupancy_rules_field None (set_id area_id edited_area)) in
    let config_dict :=
      PyDict.set (config_file w) (area_section_name index) area_dict in
    let saved := save config_dict reboot_processor (config_file w) in
    let step := edit_rules_step area_id (occupancy_rules edited_area) w in
    fst step = Return tt /\
    w' = with_config (fst saved) (snd step) /\
    r = if snd saved
        then AreaResponse (find_area area_id (areas_of (fst saved)))
        else handle_response (Some area_dict) false None.
Proof.
  intros Hrun.
  destruct (string_dec (PyStr.upper area_id) ALL_AREAS) as [Hall | Hall].
  { rewrite edit_area_reserved in Hrun by assumption. discriminate. }
  destruct (PyStr.index area_id (area_ids (config_file w)))
    as [index |] eqn:Hindex.
  2:{ apply (index_None get_area_config_path) in Hindex.
      rewrite edit_area_unknown in Hrun by assumption. discriminate. }
  destruct (all_cameras_exist (camera_ids_of (config_file w))
                              (cameras edited_area)) eqn:Hcams.
  2:{ rewrite (edit_area_missing_cameras _ _ _ _ _ _ index) in Hrun
        by assumption.
      discriminate. }
  rewrite (edit_area_run _ _ _ _ _ _ index) in Hrun by assumption.
  exists index. split; [reflexivity |]. cbv zeta.
  destruct (fst (edit_rules_step _ _ w)) as [[] | e]; [| discriminate].
  split; [reflexivity |].
  destruct (snd (save _ _ _)); inversion Hrun; subst; now split.
Qed.

(** X7: the area that [create_area] or [edit_area] returns has the id
    that was asked for and carries no occupancy rules, also when rules
    were supplied: by then the supplied rules are in the sidecar, and
    the answer is read from the configuration store alone. *)
Theorem responses_carry_no_rules (w w' : World) (a : AreaConfigDTO)
    (reboot_processor : bool) :
  (forall new_area,
      create_area new_area reboot_processor w
      = (Return (AreaResponse (Some a)), w') ->
      id a = id new_area /\
      occupancy_rules a = None /\
      forall rules,
        occupancy_rules new_area = Some rules -> root rules <> [] ->
        stored_rules w' (get_area_config_path (id new_area))
        = Some (JList (root rules)))
  /\
  (forall area_id edited_area,
      edit_area area_id edited_area reboot_processor w
      = (Return (AreaResponse (Some a)), w') ->
      id a = area_id /\
      occupancy_rules a = None /\
      forall rules,
        occupancy_rules edited_area = Some rules -> root rules <> [] ->
        stored_rules w' (get_area_config_path area_id)
        = Some (JList (root rules))).
Proof.
  split.
  - intros new_area Hrun.
    destruct (create_area_returns_world _ _ _ _ _ Hrun) as (Hstep & Hsaved).
    destruct (snd (save _ _ _)); destruct Hsaved as [Hr Hw];
      [| discriminate].
    inversion Hr as [Hfind]. symmetry in Hfind.
    apply find_area_no_rules in Hfind as [Hid Hnone].
    split; [exact Hid |]. split; [exact Hnone |].
    intros rules Hrules Hnonempty. subst w'.
    unfold create_rules_step in *. rewrite Hrules in *.
    rewrite (truthy_nonempty rules Hnonempty) in *.
    cbn [default from_option Datatypes.id] in *.
    now apply set_rules_returned in Hstep.
  - intros area_id edited_area Hrun.
    destruct (edit_area_returns_world _ _ _ _ _ _ Hrun)
      as (index & _ & Hstep & Hw & Hr).
    destruct (snd (save _ _ _)); [| discriminate].
    inversion Hr as [Hfind]. symmetry in Hfind.
    apply find_area_no_rules in Hfind as [Hid Hnone].
    split; [exact Hid |]. split; [exact Hnone |].
    intros rules Hrules Hnonempty. subst w'.
    unfold edit_rules_step in *. rewrite Hrules in *.
    rewrite (truthy_nonempty rules Hnonempty) in *.
    cbn [default from_option Datatypes.id] in *.
    now apply set_rules_returned in Hstep.
Qed.

(** X8: the directories of a new area.  After a [create_area] that
    returns the area, the two names it joined, [occupancy_log] under
    the area id under the log base and the area id under the
    configuration base, lead to directories, every directory on the way
    there included, and no directory has gone; for an id that is one
    ordinary directory name these are the directories called after the
    area under the two bases, with their parents.  A [create_area] that
    returns the failure response of a failed save has not come to make
    them: without rules it has touched no file and no directory at all,
    and with rules the directories it has added are those that
    [set_occupancy_rules] makes, the directory of the sidecar and its
    parents. *)
Theorem create_area_directories (w w' : World) (new_area : AreaConfigDTO)
    (reboot_processor : bool) :
  let log := os_path_join AreaLogDirectory [id new_area; "occupancy_log"] in
  let cfg := os_path_join AreaConfigDirectory [id new_area] in
  let p := get_area_config_path (id new_area) in
  (forall r,
      create_area new_area reboot_processor w
      = (Return (AreaResponse r), w') ->
      is_Some (lookup_dir w' log) /\ is_Some (lookup_dir w' cfg) /\
      (forall q, q ∈ made log \/ q ∈ made cfg -> q ∈ dirs w') /\
      dirs w ⊆ dirs w' /\
      (plain_name (id new_area) ->
       let log_directory :=
         AreaLogDirectory ++ [id new_area; "occupancy_log"] in
       let config_directory := AreaConfigDirectory ++ [id new_area] in
       lookup_dir w' log = Some log_directory /\
       lookup_dir w' cfg = Some config_directory /\
       forall q, q ∈ ancestors log_directory \/ q ∈ ancestors config_directory
                 -> q ∈ dirs w'))
  /\
  (forall content success status,
      create_area new_area reboot_processor w
      = (Return (handle_response content success status), w') ->
      success = false /\
      (truthy (occupancy_rules new_area) = false ->
       dirs w' = dirs w /\ files w' = files w) /\
      (truthy (occupancy_rules new_area) = true ->
       dirs w' = dirs w ∪ list_to_set (ancestors (dirname p)))).
Proof.
  intros log cfg p. split.
  - intros r Hrun.
    destruct (create_area_returns_world _ _ _ _ _ Hrun) as (_ & Hsaved).
    destruct (snd (save _ _ _)); destruct Hsaved as [Hr Hw];
      [| discriminate].
    fold log cfg in Hw.
    assert (Hall : forall q, q ∈ made log \/ q ∈ made cfg -> q ∈ dirs w').
    { intros q Hq. subst w'. cbn [dirs with_dirs].
      rewrite !elem_of_union, !elem_of_list_to_set. tauto. }
    assert (Hlog : lookup_dir w' log
                   = Some (fold_left enter (steps log) (start log)))
      by (apply lookup_dir_made; intros q Hq; apply Hall; now left).
    assert (Hcfg : lookup_dir w' cfg
                   = Some (fold_left enter (steps cfg) (start cfg)))
      by (apply lookup_dir_made; intros q Hq; apply Hall; now right).
    split; [rewrite Hlog; eauto |]. split; [rewrite Hcfg; eauto |].
    split; [exact Hall |]. split.
    + destruct (create_rules_step_effect w (id new_area)
                  (occupancy_rules new_area)) as (Hdirs & _).
      subst w'. cbn [dirs with_dirs with_config].
      etransitivity; [exact Hdirs |].
      etransitivity; [| apply union_subseteq_l]. apply union_subseteq_l.
    + intros Hplain log_directory config_directory.
      destruct (made_plain AreaLogDirectory (id new_area) Hplain)
        as [_ Hmade_log].
      destruct (made_plain AreaConfigDirectory (id new_area) Hplain)
        as [Hmade_cfg _].
      fold log in Hmade_log. fold cfg in Hmade_cfg.
      rewrite Hlog, Hcfg. unfold log, cfg.
      rewrite join_plain, join_plain_log by exact Hplain.
      cbn [start steps fold_left].
      rewrite !(enter_plain _ (id new_area)) by exact Hplain.
      change (enter (AreaLogDirectory ++ [id new_area]) "occupancy_log")
        with ((AreaLogDirectory ++ [id new_area]) ++ ["occupancy_log"]).
      split; [unfold log_directory; now rewrite <- app_assoc |].
      split; [reflexivity |].
      intros q Hq. apply Hall. now rewrite Hmade_log, Hmade_cfg.
  - intros content success status Hrun.
    destruct (create_area_returns_world _ _ _ _ _ Hrun) as (_ & Hsaved).
    destruct (snd (save _ _ _)); destruct Hsaved as [Hr Hw];
      [discriminate |].
    inversion Hr; subst content success status. split; [reflexivity |].
    subst w'. cbn [dirs files with_config]. unfold create_rules_step.
    split; intros Htruthy; rewrite Htruthy.
    + now cbn.
    + now destruct (set_rules_effect w (id new_area)
                      (default parse_obj_empty (occupancy_rules new_area)))
        as (Hdirs & _).
Qed.

(** ** The sidecar helpers one after the other *)

(** X10: deleting the rules is not repeatable.  On a sidecar that holds
    rules the first call rewrites the document without them; a second
    call finds no key, raises [KeyError] and leaves the file empty; from
    then on neither deleting nor saving rules gets past [json.load]. *)
Theorem delete_rules_twice (w : World) (area_id : string)
    (data : gmap string json) (rules : OccupancyRuleListDTO) :
  let p := get_area_config_path area_id in
  files w !! p = Some (Document data) ->
  is_Some (data !! OCCUPANCY_RULES) ->
  let w1 := snd (delete_area_occupancy_rules area_id w) in
  let w2 := snd (delete_area_occupancy_rules area_id w1) in
  fst (delete_area_occupancy_rules area_id w) = Return None /\
  files w1 !! p = Some (Document (delete OCCUPANCY_RULES data)) /\
  fst (delete_area_occupancy_rules area_id w1) = Raise (KeyError OCCUPANCY_RULES) /\
  files w2 !! p = Some Truncated /\
  fst (delete_area_occupancy_rules area_id w2) = Raise JSONDecodeError /\
  fst (set_occupancy_rules area_id rules w2) = Raise JSONDecodeError.
Proof.
  intros p Hfile Hkey w1 w2.
  assert (H1 : delete_area_occupancy_rules area_id w
               = (Return None,
                  with_files (<[p := Document (delete OCCUPANCY_RULES data)]>
                                (files w)) w))
    by now apply delete_rules_key_present.
  assert (Hfile1 : files w1 !! p
                   = Some (Document (delete OCCUPANCY_RULES data))).
  { subst w1. rewrite H1. cbn. apply lookup_insert_eq. }
  assert (H2 : delete_area_occupancy_rules area_id w1
               = (Raise (KeyError OCCUPANCY_RULES),
                  with_files (<[p := Truncated]> (files w1)) w1)).
  { apply (delete_rules_without_key _ _ _ _ Hfile1). apply lookup_delete_eq. }
  assert (Hfile2 : files w2 !! p = Some Truncated).
  { subst w2. rewrite H2. cbn. apply lookup_insert_eq. }
  split; [now rewrite H1 |]. split; [exact Hfile1 |].
  split; [now rewrite H2 |]. split; [exact Hfile2 |]. split.
  - now rewrite delete_rules_truncated by exact Hfile2.
  - now rewrite set_rules_truncated by exact Hfile2.
Qed.

(** X11: saving rules and then saving or deleting.  On a readable
    sidecar, a second save replaces the rules of the first and keeps
    the other keys; and a delete after a save always succeeds and
    leaves the document as it was before the save, less the rules. *)
Theorem set_rules_then_set_or_delete (w : World) (area_id : string)
    (r1 r2 : OccupancyRuleListDTO) :
  let p := get_area_config_path area_id in
  let before := match files w !! p with
                | Some (Document data) => data
                | _ => ∅
                end in
  readable_sidecar w p ->
  let w1 := snd (set_occupancy_rules area_id r1 w) in
  files w1 !! p = Some (Document (<[OCCUPANCY_RULES := JList (root r1)]> before))
  /\
  (fst (set_occupancy_rules area_id r2 w1) = Return tt /\
   files (snd (set_occupancy_rules area_id r2 w1)) !! p
   = Some (Document (<[OCCUPANCY_RULES := JList (root r2)]> before)))
  /\
  (fst (delete_area_occupancy_rules area_id w1) = Return None /\
   files (snd (delete_area_occupancy_rules area_id w1)) !! p
   = Some (Document (delete OCCUPANCY_RULES before))).
Proof.
  intros p before Hread w1.
  assert (Hfile1 : files w1 !! p
                   = Some (Document (<[OCCUPANCY_RULES := JList (root r1)]>
                                       before))).
  { subst w1 before. unfold readable_sidecar in Hread.
    destruct (files w !! p) as [[| data] |] eqn:Hfile; [congruence | |].
    - rewrite (set_rules_file_present _ _ _ _ data) by exact Hfile.
      cbn. apply lookup_insert_eq.
    - rewrite set_rules_file_absent by exact Hfile.
      cbn. rewrite lookup_insert_eq. now rewrite insert_empty. }
  split; [exact Hfile1 |]. split.
  - rewrite (set_rules_file_present _ _ _ _ _ Hfile1). cbn.
    split; [reflexivity |]. rewrite lookup_insert_eq.
    now rewrite insert_insert_eq.
  - rewrite (delete_rules_key_present _ _ _ _ Hfile1)
      by (rewrite lookup_insert_eq; eauto).
    cbn. split; [reflexivity |]. rewrite lookup_insert_eq.
    now rewrite delete_insert_eq.
Qed.

(** ** The camera list of a payload *)

(** X12: an empty camera list is not accepted.  [''.split(',')] is
    [['']], so a payload whose cameras are the empty string asks for one
    camera with the empty id: unless a camera has that id, a create or
    an update that passes the guards on the area id is refused with 404
    and the detail lists the empty id alone. *)
Theorem empty_camera_list_rejected (w : World) (area : AreaConfigDTO)
    (reboot_processor : bool) :
  cameras area = "" ->
  ~ In "" (camera_ids_of (config_file w)) ->
  (~ In (id area) (area_ids (config_file w)) ->
   PyStr.upper (id area) <> ALL_AREAS ->
   create_area area reboot_processor w
   = (Raise (HTTPException HTTP_404_NOT_FOUND (CamerasDoNotExist {[""]})), w))
  /\
  (forall area_id,
      PyStr.upper area_id <> ALL_AREAS ->
      In area_id (area_ids (config_file w)) ->
      edit_area area_id area reboot_processor w
      = (Raise (HTTPException HTTP_404_NOT_FOUND (CamerasDoNotExist {[""]})),
         w)).
Proof.
  intros Hcams Hnone.
  assert (Hfalse : all_cameras_exist (camera_ids_of (config_file w))
                                     (cameras area) = false).
  { apply all_cameras_exist_false. exists "". rewrite Hcams. cbn.
    split; [now left | exact Hnone]. }
  assert (Hset : non_existent_cameras (camera_ids_of (config_file w))
                                      (cameras area) = {[""]}).
  { apply set_eq. intros x. rewrite non_existent_cameras_spec, Hcams.
    cbn. rewrite elem_of_singleton. split.
    - intros [[<- | []] _]. reflexivity.
    - intros ->. split; [now left | exact Hnone]. }
  split.
  - intros Hfresh Hall. rewrite <- Hset.
    now apply create_area_missing_cameras.
  - intros area_id Hall Hknown. rewrite <- Hset.
    destruct (index_In get_area_config_path _ _ Hknown) as [index Hindex].
    now apply (edit_area_missing_cameras _ _ _ _ _ _ index).
Qed.

(** X13: the detail of a camera error is never empty.  Whenever
    [create_area] or [edit_area] raises the "cameras do not exist"
    error, the status is 404, nothing has been written, the set in the
    detail has at least one element, and each element is an id of the
    payload that no camera section has. *)
Theorem camera_error_detail (w w' : World) (s : Z) (missing : gset string)
    (area : AreaConfigDTO) (reboot_processor : bool) :
  (create_area area reboot_processor w
   = (Raise (HTTPException s (CamerasDoNotExist missing)), w')
   \/ exists area_id,
       edit_area area_id area reboot_processor w
       = (Raise (HTTPException s (CamerasDoNotExist missing)), w')) ->
  s = HTTP_404_NOT_FOUND /\ w' = w /\
  missing <> ∅ /\
  forall x, x ∈ missing <->
            In x (PyStr.split "," (cameras area))
            /\ ~ In x (camera_ids_of (config_file w)).
Proof.
  intros Hrun.
  assert (Hmissing :
    s = HTTP_404_NOT_FOUND /\ w' = w /\
    missing = non_existent_cameras (camera_ids_of (config_file w))
                                   (cameras area) /\
    all_cameras_exist (camera_ids_of (config_file w)) (cameras area) = false).
  { destruct Hrun as [Hrun | [area_id Hrun]].
    - destruct (in_dec string_dec (id area) (area_ids (config_file w)))
        as [Hdup | Hfresh].
      { rewrite create_area_rejects_duplicate in Hrun by now apply mem_In.
        discriminate. }
      destruct (string_dec (PyStr.upper (id area)) ALL_AREAS) as [Hall | Hall].
      { rewrite create_area_reserved in Hrun by assumption. discriminate. }
      destruct (all_cameras_exist (camera_ids_of (config_file w))
                                  (cameras area)) eqn:Hcams.
      2:{ rewrite create_area_missing_cameras in Hrun by assumption.
          now inversion Hrun. }
      rewrite create_area_run in Hrun by assumption.
      destruct (create_rules_step_effect w (id area) (occupancy_rules area))
        as (_ & _ & Hhttp).
      destruct (fst (create_rules_step _ _ w)) as [[] | e] eqn:Hstep.
      + destruct (snd (save _ _ _)); discriminate.
      + inversion Hrun; subst e. now destruct (Hhttp s (CamerasDoNotExist missing)).
    - destruct (string_dec (PyStr.upper area_id) ALL_AREAS) as [Hall | Hall].
      { rewrite edit_area_reserved in Hrun by assumption. discriminate. }
      destruct (PyStr.index area_id (area_ids (config_file w)))
        as [index |] eqn:Hindex.
      2:{ apply (index_None get_area_config_path) in Hindex.
          rewrite edit_area_unknown in Hrun by assumption. discriminate. }
      destruct (all_cameras_exist (camera_ids_of (config_file w))
                                  (cameras area)) eqn:Hcams.
      2:{ rewrite (edit_area_missing_cameras _ _ _ _ _ _ index) in Hrun
            by assumption.
          now inversion Hrun. }
      rewrite (edit_area_run _ _ _ _ _ _ index) in Hrun by assumption.
      destruct (edit_rules_step_effect w area_id (occupancy_rules area))
        as (_ & _ & Hhttp).
      destruct (fst (edit_rules_step _ _ w)) as [[] | e] eqn:Hstep.
      + destruct (snd (save _ _ _)); discriminate.
      + inversion Hrun; subst e. now destruct (Hhttp s (CamerasDoNotExist missing)). }
  destruct Hmissing as (Hs & Hw & Hset & Hfalse).
  split; [exact Hs |]. split; [exact Hw |]. subst missing. split.
  - apply all_cameras_exist_false in Hfalse as (x & Hx & Hnot).
    intros Hempty.
    assert (Hin : x ∈ non_existent_cameras (camera_ids_of (config_file w))
                                           (cameras area))
      by now apply non_existent_cameras_spec.
    rewrite Hempty in Hin. now apply not_elem_of_empty in Hin.
  - apply non_existent_cameras_spec.
Qed.

(** Splitting never gives the empty list. *)
Lemma split_not_nil (sep : ascii) (s : string) : PyStr.split sep s <> [].
Proof.
  destruct s as [| c s]; cbn; [discriminate |].
  destruct (Ascii.eqb c sep); [discriminate |].
  destruct (PyStr.split sep s); discriminate.
Qed.

(** A string that splits into itself alone holds no separator. *)
Lemma split_app_sep (sep : ascii) (x s : string) :
  PyStr.split sep x = [x] ->
  PyStr.split sep (x +:+ String sep s) = x :: PyStr.split sep s.
Proof.
  induction x as [| c x IH]; simpl.
  - intros _. now rewrite Ascii.eqb_refl.
  - destruct (Ascii.eqb c sep) eqn:Hc.
    + intros H. inversion H.
    + destruct (PyStr.split sep x) as [| h t] eqn:Hx.
      * now destruct (split_not_nil sep x).
      * intros H. inversion H; subst h t. now rewrite IH.
Qed.

Lemma split_join (sep : ascii) (l : list string) :
  l <> [] ->
  Forall (fun x => PyStr.split sep x = [x]) l ->
  PyStr.split sep (PyStr.join (String sep "") l) = l.
Proof.
  unfold PyStr.join. induction l as [| x l IH]; [easy |].
  intros _ Hall. apply Forall_cons in Hall as [Hx Hl].
  destruct l as [| y l]; [exact Hx |].
  change (String.concat (String sep "") (x :: y :: l))
    with (x +:+ String sep (String.concat (String sep "") (y :: l))).
  rewrite split_app_sep by exact Hx. f_equal. now apply IH.
Qed.

(** X14: the camera list of the virtual area is a valid camera list.
    When there is at least one camera and no camera id holds a comma,
    the [cameras] string that [all_cameras_area] builds splits back
    into the camera ids and passes the camera check of create and
    update.  With no camera at all the string is empty and does not
    pass. *)
Theorem all_cameras_string_round_trip (w : World) :
  let ids := camera_ids_of (config_file w) in
  exists area,
    all_cameras_area w = (Return area, w) /\
    (ids <> [] ->
     Forall (fun x => PyStr.split "," x = [x]) ids ->
     PyStr.split "," (cameras area) = ids /\
     all_cameras_exist ids (cameras area) = true) /\
    (ids = [] ->
     cameras area = "" /\ all_cameras_exist ids (cameras area) = false).
Proof.
  intros ids. eexists. split; [reflexivity |]. cbn [cameras]. split.
  - intros Hne Hcommas.
    assert (Hsplit : PyStr.split ","
                       (PyStr.join "," (map camera_id (cameras_of (config_file w))))
                     = ids) by now apply split_join.
    split; [exact Hsplit |].
    unfold all_cameras_exist. rewrite Hsplit.
    apply forallb_forall. intros x Hx. now apply mem_In.
  - intros Hnil. subst ids. unfold camera_ids_of in *. rewrite Hnil.
    split; reflexivity.
Qed.

(** ** A sidecar without rules, and sections out of position *)

(** X15: what a sidecar that holds a document without rules does to the
    handlers.  An update without rules, and a delete, of such an area
    both pass their guards, save the configuration, and then fail in
    [delete_area_occupancy_rules] with [KeyError], leaving the sidecar
    empty; the delete has removed no directory by then. *)
Theorem sidecar_without_rules_breaks_update_and_delete (w : World)
    (area_id : string) (data : gmap string json) (reboot_processor : bool)
    (index : nat) :
  let p := get_area_config_path area_id in
  files w !! p = Some (Document data) ->
  data !! OCCUPANCY_RULES = None ->
  PyStr.upper area_id <> ALL_AREAS ->
  PyStr.index area_id (area_ids (config_file w)) = Some index ->
  (forall edited_area,
      all_cameras_exist (camera_ids_of (config_file w)) (cameras edited_area)
      = true ->
      truthy (occupancy_rules edited_area) = false ->
      let config_dict :=
        PyDict.set (config_file w) (area_section_name index)
          (map_to_config_file_format
             (set_occupancy_rules_field None (set_id area_id edited_area))) in
      exists w',
        edit_area area_id edited_area reboot_processor w
        = (Raise (KeyError OCCUPANCY_RULES), w') /\
        config_file w' = fst (save config_dict reboot_processor (config_file w)) /\
        files w' !! p = Some Truncated)
  /\
  (forall c1,
      PyDict.pop (config_file w) (area_section_name index) = Some c1 ->
      exists w',
        delete_area area_id reboot_processor w
        = (Raise (KeyError OCCUPANCY_RULES), w') /\
        config_file w'
        = fst (save (reestructure_areas c1) reboot_processor (config_file w)) /\
        files w' !! p = Some Truncated /\
        dirs w' = dirs w).
Proof.
  intros p Hfile Hkey Hall Hindex.
  pose proof (delete_rules_without_key get_area_config_path w area_id data
                Hfile Hkey) as Hdelete.
  split.
  - intros edited_area Hcams Hfalsy config_dict. eexists.
    rewrite (edit_area_run _ _ _ _ _ _ index) by assumption.
    unfold edit_rules_step. rewrite Hfalsy, bind_delete_rules, Hdelete.
    cbn. split; [reflexivity |]. split; [reflexivity |].
    apply lookup_insert_eq.
  - intros c1 Hpop. eexists.
    rewrite (delete_area_run _ _ _ index c1) by assumption.
    rewrite Hdelete. cbn. split; [reflexivity |]. split; [reflexivity |].
    split; [apply lookup_insert_eq | reflexivity].
Qed.

(** X16: the reserved token cannot be created.  An id that is "ALL" in
    any letter case, and that no stored area has, is refused with 400
    and the "Invalid ID" detail, whatever cameras and rules the payload
    names; the world is left as it was. *)
Theorem create_area_reserved_token (w : World) (new_area : AreaConfigDTO)
    (reboot_processor : bool) :
  PyStr.upper (id new_area) = ALL_AREAS ->
  ~ In (id new_area) (area_ids (config_file w)) ->
  create_area new_area reboot_processor w
  = (Raise (HTTPException HTTP_400_BAD_REQUEST
              (bad_request_serializer "Area with ID: 'ALL' is not valid."
                                      "Invalid ID")), w).
Proof.
  intros Hall Hfresh.
  unfold create_area, bind, gets, raise.
  destruct (PyStr.mem _ _) eqn:E; [now apply mem_In in E |].
  apply String.eqb_eq in Hall. now rewrite Hall.
Qed.

Lemma get_app_present {V} (d : PyDict.t V) (kv : string * V) (x : string) :
  In x (PyDict.keys d) -> PyDict.get (d ++ [kv]) x = PyDict.get d x.
Proof.
  induction d as [| [k v] d IH]; cbn; [easy |]. intros [-> | Hin].
  - now rewrite String.eqb_refl.
  - destruct (String.eqb k x); [reflexivity | now apply IH].
Qed.

Lemma get_app_fresh {V} (d : PyDict.t V) (k : string) (v : V) :
  ~ In k (PyDict.keys d) -> PyDict.get (d ++ [(k, v)]) k = Some v.
Proof.
  induction d as [| [k' v'] d IH]; cbn; intros Hfresh.
  - now rewrite String.eqb_refl.
  - destruct (String.eqb_spec k' k) as [-> | Hne]; [tauto |].
    apply IH. tauto.
Qed.

(** X17: [edit_area] writes the section named after the position of the
    area, not the section the area was read from.  When the area found
    at position [index] has no section called [Area_index], the update
    appends a new section instead of replacing one: the configuration
    handed to the save lists the id of the area once more than
    before. *)
Theorem edit_area_out_of_position (w : World) (area_id : string)
    (edited_area : AreaConfigDTO) (reboot_processor : bool) (index : nat) :
  PyStr.upper area_id <> ALL_AREAS ->
  PyStr.index area_id (area_ids (config_file w)) = Some index ->
  all_cameras_exist (camera_ids_of (config_file w)) (cameras edited_area)
  = true ->
  ~ In (area_section_name index) (PyDict.keys (config_file w)) ->
  let area_dict :=
    map_to_config_file_format
      (set_occupancy_rules_field None (set_id area_id edited_area)) in
  let config_dict := config_file w ++ [(area_section_name index, area_dict)] in
  config_file (snd (edit_area area_id edited_area reboot_processor w))
  = fst (save config_dict reboot_processor (config_file w)) /\
  area_ids config_dict = area_ids (config_file w) ++ [area_id].
Proof.
  intros Hall Hindex Hcams Hfresh area_dict config_dict. split.
  - rewrite (edit_area_run _ _ _ _ _ _ index) by assumption.
    cbn [snd config_file with_config]. fold area_dict.
    now rewrite set_fresh
      by first [exact Hfresh | exact get_area_config_path].
  - unfold area_ids, config_dict, names_with_prefix, PyDict.keys.
    rewrite map_app, List.filter_app, !map_app. cbn [map List.filter fst].
    change (PyStr.startswith (area_section_name index) AREA_PREFIX)
      with (is_area_name (area_section_name index)).
    rewrite area_section_name_is_area. cbn [map]. f_equal.
    + rewrite !map_map. apply map_ext_in. intros x Hx.
      unfold map_section_from_config. rewrite get_app_present; [reflexivity |].
      apply filter_In in Hx. apply Hx.
    + unfold map_section_from_config. rewrite get_app_fresh by exact Hfresh.
      cbn [default from_option Datatypes.id]. unfold area_dict.
      now rewrite area_of_section_round_trip.
Qed.

End MoreProperties.

(** ** The further properties at work *)

Import Cases.

(** Creating [lobby] again, updating the unknown [garage] and deleting
    ["all"] answer with HTTP errors and leave the demo world alone. *)
Lemma http_error_changes_nothing_witness :
  snd (create_area config_path log_dir config_dir save_ok lobby true world)
  = world /\
  snd (edit_area config_path save_ok "garage" lobby true world) = world /\
  snd (delete_area config_path log_dir config_dir save_ok "all" true world)
  = world.
Proof.
  split; [| split].
  - destruct (http_error_changes_nothing config_path log_dir config_dir
                save_ok world
                (snd (create_area config_path log_dir config_dir save_ok
                        lobby true world))
                HTTP_400_BAD_REQUEST
                (bad_request_serializer "Area already exists"
                                        "config duplicated area"))
      as (Hcreate & _).
    exact (proj1 (Hcreate lobby true ltac:(vm_compute; reflexivity))).
  - destruct (http_error_changes_nothing config_path log_dir config_dir
                save_ok world
                (snd (edit_area config_path save_ok "garage" lobby true world))
                HTTP_404_NOT_FOUND (AreaDoesNotExist "garage"))
      as (_ & Hedit & _).
    exact (proj1 (Hedit "garage" lobby true ltac:(vm_compute; reflexivity))).
  - destruct (http_error_changes_nothing config_path log_dir config_dir
                save_ok world
                (snd (delete_area config_path log_dir config_dir save_ok
                        "all" true world))
                HTTP_400_BAD_REQUEST
                (bad_request_serializer
                   "Area with ID: 'ALL' cannot be deleted." "Invalid ID"))
      as (_ & _ & Hdelete).
    exact (proj1 (Hdelete "all" true ltac:(vm_compute; reflexivity))).
Defined.

(** On the store whose only area sits in [Area_5], deleting [lobby]
    raises [KeyError] for [Area_0]. *)
Lemma delete_area_guards_witness :
  delete_area config_path log_dir config_dir save_ok "lobby" true gapped_world
  = (Raise (KeyError "Area_0"), gapped_world)
  /\
  delete_area config_path log_dir config_dir save_ok "garage" true world
  = (Raise (HTTPException HTTP_404_NOT_FOUND (AreaDoesNotExist "garage")),
     world).
Proof.
  split.
  - destruct (delete_area_guards config_path log_dir config_dir save_ok
                gapped_world "lobby" true) as (_ & _ & Hkey).
    apply (Hkey 0%nat).
    + vm_compute. discriminate.
    + vm_compute. reflexivity.
    + vm_compute. intros [H | [H | []]]; discriminate.
  - destruct (delete_area_guards config_path log_dir config_dir save_ok
                world "garage" true) as (_ & Hunknown & _).
    apply Hunknown.
    + vm_compute. discriminate.
    + vm_compute. intros [H | [H | []]]; discriminate.
Defined.

(** Without its directories, the demo installation loses [lobby] from
    the store and then fails on the missing log directory. *)
Lemma delete_area_missing_log_directory_witness :
  exists w',
    delete_area config_path log_dir config_dir save_ok "lobby" true bare_world
    = (Raise (FileNotFoundError (log_dir ++ ["lobby"])), w') /\
    area_ids (config_file w') = ["yard"].
Proof.
  destruct (delete_area_missing_log_directory config_path log_dir config_dir
              save_ok bare_world "lobby" true 0%nat
              (default [] (PyDict.pop (config_file bare_world) "Area_0")))
    as (w' & Hrun & Hstore & _).
  - vm_compute. discriminate.
  - vm_compute. reflexivity.
  - vm_compute. reflexivity.
  - left. vm_compute. reflexivity.
  - left. vm_compute. reflexivity.
  - exists w'. split; [exact Hrun |]. rewrite Hstore. vm_compute. reflexivity.
Defined.

Ltac by_computation := apply (bool_decide_unpack _); vm_compute; exact I.

(** Deleting [lobby] from the demo installation removes its log tree and
    keeps the log directory of [yard].  Deleting the area of the empty
    id removes the log base itself, and with it the log tree of
    [lobby]. *)
Lemma delete_area_removes_directories_witness :
  (let w' := snd (delete_area config_path log_dir config_dir save_ok
                    "lobby" true world) in
   lookup_dir world (os_path_join log_dir ["lobby"])
   = Some (log_dir ++ ["lobby"]) /\
   (log_dir ++ ["lobby"; "occupancy_log"] ∉ dirs w') /\
   log_dir ++ ["yard"] ∈ dirs w')
  /\
  (let w' := snd (delete_area config_path log_dir config_dir save_ok
                    "" true nameless_world) in
   lookup_dir nameless_world (os_path_join log_dir [""]) = Some log_dir /\
   log_dir ++ ["lobby"] ∈ dirs nameless_world /\
   (log_dir ++ ["lobby"] ∉ dirs w') /\
   (log_dir ∉ dirs w') /\
   ["data"] ∈ dirs w').
Proof.
  split.
  - intros w'.
    destruct (delete_area_removes_directories config_path log_dir config_dir
                save_ok world w' "lobby" true
                (handle_response None true (Some HTTP_204_NO_CONTENT))
                ltac:(vm_compute; reflexivity))
      as (log & cfg & Hlog & _ & Hgone & Hkept & Hplain & _).
    destruct Hplain as [-> ->].
    { repeat split; vm_compute; discriminate || reflexivity. }
    split; [exact Hlog |]. split.
    + apply (Hgone (log_dir ++ ["lobby"; "occupancy_log"])).
      left. now exists ["occupancy_log"].
    + apply (Hkept (log_dir ++ ["yard"])); by_computation.
  - intros w'.
    destruct (delete_area_removes_directories config_path log_dir config_dir
                save_ok nameless_world w' "" true
                (handle_response None true (Some HTTP_204_NO_CONTENT))
                ltac:(vm_compute; reflexivity))
      as (log & cfg & Hlog & _ & Hgone & Hkept & _ & Hempty).
    destruct (Hempty eq_refl) as [-> ->].
    split; [exact Hlog |]. split; [by_computation |]. split; [| split].
    + apply (Hgone (log_dir ++ ["lobby"])). left. now exists ["lobby"].
    + apply (Hgone log_dir). left. now exists [].
    + apply (Hkept ["data"]); by_computation.
Defined.

(** Creating [kitchen] leaves the sidecar of [lobby] as it was. *)
Lemma create_and_edit_touch_only_the_sidecar_witness :
  files (snd (create_area config_path log_dir config_dir save_ok kitchen true
                world_with_sidecars)) !! config_path "lobby"
  = Some (Document lobby_doc)
  /\
  files (snd (edit_area config_path save_ok "yard" kitchen true
                world_with_sidecars)) !! config_path "lobby"
  = Some (Document lobby_doc).
Proof.
  destruct (create_and_edit_touch_only_the_sidecar config_path log_dir
              config_dir save_ok world_with_sidecars) as (Hcreate & Hedit).
  split.
  - destruct (Hcreate kitchen true) as (Hfiles & _).
    rewrite (Hfiles (config_path "lobby")); [vm_compute; reflexivity |].
    vm_compute. discriminate.
  - destruct (Hedit "yard" kitchen true) as (Hfiles & _).
    rewrite (Hfiles (config_path "lobby")); [vm_compute; reflexivity |].
    vm_compute. discriminate.
Defined.

(** [lobby] has no sidecar in the demo world: it is read with the empty
    list of rules; [garage] is not stored. *)
Lemma get_area_outcomes_witness :
  (exists a,
      get_area config_path "lobby" world = (Return a, world) /\
      id a = "lobby" /\ occupancy_rules a = Some parse_obj_empty)
  /\
  get_area config_path "garage" world
  = (Raise (HTTPException HTTP_404_NOT_FOUND (AreaDoesNotExist "garage")),
     world).
Proof.
  split.
  - destruct (get_area_outcomes config_path world "lobby") as (Hother & _).
    destruct (Hother ltac:(vm_compute; discriminate)) as (_ & Hknown).
    destruct (Hknown ltac:(vm_compute; left; reflexivity))
      as (a & _ & Hid & Habsent & _).
    exists (set_occupancy_rules_field (Some parse_obj_empty) a).
    split; [apply Habsent; vm_compute; reflexivity |].
    split; [exact Hid | reflexivity].
  - destruct (get_area_outcomes config_path world "garage") as (Hother & _).
    destruct (Hother ltac:(vm_compute; discriminate)) as (Hunknown & _).
    apply Hunknown. vm_compute. intros [H | [H | []]]; discriminate.
Defined.

(** Creating [kitchen] with rules returns it without them and stores
    them in its sidecar. *)
Lemma responses_carry_no_rules_witness :
  let w' := snd (create_area config_path log_dir config_dir save_ok kitchen
                   true world) in
  occupancy_rules kitchen = Some (mkRules [JNum 1]) /\
  fst (create_area config_path log_dir config_dir save_ok kitchen true world)
  = Return (AreaResponse (Some (set_occupancy_rules_field None kitchen))) /\
  stored_rules w' (config_path "kitchen") = Some (JList [JNum 1]).
Proof.
  intros w'.
  destruct (responses_carry_no_rules config_path log_dir config_dir save_ok
              world w' (set_occupancy_rules_field None kitchen) true)
    as (Hcreate & _).
  destruct (Hcreate kitchen ltac:(vm_compute; reflexivity))
    as (_ & _ & Hstored).
  split; [reflexivity |]. split; [vm_compute; reflexivity |].
  apply (Hstored (mkRules [JNum 1])); [reflexivity | discriminate].
Defined.

(** Creating [kitchen] makes its directories.  With a save that fails,
    creating [attic], which has no rules, makes no directory; creating
    [kitchen], which has rules, makes the directory of its sidecar,
    which here is its configuration directory, and not its log
    directory. *)
Lemma create_area_directories_witness :
  lookup_dir (snd (create_area config_path log_dir config_dir save_ok kitchen
                     true world))
             (os_path_join log_dir ["kitchen"; "occupancy_log"])
  = Some (log_dir ++ ["kitchen"; "occupancy_log"])
  /\
  dirs (snd (create_area config_path log_dir config_dir save_failing attic
               true world))
  = dirs world
  /\
  (let w' := snd (create_area config_path log_dir config_dir save_failing
                    kitchen true world) in
   dirs w' = dirs world ∪ list_to_set (ancestors (config_dir ++ ["kitchen"])) /\
   config_dir ++ ["kitchen"] ∈ dirs w' /\
   (log_dir ++ ["kitchen"] ∉ dirs w')).
Proof.
  split; [| split].
  - destruct (create_area_directories config_path log_dir config_dir save_ok
                world
                (snd (create_area config_path log_dir config_dir save_ok
                        kitchen true world))
                kitchen true) as (Hmade & _).
    destruct (Hmade (Some (set_occupancy_rules_field None kitchen))
                ltac:(vm_compute; reflexivity))
      as (_ & _ & _ & _ & Hplain).
    apply Hplain. repeat split; vm_compute; discriminate || reflexivity.
  - destruct (create_area_directories config_path log_dir config_dir
                save_failing world
                (snd (create_area config_path log_dir config_dir save_failing
                        attic true world))
                attic true) as (_ & Hfailed).
    destruct (Hfailed (Some (map_to_config_file_format attic)) false
                (Some HTTP_201_CREATED) ltac:(vm_compute; reflexivity))
      as (_ & Hnone & _).
    now destruct (Hnone eq_refl).
  - intros w'.
    destruct (create_area_directories config_path log_dir config_dir
                save_failing world w' kitchen true) as (_ & Hfailed).
    destruct (Hfailed (Some (map_to_config_file_format
                               (set_occupancy_rules_field None kitchen)))
                false (Some HTTP_201_CREATED) ltac:(vm_compute; reflexivity))
      as (_ & _ & Hrules).
    specialize (Hrules eq_refl).
    change (dirname (config_path (id kitchen)))
      with (config_dir ++ ["kitchen"]) in Hrules.
    split; [exact Hrules |]. rewrite Hrules. split.
    + apply elem_of_union_r, elem_of_list_to_set, dirname_in_ancestors.
      discriminate.
    + by_computation.
Defined.

(** [yard] is listed, so it can be read. *)
Lemma listed_areas_can_be_read_witness :
  list_areas world = (Return [lobby; yard], world) /\
  forall d, fst (get_area config_path "yard" world)
            <> Raise (HTTPException HTTP_404_NOT_FOUND d).
Proof.
  assert (Hlist : list_areas world = (Return [lobby; yard], world))
    by (vm_compute; reflexivity).
  split; [exact Hlist |].
  apply (listed_areas_can_be_read config_path world world [lobby; yard] yard
           Hlist).
  - right; left; reflexivity.
  - vm_compute. discriminate.
Defined.

(** The sidecar of [lobby] holds rules: deleting them twice leaves the
    file empty. *)
Lemma delete_rules_twice_witness :
  let w1 := snd (delete_area_occupancy_rules config_path "lobby"
                   world_with_sidecars) in
  let w2 := snd (delete_area_occupancy_rules config_path "lobby" w1) in
  fst (delete_area_occupancy_rules config_path "lobby" w1)
  = Raise (KeyError OCCUPANCY_RULES) /\
  files w2 !! config_path "lobby" = Some Truncated.
Proof.
  intros w1 w2.
  destruct (delete_rules_twice config_path world_with_sidecars "lobby"
              lobby_doc (mkRules [])
              ltac:(vm_compute; reflexivity)
              ltac:(vm_compute; eauto))
    as (_ & _ & Hsecond & Hempty & _).
  split; [exact Hsecond | exact Hempty].
Defined.

(** Saving rules for [lobby] and deleting them again leaves the ["note"]
    of its sidecar and nothing else. *)
Lemma set_rules_then_set_or_delete_witness :
  let w1 := snd (set_occupancy_rules config_path "lobby" (mkRules [JNum 1])
                   world_with_sidecars) in
  files (snd (delete_area_occupancy_rules config_path "lobby" w1))
  !! config_path "lobby"
  = Some (Document {[ "note" := JStr "keep" ]}).
Proof.
  intros w1.
  destruct (set_rules_then_set_or_delete config_path world_with_sidecars
              "lobby" (mkRules [JNum 1]) (mkRules [JNum 2])
              ltac:(vm_compute; discriminate))
    as (_ & _ & _ & Hdeleted).
  subst w1. rewrite Hdeleted. vm_compute. reflexivity.
Defined.

(** [kitchen] with an empty camera list asks for the camera with the
    empty id. *)
Lemma empty_camera_list_rejected_witness :
  cameras kitchen_no_cameras = "" /\
  create_area config_path log_dir config_dir save_ok kitchen_no_cameras true
              world
  = (Raise (HTTPException HTTP_404_NOT_FOUND (CamerasDoNotExist {[""]})),
     world).
Proof.
  split; [reflexivity |].
  destruct (empty_camera_list_rejected config_path log_dir config_dir save_ok
              world kitchen_no_cameras true eq_refl)
    as (Hcreate & _).
  - vm_compute. intros [H | [H | []]]; discriminate.
  - apply Hcreate.
    + vm_compute. intros [H | [H | []]]; discriminate.
    + vm_compute. discriminate.
Defined.

(** The camera error for [kitchen] with [cam9] names [cam9]. *)
Lemma camera_error_detail_witness :
  create_area config_path log_dir config_dir save_ok kitchen_cam9 true world
  = (Raise (HTTPException HTTP_404_NOT_FOUND (CamerasDoNotExist {["cam9"]})),
     world)
  /\ ({["cam9"]} : gset string) <> ∅
  /\ ("cam9" ∈ ({["cam9"]} : gset string) <->
      In "cam9" (PyStr.split "," (cameras kitchen_cam9))
      /\ ~ In "cam9" (camera_ids_of (config_file world))).
Proof.
  assert (Hrun : create_area config_path log_dir config_dir save_ok
                   kitchen_cam9 true world
                 = (Raise (HTTPException HTTP_404_NOT_FOUND
                             (CamerasDoNotExist {["cam9"]})), world))
    by (vm_compute; reflexivity).
  destruct (camera_error_detail config_path log_dir config_dir save_ok
              world world HTTP_404_NOT_FOUND {["cam9"]} kitchen_cam9 true
              (or_introl Hrun))
    as (_ & _ & Hnonempty & Hexact).
  split; [exact Hrun |]. split; [exact Hnonempty | apply Hexact].
Defined.

(** The virtual area of the demo world lists [cam1,cam2], which splits
    back into the two camera ids. *)
Lemma all_cameras_string_round_trip_witness :
  exists area,
    all_cameras_area world = (Return area, world) /\
    cameras area = "cam1,cam2" /\
    PyStr.split "," (cameras area) = ["cam1"; "cam2"] /\
    all_cameras_exist (camera_ids_of (config_file world)) (cameras area)
    = true.
Proof.
  destruct (all_cameras_string_round_trip world)
    as (area & Hrun & Hsome & _).
  destruct Hsome as (Hsplit & Hvalid).
  - vm_compute. discriminate.
  - vm_compute. repeat constructor.
  - exists area. split; [exact Hrun |].
    assert (Harea : cameras area = "cam1,cam2").
    { vm_compute in Hrun. now inversion Hrun. }
    split; [exact Harea |]. split; [| exact Hvalid].
    rewrite Hsplit. vm_compute. reflexivity.
Defined.

(** The sidecar of [yard] holds [{}]: updating [yard] without rules and
    deleting [yard] both end in [KeyError] with the file left empty. *)
Lemma sidecar_without_rules_breaks_update_and_delete_witness :
  (exists w',
      edit_area config_path save_ok "yard" lobby true world_with_sidecars
      = (Raise (KeyError OCCUPANCY_RULES), w') /\
      files w' !! config_path "yard" = Some Truncated)
  /\
  (exists w',
      delete_area config_path log_dir config_dir save_ok "yard" true
                  world_with_sidecars
      = (Raise (KeyError OCCUPANCY_RULES), w') /\
      dirs w' = dirs world_with_sidecars).
Proof.
  destruct (sidecar_without_rules_breaks_update_and_delete config_path
              log_dir config_dir save_ok world_with_sidecars "yard" ∅ true
              1%nat)
    as (Hedit & Hdelete).
  - vm_compute. reflexivity.
  - reflexivity.
  - vm_compute. discriminate.
  - vm_compute. reflexivity.
  - split.
    + destruct (Hedit lobby ltac:(vm_compute; reflexivity) eq_refl)
        as (w' & Hrun & _ & Hempty).
      exists w'. split; [exact Hrun | exact Hempty].
    + destruct (Hdelete
                  (default [] (PyDict.pop (config_file world_with_sidecars)
                                          "Area_1"))
                  ltac:(vm_compute; reflexivity))
        as (w' & Hrun & _ & _ & Hdirs).
      exists w'. split; [exact Hrun | exact Hdirs].
Defined.

(** An area called ["All"] is refused, though its camera [cam9] does not
    exist either. *)
Lemma create_area_reserved_token_witness :
  id reserved_area = "All" /\
  create_area config_path log_dir config_dir save_ok reserved_area true world
  = (Raise (HTTPException HTTP_400_BAD_REQUEST
              (bad_request_serializer "Area with ID: 'ALL' is not valid."
                                      "Invalid ID")), world).
Proof.
  split; [reflexivity |].
  apply create_area_reserved_token.
  - reflexivity.
  - vm_compute. intros [H | [H | []]]; discriminate.
Defined.

(** On the store whose only area sits in [Area_5], updating [lobby]
    hands the save a store that lists [lobby] twice. *)
Lemma edit_area_out_of_position_witness :
  area_ids (config_file gapped_world) = ["lobby"] /\
  area_ids (config_file (snd (edit_area config_path save_ok "lobby" lobby true
                                gapped_world)))
  = ["lobby"; "lobby"].
Proof.
  split; [vm_compute; reflexivity |].
  destruct (edit_area_out_of_position config_path save_ok gapped_world "lobby"
              lobby true 0%nat)
    as (Hstore & Hids).
  - vm_compute. discriminate.
  - vm_compute. reflexivity.
  - vm_compute. reflexivity.
  - vm_compute. intros [H | [H | []]]; discriminate.
  - rewrite Hstore. cbn [save_ok fst]. rewrite Hids. vm_compute. reflexivity.
Defined.
